(** * QFieldCloud subscription ledger and choice fields

    A shallow embedding of

    - [docker-app/qfieldcloud/subscription/models.py]: plans, extra
      packages, subscriptions and their class methods,
    - the exclusion constraint on subscriptions that
      [docker-app/qfieldcloud/subscription/sql_config.py] installs,
    - the choice fields of [docker-app/qfieldcloud/core/serializers.py].

    Database tables are lists of rows in insertion order.  Python code that
    raises is modelled by an outcome that carries the exception and the
    database as it stands when the exception leaves the code;
    [transaction.atomic()] restores the snapshot taken on entry.  Every call
    of [timezone.now()] is an explicit argument of the method that makes it,
    one argument per call site. *)

From Stdlib Require Import ZArith QArith Qround List String Ascii Bool Lia.
Import ListNotations.

Local Open Scope Z_scope.

(** ** Python exceptions *)

(** The exceptions the modelled code can raise.  [DoesNotExist] and
    [MultipleObjectsReturned] carry the model class they belong to, since
    [except cls.DoesNotExist] only catches the exception of that class. *)
Inductive Model := PlanModel | SubscriptionModel | ExtraPackageModel.

Inductive Exn :=
| AssertionError (msg : string)
| AttributeError (cls attr : string)
| DoesNotExist (m : Model)
| MultipleObjectsReturned (m : Model)
| IntegrityError (constraint : string)
| DataError (msg : string)
| DatabaseError (msg : string)
| DjangoValidationError (msg : string)
| ValueError (msg : string)
| OverflowError (msg : string).

Definition Model_eqb (a b : Model) : bool :=
  match a, b with
  | PlanModel, PlanModel => true
  | SubscriptionModel, SubscriptionModel => true
  | ExtraPackageModel, ExtraPackageModel => true
  | _, _ => false
  end.

Definition is_DoesNotExist (m : Model) (e : Exn) : bool :=
  match e with
  | DoesNotExist m' => Model_eqb m m'
  | _ => false
  end.

(** Timestamps are integers (microseconds since the epoch); a nullable
    [DateTimeField] is an [option]. *)
Definition datetime := Z.

(** ** Choice fields (core/serializers.py) *)

Module ChoiceField.

Section Choices.
(** [K] is the type of internal codes and [V] the type of display labels;
    [_choices] is the ordered dictionary of the field, as the list of its
    items in iteration order. *)
Variables K V : Type.
Variable V_eqb : V -> V -> bool.

(** What [str.format] inserts for the list of labels: the labels
    themselves, in order. *)
Record ValidationError := {
  ve_template : string;
  ve_values : list V
}.

Definition values (_choices : list (K * V)) : list V := map snd _choices.

(** The loop of [to_internal_value]:
    [for i in self._choices: if self._choices[i] == data: return i]. *)
Fixpoint find_code (_choices : list (K * V)) (data : V) : option K :=
  match _choices with
  | [] => None
  | (i, label) :: rest => if V_eqb label data then Some i else find_code rest data
  end.

Definition to_internal_value (template : string) (_choices : list (K * V)) (data : V)
  : K + ValidationError :=
  match find_code _choices data with
  | Some i => inl i
  | None => inr {| ve_template := template; ve_values := values _choices |}
  end.

(** [to_representation]: [self._choices[obj]], a [KeyError] (here [None])
    when the code is no key. *)
Variable K_eqb : K -> K -> bool.

Fixpoint to_representation (_choices : list (K * V)) (obj : K) : option V :=
  match _choices with
  | [] => None
  | (i, label) :: rest => if K_eqb i obj then Some label else to_representation rest obj
  end.

End Choices.

Arguments ve_template {V}.
Arguments ve_values {V}.
Arguments values {K V}.
Arguments find_code {K V}.
Arguments to_internal_value {K V}.
Arguments to_representation {K V}.

(** [RoleChoiceField] and [StatusChoiceField] differ in the message only. *)
Definition role_template : string := "Invalid role. Acceptable values are {0}.".
Definition status_template : string := "Invalid status. Acceptable values are {0}.".

(** The text of the message for string labels: [str.format] inserts
    [str(list)], the [repr] of every label between brackets, separated by a
    comma and a space.

    [repr] of a [str] whose characters are the code points below 256.  The
    string stands between single quotes, unless it holds a single quote and
    no double quote: then between double quotes.  Inside, the enclosing
    quote and the backslash get a backslash; tab, line feed and carriage
    return are written [\t], [\n], [\r]; every other character that is
    not printable (the control characters 0-31 and 127-159, the no-break
    space 160 and the soft hyphen 173) is written [\xhh] with two lower
    case hexadecimal digits; the rest stands for itself. *)
Definition squote : ascii := ascii_of_nat 39.
Definition dquote_char : ascii := ascii_of_nat 34.
Definition backslash : ascii := ascii_of_nat 92.

Definition contains (c : ascii) (s : string) : bool :=
  existsb (Ascii.eqb c) (list_ascii_of_string s).

Definition isprintable (c : ascii) : bool :=
  let n := nat_of_ascii c in
  ((32 <=? n) && (n <? 127) || (161 <=? n) && negb (n =? 173))%nat.

Definition hex_digit (n : nat) : ascii :=
  nth n (list_ascii_of_string "0123456789abcdef") zero.

Definition py_escape (quote : ascii) (c : ascii) : string :=
  let one (a : ascii) := String a EmptyString in
  if Ascii.eqb c quote || Ascii.eqb c backslash then String backslash (one c)
  else if Ascii.eqb c (ascii_of_nat 9) then String backslash (one "t"%char)
  else if Ascii.eqb c (ascii_of_nat 10) then String backslash (one "n"%char)
  else if Ascii.eqb c (ascii_of_nat 13) then String backslash (one "r"%char)
  else if isprintable c then one c
  else String backslash (String "x"%char
         (String (hex_digit (nat_of_ascii c / 16)%nat)
            (one (hex_digit (nat_of_ascii c mod 16)%nat)))).

Definition py_quote (s : string) : ascii :=
  if contains squote s && negb (contains dquote_char s) then dquote_char else squote.

Definition py_repr (s : string) : string :=
  let quote := py_quote s in
  String quote
    (fold_right (fun c acc => (py_escape quote c ++ acc)%string) (String quote EmptyString)
       (list_ascii_of_string s)).

Fixpoint py_join (sep : string) (l : list string) : string :=
  match l with
  | [] => EmptyString
  | [x] => x
  | x :: rest => x ++ sep ++ py_join sep rest
  end.

Definition py_str_list (l : list string) : string :=
  "[" ++ py_join ", " (map py_repr l) ++ "]".

Definition message (prefix : string) (e : ValidationError string) : string :=
  prefix ++ py_str_list (ve_values e) ++ ".".

(** [x] occurs in [s] as a block of consecutive characters. *)
Definition occurs (x s : string) : Prop :=
  exists pre post, s = (pre ++ x ++ post)%string.

Definition role_prefix : string := "Invalid role. Acceptable values are ".
Definition status_prefix : string := "Invalid status. Acceptable values are ".

Definition RoleChoiceField_to_internal_value {K} (_choices : list (K * string)) (data : string) :=
  to_internal_value String.eqb role_template _choices data.

Definition StatusChoiceField_to_internal_value {K} (_choices : list (K * string)) (data : string) :=
  to_internal_value String.eqb status_template _choices data.

End ChoiceField.

(** ** Rows *)

(** [User.Type] is declared in qfieldcloud.core.models, outside this source
    tree; [Plan.user_type] stores it in a [PositiveSmallIntegerField].  Only
    the two members [Plan.save] names are needed, with distinct codes. *)
Module User.
Definition PERSON : Z := 1.
Definition ORGANIZATION : Z := 2.
End User.

(** A nullable primary key: [None] on a Python object that was never saved.
    Rows of a table always carry [Some]. *)
Definition pk_eqb (a b : option Z) : bool :=
  match a, b with
  | Some x, Some y => x =? y
  | _, _ => false
  end.

Module Plan.
Record t := {
  pk : option Z;
  code : string;
  user_type : Z;
  ordering : Z;
  display_name : string;
  storage_mb : Z;
  storage_keep_versions : Z;
  job_minutes : Z;
  can_add_storage : bool;
  can_add_job_minutes : bool;
  is_external_db_supported : bool;
  can_configure_repackaging_cache_expire : bool;
  min_repackaging_cache_expire : Z;
  synchronizations_per_months : Z;
  is_public : bool;
  is_default : bool;
  is_premium : bool;
  is_trial : bool;
  max_organization_members : Z;
  max_premium_collaborators_per_private_project : Z;
  max_trial_organizations : Z
}.

(** [Plan(code=..., display_name=..., is_default=..., is_public=...,
    user_type=...)]: the other columns take the defaults of the field
    declarations (durations in minutes). *)
Definition new (code : string) (display_name : string) (is_default is_public : bool)
    (user_type : Z) : t :=
  {| pk := None; code := code; user_type := user_type; ordering := 0;
     display_name := display_name; storage_mb := 10; storage_keep_versions := 10;
     job_minutes := 10; can_add_storage := false; can_add_job_minutes := false;
     is_external_db_supported := false;
     can_configure_repackaging_cache_expire := false;
     min_repackaging_cache_expire := 60; synchronizations_per_months := 30;
     is_public := is_public; is_default := is_default; is_premium := false;
     is_trial := false; max_organization_members := -1;
     max_premium_collaborators_per_private_project := -1;
     max_trial_organizations := 1 |}.

Definition set_pk (p : t) (v : option Z) : t :=
  {| pk := v; code := code p; user_type := user_type p; ordering := ordering p;
     display_name := display_name p; storage_mb := storage_mb p;
     storage_keep_versions := storage_keep_versions p; job_minutes := job_minutes p;
     can_add_storage := can_add_storage p; can_add_job_minutes := can_add_job_minutes p;
     is_external_db_supported := is_external_db_supported p;
     can_configure_repackaging_cache_expire := can_configure_repackaging_cache_expire p;
     min_repackaging_cache_expire := min_repackaging_cache_expire p;
     synchronizations_per_months := synchronizations_per_months p;
     is_public := is_public p; is_default := is_default p; is_premium := is_premium p;
     is_trial := is_trial p; max_organization_members := max_organization_members p;
     max_premium_collaborators_per_private_project :=
       max_premium_collaborators_per_private_project p;
     max_trial_organizations := max_trial_organizations p |}.

Definition set_is_default (p : t) (v : bool) : t :=
  {| pk := pk p; code := code p; user_type := user_type p; ordering := ordering p;
     display_name := display_name p; storage_mb := storage_mb p;
     storage_keep_versions := storage_keep_versions p; job_minutes := job_minutes p;
     can_add_storage := can_add_storage p; can_add_job_minutes := can_add_job_minutes p;
     is_external_db_supported := is_external_db_supported p;
     can_configure_repackaging_cache_expire := can_configure_repackaging_cache_expire p;
     min_repackaging_cache_expire := min_repackaging_cache_expire p;
     synchronizations_per_months := synchronizations_per_months p;
     is_public := is_public p; is_default := v; is_premium := is_premium p;
     is_trial := is_trial p; max_organization_members := max_organization_members p;
     max_premium_collaborators_per_private_project :=
       max_premium_collaborators_per_private_project p;
     max_trial_organizations := max_trial_organizations p |}.

Definition set_user_type (p : t) (v : Z) : t :=
  {| pk := pk p; code := code p; user_type := v; ordering := ordering p;
     display_name := display_name p; storage_mb := storage_mb p;
     storage_keep_versions := storage_keep_versions p; job_minutes := job_minutes p;
     can_add_storage := can_add_storage p; can_add_job_minutes := can_add_job_minutes p;
     is_external_db_supported := is_external_db_supported p;
     can_configure_repackaging_cache_expire := can_configure_repackaging_cache_expire p;
     min_repackaging_cache_expire := min_repackaging_cache_expire p;
     synchronizations_per_months := synchronizations_per_months p;
     is_public := is_public p; is_default := is_default p; is_premium := is_premium p;
     is_trial := is_trial p; max_organization_members := max_organization_members p;
     max_premium_collaborators_per_private_project :=
       max_premium_collaborators_per_private_project p;
     max_trial_organizations := max_trial_organizations p |}.
End Plan.

Module ExtraPackageType.
Inductive Type_ := STORAGE.

Record t := {
  pk : option Z;
  code : string;
  display_name : string;
  type : Type_;
  is_public : bool;
  min_quantity : Z;
  max_quantity : Z;
  unit_amount : Z;
  unit_label : option string
}.
End ExtraPackageType.

Module ExtraPackage.
(** [subscription] and [type] are the foreign keys [subscription_id] and
    [type_id]. *)
Record t := {
  pk : option Z;
  subscription : option Z;
  type : option Z;
  quantity : Z;
  active_since : datetime;
  active_until : option datetime
}.

Definition set_pk (p : t) (v : option Z) : t :=
  {| pk := v; subscription := subscription p; type := type p; quantity := quantity p;
     active_since := active_since p; active_until := active_until p |}.

Definition set_active_until (p : t) (v : option datetime) : t :=
  {| pk := pk p; subscription := subscription p; type := type p; quantity := quantity p;
     active_since := active_since p; active_until := v |}.
End ExtraPackage.

(** [UserAccount] (qfieldcloud.core.models, outside this source tree), as
    far as the subscription code reads it: its primary key, [account.user]
    (the key of the user), [account.user.type] and the property
    [account.storage_quota_used_mb], a whole number of megabytes (a Python
    [int]). *)
Module UserAccount.
Record t := {
  pk : Z;
  user : Z;
  user_type : Z;
  storage_quota_used_mb : Z
}.
End UserAccount.

Module Subscription.
Inductive Status :=
| INACTIVE_DRAFT
| INACTIVE_DRAFT_EXPIRED
| INACTIVE_REQUESTED_CREATE
| INACTIVE_AWAITS_PAYMENT
| ACTIVE_PAID
| ACTIVE_PAST_DUE
| INACTIVE_CANCELLED.

(** The value stored in the [status] column. *)
Definition Status_value (s : Status) : string :=
  match s with
  | INACTIVE_DRAFT => "inactive_draft"
  | INACTIVE_DRAFT_EXPIRED => "inactive_draft_expired"
  | INACTIVE_REQUESTED_CREATE => "inactive Requested_create"
  | INACTIVE_AWAITS_PAYMENT => "inactive_awaits_payment"
  | ACTIVE_PAID => "active_paid"
  | ACTIVE_PAST_DUE => "active_past_due"
  | INACTIVE_CANCELLED => "inactive_cancelled"
  end.

(** The columns the class methods read or write; [plan], [account] and
    [created_by] are the foreign keys ([plan] is the key of a plan
    object, absent while that object is unsaved).  The columns [uuid], [created_at]
    and [updated_at] are filled by the framework and read by no method
    below; they are left out. *)
Record t := {
  pk : option Z;
  plan : option Z;
  account : Z;
  storage_quantity : Z;
  status : Status;
  created_by : Z;
  requested_cancel_at : option datetime;
  active_since : option datetime;
  active_until : option datetime
}.

Definition set_pk (s : t) (v : option Z) : t :=
  {| pk := v; plan := plan s; account := account s;
     storage_quantity := storage_quantity s; status := status s;
     created_by := created_by s; requested_cancel_at := requested_cancel_at s;
     active_since := active_since s; active_until := active_until s |}.

Definition set_plan (s : t) (v : option Z) : t :=
  {| pk := pk s; plan := v; account := account s;
     storage_quantity := storage_quantity s; status := status s;
     created_by := created_by s; requested_cancel_at := requested_cancel_at s;
     active_since := active_since s; active_until := active_until s |}.

Definition set_account (s : t) (v : Z) : t :=
  {| pk := pk s; plan := plan s; account := v;
     storage_quantity := storage_quantity s; status := status s;
     created_by := created_by s; requested_cancel_at := requested_cancel_at s;
     active_since := active_since s; active_until := active_until s |}.

Definition set_storage_quantity (s : t) (v : Z) : t :=
  {| pk := pk s; plan := plan s; account := account s;
     storage_quantity := v; status := status s;
     created_by := created_by s; requested_cancel_at := requested_cancel_at s;
     active_since := active_since s; active_until := active_until s |}.

Definition set_status (s : t) (v : Status) : t :=
  {| pk := pk s; plan := plan s; account := account s;
     storage_quantity := storage_quantity s; status := v;
     created_by := created_by s; requested_cancel_at := requested_cancel_at s;
     active_since := active_since s; active_until := active_until s |}.

Definition set_created_by (s : t) (v : Z) : t :=
  {| pk := pk s; plan := plan s; account := account s;
     storage_quantity := storage_quantity s; status := status s;
     created_by := v; requested_cancel_at := requested_cancel_at s;
     active_since := active_since s; active_until := active_until s |}.

Definition set_requested_cancel_at (s : t) (v : option datetime) : t :=
  {| pk := pk s; plan := plan s; account := account s;
     storage_quantity := storage_quantity s; status := status s;
     created_by := created_by s; requested_cancel_at := v;
     active_since := active_since s; active_until := active_until s |}.

Definition set_active_since (s : t) (v : option datetime) : t :=
  {| pk := pk s; plan := plan s; account := account s;
     storage_quantity := storage_quantity s; status := status s;
     created_by := created_by s; requested_cancel_at := requested_cancel_at s;
     active_since := v; active_until := active_until s |}.

Definition set_active_until (s : t) (v : option datetime) : t :=
  {| pk := pk s; plan := plan s; account := account s;
     storage_quantity := storage_quantity s; status := status s;
     created_by := created_by s; requested_cancel_at := requested_cancel_at s;
     active_since := active_since s; active_until := v |}.
End Subscription.

(** ** The database and the monad of the methods *)

Record World := {
  plans : list Plan.t;
  subscriptions : list Subscription.t;
  packages : list ExtraPackage.t
}.

Definition set_plans (w : World) (v : list Plan.t) : World :=
  {| plans := v; subscriptions := subscriptions w; packages := packages w |}.

Definition set_subscriptions (w : World) (v : list Subscription.t) : World :=
  {| plans := plans w; subscriptions := v; packages := packages w |}.

Definition set_packages (w : World) (v : list ExtraPackage.t) : World :=
  {| plans := plans w; subscriptions := subscriptions w; packages := v |}.

(** A call either returns a value or raises; both leave a database. *)
Inductive Outcome (A : Type) :=
| Returned (a : A) (w : World)
| Raised (e : Exn) (w : World).

Arguments Returned {A}.
Arguments Raised {A}.

Definition M (A : Type) : Type := World -> Outcome A.

Definition ret {A} (a : A) : M A := fun w => Returned a w.

Definition bind {A B} (c : M A) (k : A -> M B) : M B :=
  fun w =>
    match c w with
    | Returned a w' => k a w'
    | Raised e w' => Raised e w'
    end.

Definition raise {A} (e : Exn) : M A := fun w => Raised e w.

Declare Scope py_scope.
Delimit Scope py_scope with py.

Notation "x <- c1 ;; c2" := (bind c1 (fun x => c2))
  (at level 100, c1 at next level, right associativity) : py_scope.
Notation "c1 ;; c2" := (bind c1 (fun _ => c2))
  (at level 100, right associativity) : py_scope.

Local Open Scope py_scope.

(** [with transaction.atomic(): body]: when the body raises, the writes it
    made are rolled back and the exception goes on. *)
Definition atomic {A} (body : M A) : M A :=
  fun w =>
    match body w with
    | Returned a w' => Returned a w'
    | Raised e _ => Raised e w
    end.

(** [try: body except E: handler], for the exceptions [handles] accepts. *)
Definition try_except {A} (body : M A) (handles : Exn -> bool) (handler : M A) : M A :=
  fun w =>
    match body w with
    | Returned a w' => Returned a w'
    | Raised e w' => if handles e then handler w' else Raised e w'
    end.

(** [assert cond, msg]. *)
Definition py_assert (cond : bool) (msg : string) : M unit :=
  if cond then ret tt else raise (AssertionError msg).

(** [QuerySet.get()] on the rows a query selects. *)
Definition get {A} (m : Model) (rows : list A) : M A :=
  match rows with
  | [] => raise (DoesNotExist m)
  | [x] => ret x
  | _ :: _ :: _ => raise (MultipleObjectsReturned m)
  end.

(** The key an [AutoField] gives to a new row: one above the largest key
    of the table. *)
Definition next_pk (keys : list (option Z)) : Z :=
  1 + fold_right (fun k acc => match k with Some i => Z.max i acc | None => acc end) 0 keys.

(** ** Active periods and the exclusion constraint *)

(** [SubscriptionQuerySet.active], with [now] the value [timezone.now()]
    returns:
    [Q(active_since__lte=now) & (Q(active_until__isnull=True) | Q(active_until__gte=now))].
    A null [active_since] satisfies no comparison. *)
Definition SubscriptionQuerySet_active (now : datetime) (s : Subscription.t) : bool :=
  match Subscription.active_since s with
  | None => false
  | Some since =>
      (since <=? now) &&
      match Subscription.active_until s with
      | None => true
      | Some until => until >=? now
      end
  end.

(** [ExtraPackageQuerySet.active], the same filter on packages. *)
Definition ExtraPackageQuerySet_active (now : datetime) (p : ExtraPackage.t) : bool :=
  (ExtraPackage.active_since p <=? now) &&
  match ExtraPackage.active_until p with
  | None => true
  | Some until => until >=? now
  end.

(** PostgreSQL's [tstzrange(lo, hi)]: the range [lo, hi), unbounded above
    when [hi] is null; building it fails when [lo > hi]. *)
Definition before (lo : datetime) (hi : option datetime) : bool :=
  match hi with
  | None => true
  | Some h => lo <? h
  end.

Definition tstzrange_defined (lo : datetime) (hi : option datetime) : bool :=
  match hi with
  | None => true
  | Some h => lo <=? h
  end.

(** [r1 && r2]: the two ranges share a point; an empty range shares none. *)
Definition tstzrange_overlap (lo1 : datetime) (hi1 : option datetime)
    (lo2 : datetime) (hi2 : option datetime) : bool :=
  before lo1 hi1 && before lo2 hi2 && before lo1 hi2 && before lo2 hi1.

(** [subscription_subscription_prevent_overlaps] (sql_config.py):
    [EXCLUDE USING gist (account_id WITH =, tstzrange(active_since, active_until) WITH &&)
     WHERE (active_since IS NOT NULL)]. *)
Definition excluded (a b : Subscription.t) : bool :=
  match Subscription.active_since a, Subscription.active_since b with
  | Some lo_a, Some lo_b =>
      (Subscription.account a =? Subscription.account b) &&
      tstzrange_overlap lo_a (Subscription.active_until a) lo_b (Subscription.active_until b)
  | _, _ => false
  end.

Fixpoint prevent_overlaps (tbl : list Subscription.t) : bool :=
  match tbl with
  | [] => true
  | r :: rest => forallb (fun r' => negb (excluded r r')) rest && prevent_overlaps rest
  end.

Definition range_defined (s : Subscription.t) : bool :=
  match Subscription.active_since s with
  | None => true
  | Some lo => tstzrange_defined lo (Subscription.active_until s)
  end.

(** A statement that writes the subscription table.  The engine evaluates
    the range of every row it writes and checks it against the other rows;
    on a table that satisfied the constraint before the statement this is
    the check of the whole table after it.  A refused statement writes
    nothing. *)
Definition write_subscriptions (tbl : list Subscription.t) : M unit :=
  fun w =>
    if negb (forallb range_defined tbl) then
      Raised (DataError "range lower bound must be less than or equal to range upper bound") w
    else if negb (prevent_overlaps tbl) then
      Raised (IntegrityError "subscription_subscription_prevent_overlaps") w
    else Returned tt (set_subscriptions w tbl).

(** ** Plan *)

(** The unique index on [Plan.code]. *)
Fixpoint codes_unique (tbl : list Plan.t) : bool :=
  match tbl with
  | [] => true
  | r :: rest =>
      forallb (fun r' => negb (String.eqb (Plan.code r) (Plan.code r'))) rest && codes_unique rest
  end.

Definition write_plans (tbl : list Plan.t) : M unit :=
  fun w =>
    if codes_unique tbl then Returned tt (set_plans w tbl)
    else Raised (IntegrityError "subscription_plan_code_key") w.

(** [models.Model.save]: an object with a key whose row exists is written
    over that row; otherwise a row is inserted, with a fresh key when the
    object has none. *)
Definition Model_save_plan (self : Plan.t) : M Plan.t :=
  fun w =>
    let tbl := plans w in
    if existsb (fun r => pk_eqb (Plan.pk r) (Plan.pk self)) tbl then
      (write_plans (map (fun r => if pk_eqb (Plan.pk r) (Plan.pk self) then self else r) tbl) ;;
       ret self) w
    else
      let self := match Plan.pk self with
                  | Some _ => self
                  | None => Plan.set_pk self (Some (next_pk (map Plan.pk tbl)))
                  end in
      (write_plans (tbl ++ [self]) ;; ret self) w.

(** [Plan.objects.filter(user_type=user_type).update(is_default=False)]. *)
Definition Plan_unset_default (user_type : Z) : M unit :=
  fun w =>
    Returned tt
      (set_plans w
         (map (fun r => if Plan.user_type r =? user_type then Plan.set_is_default r false else r)
            (plans w))).

(** The message of the validation error of [Plan.save]; the double quote
    is character 34. *)
Definition dquote : string := String (ascii_of_nat 34) EmptyString.

Definition user_type_message : string :=
  "Only " ++ dquote ++ "PERSON" ++ dquote ++ " and " ++ dquote ++ "ORGANIZATION" ++ dquote
  ++ " user types are allowed.".

(** [Plan.save], called with no argument: [self.save()]. *)
Definition Plan_save (self : Plan.t) : M Plan.t :=
  if negb ((Plan.user_type self =? User.PERSON) || (Plan.user_type self =? User.ORGANIZATION))
  then raise (DjangoValidationError user_type_message)
  else
    atomic (
      (if Plan.is_default self then Plan_unset_default (Plan.user_type self) else ret tt) ;;
      Model_save_plan self).

(** [Plan.save(self, *args, **kwargs)] hands its arguments on to
    [models.Model.save(force_insert=False, force_update=False, using=None,
    update_fields=None)].  There is one database, so [using] is left out.
    [update_fields] lists concrete columns other than the key. *)
Inductive PlanColumn :=
| c_code | c_user_type | c_ordering | c_display_name | c_storage_mb
| c_storage_keep_versions | c_job_minutes | c_can_add_storage | c_can_add_job_minutes
| c_is_external_db_supported | c_can_configure_repackaging_cache_expire
| c_min_repackaging_cache_expire | c_synchronizations_per_months | c_is_public
| c_is_default | c_is_premium | c_is_trial | c_max_organization_members
| c_max_premium_collaborators_per_private_project | c_max_trial_organizations.

Definition PlanColumn_index (c : PlanColumn) : nat :=
  match c with
  | c_code => 0 | c_user_type => 1 | c_ordering => 2 | c_display_name => 3
  | c_storage_mb => 4 | c_storage_keep_versions => 5 | c_job_minutes => 6
  | c_can_add_storage => 7 | c_can_add_job_minutes => 8
  | c_is_external_db_supported => 9 | c_can_configure_repackaging_cache_expire => 10
  | c_min_repackaging_cache_expire => 11 | c_synchronizations_per_months => 12
  | c_is_public => 13 | c_is_default => 14 | c_is_premium => 15 | c_is_trial => 16
  | c_max_organization_members => 17
  | c_max_premium_collaborators_per_private_project => 18
  | c_max_trial_organizations => 19
  end%nat.

Definition PlanColumn_eqb (a b : PlanColumn) : bool :=
  Nat.eqb (PlanColumn_index a) (PlanColumn_index b).

Record SaveKwargs := {
  force_insert : bool;
  force_update : bool;
  update_fields : option (list PlanColumn)
}.

(** [save()]: every argument at its default. *)
Definition no_kwargs : SaveKwargs :=
  {| force_insert := false; force_update := false; update_fields := None |}.

(** The row an [UPDATE] of the columns [cols] leaves: the listed columns
    from the object, the others from the stored row. *)
Definition store_columns (cols : list PlanColumn) (obj row : Plan.t) : Plan.t :=
  let pick {A} (c : PlanColumn) (f : Plan.t -> A) : A :=
    if existsb (PlanColumn_eqb c) cols then f obj else f row in
  {| Plan.pk := Plan.pk row;
     Plan.code := pick c_code Plan.code;
     Plan.user_type := pick c_user_type Plan.user_type;
     Plan.ordering := pick c_ordering Plan.ordering;
     Plan.display_name := pick c_display_name Plan.display_name;
     Plan.storage_mb := pick c_storage_mb Plan.storage_mb;
     Plan.storage_keep_versions := pick c_storage_keep_versions Plan.storage_keep_versions;
     Plan.job_minutes := pick c_job_minutes Plan.job_minutes;
     Plan.can_add_storage := pick c_can_add_storage Plan.can_add_storage;
     Plan.can_add_job_minutes := pick c_can_add_job_minutes Plan.can_add_job_minutes;
     Plan.is_external_db_supported :=
       pick c_is_external_db_supported Plan.is_external_db_supported;
     Plan.can_configure_repackaging_cache_expire :=
       pick c_can_configure_repackaging_cache_expire
         Plan.can_configure_repackaging_cache_expire;
     Plan.min_repackaging_cache_expire :=
       pick c_min_repackaging_cache_expire Plan.min_repackaging_cache_expire;
     Plan.synchronizations_per_months :=
       pick c_synchronizations_per_months Plan.synchronizations_per_months;
     Plan.is_public := pick c_is_public Plan.is_public;
     Plan.is_default := pick c_is_default Plan.is_default;
     Plan.is_premium := pick c_is_premium Plan.is_premium;
     Plan.is_trial := pick c_is_trial Plan.is_trial;
     Plan.max_organization_members :=
       pick c_max_organization_members Plan.max_organization_members;
     Plan.max_premium_collaborators_per_private_project :=
       pick c_max_premium_collaborators_per_private_project
         Plan.max_premium_collaborators_per_private_project;
     Plan.max_trial_organizations :=
       pick c_max_trial_organizations Plan.max_trial_organizations |}.

(** [models.Model.save] with its arguments.  [force_insert] together with
    [force_update] or a non-empty [update_fields] is refused; an empty
    [update_fields] saves nothing.  An object without a key is inserted
    with a fresh one, unless an update is forced.  An object with a key is
    written over its row (all columns, or the listed ones), unless
    [force_insert] is set; when there is no such row, a forced update
    fails and a plain save inserts.  An insert under a key that is taken
    breaks the primary key. *)
Definition Model_save_plan_kwargs (kw : SaveKwargs) (self : Plan.t) : M Plan.t :=
  let listed := match update_fields kw with Some (_ :: _) => true | _ => false end in
  if force_insert kw && (force_update kw || listed) then
    raise (ValueError "Cannot force both insert and updating in model saving.")
  else
    match update_fields kw with
    | Some [] => ret self
    | _ =>
        fun w =>
          let tbl := plans w in
          match Plan.pk self with
          | None =>
              if force_update kw || listed then
                Raised (ValueError "Cannot force an update in save() with no primary key.") w
              else
                let self := Plan.set_pk self (Some (next_pk (map Plan.pk tbl))) in
                (write_plans (tbl ++ [self]) ;; ret self) w
          | Some i =>
              let stored := existsb (fun r => pk_eqb (Plan.pk r) (Some i)) tbl in
              if negb (force_insert kw) && stored then
                (write_plans
                   (map (fun r => if pk_eqb (Plan.pk r) (Some i)
                                  then match update_fields kw with
                                       | Some cols => store_columns cols self r
                                       | None => self
                                       end
                                  else r) tbl) ;;
                 ret self) w
              else if force_update kw then
                Raised (DatabaseError "Forced update did not affect any rows.") w
              else if listed then
                Raised (DatabaseError "Save with update_fields did not affect any rows.") w
              else if stored then
                Raised (IntegrityError "subscription_plan_pkey") w
              else
                (write_plans (tbl ++ [self]) ;; ret self) w
          end
    end.

(** [Plan.save] with the arguments it hands on. *)
Definition Plan_save_kwargs (kw : SaveKwargs) (self : Plan.t) : M Plan.t :=
  if negb ((Plan.user_type self =? User.PERSON) || (Plan.user_type self =? User.ORGANIZATION))
  then raise (DjangoValidationError user_type_message)
  else
    atomic (
      (if Plan.is_default self then Plan_unset_default (Plan.user_type self) else ret tt) ;;
      Model_save_plan_kwargs kw self).

(** [Plan.objects.create(...)]: builds the object and saves it. *)
Definition Plan_objects_create (code display_name : string) (is_default is_public : bool)
    (user_type : Z) : M Plan.t :=
  Plan_save (Plan.new code display_name is_default is_public user_type).

(** [order_by("-is_default").first()]: the rows flagged default come first;
    among equals the order is the engine's, here the table order. *)
Definition first_by_is_default (tbl : list Plan.t) : option Plan.t :=
  match filter Plan.is_default tbl with
  | p :: _ => Some p
  | [] => match tbl with p :: _ => Some p | [] => None end
  end.

(** [Plan.get_or_create_default]. *)
Definition Plan_get_or_create_default : M (option Plan.t) :=
  fun w =>
    ((if (Z.of_nat (List.length (plans w)) =? 0) then
        atomic (
          Plan_objects_create "default_user" "default user (autocreated)" true false User.PERSON ;;
          Plan_objects_create "default_org" "default organization (autocreated)" true false
            User.ORGANIZATION ;;
          ret tt)
      else ret tt) ;;
     (fun w' => Returned (first_by_is_default (plans w')) w')) w.

(** ** Subscription *)

(** [self.plan]: the row of the plan table the foreign key points to. *)
Definition Subscription_plan (self : Subscription.t) : M Plan.t :=
  fun w => get PlanModel (filter (fun p => pk_eqb (Plan.pk p) (Subscription.plan self)) (plans w)) w.

(** Python floats are the IEEE 754 binary64 numbers; a finite float is the
    rational it denotes.  An operation gives the exact result rounded to
    the nearest float, ties to the even significand.

    [half_even s]: the integer nearest to [s], the even one of two. *)
Definition half_even (s : Q) : Z :=
  let f := Qfloor s in
  match Qcompare (s - inject_Z f) (1 # 2) with
  | Lt => f
  | Gt => f + 1
  | Eq => if Z.even f then f else f + 1
  end.

(** [floor_log2 q], for [0 < q]: the [e] with [2 ^ e <= q < 2 ^ (e + 1)]. *)
Definition floor_log2 (q : Q) : Z :=
  let n := Qnum q in
  let d := Zpos (Qden q) in
  let e := Z.log2 n - Z.log2 d in
  if (if 0 <=? e then 2 ^ e * d <=? n else d <=? 2 ^ (- e) * n) then e else e - 1.

(** [scale q j] is [q * 2 ^ j]. *)
Definition scale (q : Q) (j : Z) : Q :=
  if 0 <=? j then (q * inject_Z (2 ^ j))%Q else (q / inject_Z (2 ^ (- j)))%Q.

(** The float nearest to [q], for [0 < q]: 53 significant bits from the
    exponent of [q] on, and from the exponent -1022 on for the subnormal
    numbers; [None] when the rounded value is beyond the largest float. *)
Definition binary64_pos (q : Q) : option Q :=
  let e := Z.max (floor_log2 q) (-1022) in
  let r := scale (inject_Z (half_even (scale q (52 - e)))) (e - 52) in
  if Qle_bool (inject_Z (2 ^ 1024)) r then None else Some r.

Definition binary64 (q : Q) : option Q :=
  match Qcompare q 0 with
  | Eq => Some 0%Q
  | Gt => binary64_pos q
  | Lt => option_map Qopp (binary64_pos (- q))
  end.

(** [a / b] on two [int]s with [b] positive: the quotient of the integers,
    rounded once. *)
Definition int_truediv (a : Z) (b : positive) : Q + Exn :=
  match binary64 (a # b) with
  | Some x => inl x
  | None => inr (OverflowError "integer division result too large for a float")
  end.

(** [math.ceil] of a finite float: an [int]. *)
Definition math_ceil (x : Q) : Z := Qceiling x.

(** [max(x, 0)] on an [int]: [x] unless [0 > x]. *)
Definition py_max0 (x : Z) : Z := if 0 >? x then 0 else x.

(** [min_storage_package_quantity]:
    [math.ceil(max(used - included, 0) / 1000)] with
    [used = self.account.storage_quota_used_mb] and
    [included = self.plan.storage_mb].  The difference and the maximum are
    computed on [int]s, exactly; [/] is Python's true division, which gives
    a float. *)
Definition min_storage_package_quantity (account : UserAccount.t) (plan : Plan.t) : Z + Exn :=
  let used := UserAccount.storage_quota_used_mb account in
  let included := Plan.storage_mb plan in
  match int_truediv (py_max0 (used - included)) 1000 with
  | inl x => inl (math_ceil x)
  | inr e => inr e
  end.

(** The keyword arguments [update_subscription] passes on to [setattr]:
    the concrete columns other than the key and the three named
    parameters. *)
Inductive Attr :=
| attr_plan (v : option Z)
| attr_account (v : Z)
| attr_storage_quantity (v : Z)
| attr_created_by (v : Z)
| attr_requested_cancel_at (v : option datetime).

Inductive Field :=
| f_plan | f_account | f_storage_quantity | f_status | f_created_by
| f_requested_cancel_at | f_active_since | f_active_until.

Definition attr_name (a : Attr) : Field :=
  match a with
  | attr_plan _ => f_plan
  | attr_account _ => f_account
  | attr_storage_quantity _ => f_storage_quantity
  | attr_created_by _ => f_created_by
  | attr_requested_cancel_at _ => f_requested_cancel_at
  end.

Definition setattr (s : Subscription.t) (a : Attr) : Subscription.t :=
  match a with
  | attr_plan v => Subscription.set_plan s v
  | attr_account v => Subscription.set_account s v
  | attr_storage_quantity v => Subscription.set_storage_quantity s v
  | attr_created_by v => Subscription.set_created_by s v
  | attr_requested_cancel_at v => Subscription.set_requested_cancel_at s v
  end.

(** The column [f] of [row] takes the value the object [obj] holds. *)
Definition store_field (obj : Subscription.t) (row : Subscription.t) (f : Field) : Subscription.t :=
  match f with
  | f_plan => Subscription.set_plan row (Subscription.plan obj)
  | f_account => Subscription.set_account row (Subscription.account obj)
  | f_storage_quantity => Subscription.set_storage_quantity row (Subscription.storage_quantity obj)
  | f_status => Subscription.set_status row (Subscription.status obj)
  | f_created_by => Subscription.set_created_by row (Subscription.created_by obj)
  | f_requested_cancel_at =>
      Subscription.set_requested_cancel_at row (Subscription.requested_cancel_at obj)
  | f_active_since => Subscription.set_active_since row (Subscription.active_since obj)
  | f_active_until => Subscription.set_active_until row (Subscription.active_until obj)
  end.

(** [obj.save(update_fields=fields)]: an UPDATE of the listed columns of the
    row with the key of [obj]; it fails when no row has that key.  Of the
    constraints of the table the model has the exclusion constraint; a
    value that breaks a foreign key or the range of a column makes the
    code raise where the model returns, so what holds of every call that
    returns in the model holds of every call that returns in the code. *)
Definition Subscription_save (obj : Subscription.t) (update_fields : list Field) : M unit :=
  fun w =>
    let tbl := subscriptions w in
    if existsb (fun r => pk_eqb (Subscription.pk r) (Subscription.pk obj)) tbl then
      write_subscriptions
        (map (fun r => if pk_eqb (Subscription.pk r) (Subscription.pk obj)
                       then fold_left (store_field obj) update_fields r else r) tbl) w
    else Raised (DatabaseError "Save with update_fields did not affect any rows.") w.

(** [queryset.update(...)]: the rows [sel] selects become [upd row]; the
    result is their number. *)
Definition Subscription_update (sel : Subscription.t -> bool)
    (upd : Subscription.t -> Subscription.t) : M Z :=
  fun w =>
    let tbl := subscriptions w in
    (write_subscriptions (map (fun r => if sel r then upd r else r) tbl) ;;
     ret (Z.of_nat (List.length (filter sel tbl)))) w.

(** [Subscription.objects.create(...)]: an INSERT with a fresh key; the
    columns not given take their defaults. *)
Definition Subscription_objects_create (plan : option Z) (account created_by : Z)
    (status : Subscription.Status) (active_since : option datetime) : M Subscription.t :=
  fun w =>
    let tbl := subscriptions w in
    let obj :=
      {| Subscription.pk := Some (next_pk (map Subscription.pk tbl));
         Subscription.plan := plan; Subscription.account := account;
         Subscription.storage_quantity := 0; Subscription.status := status;
         Subscription.created_by := created_by; Subscription.requested_cancel_at := None;
         Subscription.active_since := active_since; Subscription.active_until := None |} in
    (write_subscriptions (tbl ++ [obj]) ;; ret obj) w.

(** [cls.objects.active().filter(account_id=account_pk)]. *)
Definition active_subscriptions (now : datetime) (account_pk : Z)
    (tbl : list Subscription.t) : list Subscription.t :=
  filter (fun s => SubscriptionQuerySet_active now s && (Subscription.account s =? account_pk))
    tbl.

(** [Subscription.update_subscription]; [now] is read by [active()]. *)
Definition update_subscription (now : datetime) (subscription : Subscription.t)
    (status : Subscription.Status) (active_since : datetime) (active_until : option datetime)
    (kwargs : list Attr) : M Subscription.t :=
  atomic (
    subscription <-
      (fun w => get SubscriptionModel
                  (filter (fun s => pk_eqb (Subscription.pk s) (Subscription.pk subscription))
                     (subscriptions w)) w) ;;
    update_count <-
      Subscription_update
        (fun s => SubscriptionQuerySet_active now s
                  && (Subscription.account s =? Subscription.account subscription)
                  && negb (pk_eqb (Subscription.pk s) (Subscription.pk subscription)))
        (fun s => Subscription.set_active_until
                    (Subscription.set_status s Subscription.INACTIVE_CANCELLED)
                    (Some active_since)) ;;
    let subscription := Subscription.set_status subscription status in
    let subscription := Subscription.set_active_since subscription (Some active_since) in
    let subscription := Subscription.set_active_until subscription active_until in
    let update_fields := [f_status; f_active_since; f_active_until] in
    let '(update_fields, subscription) :=
      fold_left (fun '(fields, s) a => (fields ++ [attr_name a], setattr s a)) kwargs
        (update_fields, subscription) in
    Subscription_save subscription update_fields ;;
    ret subscription).

(** [Subscription.create_default_plan_subscription].  [now_active] is read
    by [active()], [now_since] by [timezone.now()] when no [active_since] is
    given.  The message of the exception is an f-string that reads
    [active_subscription.id]; [active_subscription] is the query set, which
    has no such attribute, so building the message raises
    [AttributeError]. *)
Definition create_default_plan_subscription (now_active now_since : datetime)
    (account : UserAccount.t) (active_since : option datetime) : M Subscription.t :=
  fun w =>
    let active_subscription :=
      active_subscriptions now_active (UserAccount.pk account) (subscriptions w) in
    (match active_subscription with
     | _ :: _ => raise (AttributeError "SubscriptionQuerySet" "id")
     | [] =>
         let active_since := match active_since with
                             | None => now_since
                             | Some t => t
                             end in
         plan <-
           (fun w => get PlanModel
                       (filter (fun p => (Plan.user_type p =? UserAccount.user_type account)
                                         && Plan.is_default p) (plans w)) w) ;;
         subscription <-
           Subscription_objects_create (Plan.pk plan) (UserAccount.pk account) (UserAccount.user account)
             Subscription.ACTIVE_PAID (Some active_since) ;;
         ret subscription
     end) w.

(** [Subscription.get_or_create_active_subscription]; [now_get] is read by
    the [active()] of the lookup. *)
Definition get_or_create_active_subscription (now_get now_active now_since : datetime)
    (account : UserAccount.t) : M Subscription.t :=
  try_except
    (fun w => get SubscriptionModel
                (active_subscriptions now_get (UserAccount.pk account) (subscriptions w)) w)
    (is_DoesNotExist SubscriptionModel)
    (create_default_plan_subscription now_active now_since account None).

(** ** Extra packages *)

(** Writes to the package table are not checked against an exclusion
    constraint: models.py (lines 202 to 204) notes it as still to be added,
    and the one migration 0004 installs is on the table of its [Package]
    model, with the same half-open [tstzrange] as the one on
    subscriptions. *)

(** [ExtraPackage.objects.create(...)].  [quantity] is a
    [PositiveIntegerField], a 32-bit integer column; its check
    [quantity >= 0] is left out, [update_package_quantity] creates a
    package only when [quantity > 0]. *)
Definition ExtraPackage_objects_create (subscription : option Z) (quantity : Z)
    (type : option Z) (active_since : datetime) : M ExtraPackage.t :=
  fun w =>
    let tbl := packages w in
    let obj :=
      {| ExtraPackage.pk := Some (next_pk (map ExtraPackage.pk tbl));
         ExtraPackage.subscription := subscription; ExtraPackage.type := type;
         ExtraPackage.quantity := quantity; ExtraPackage.active_since := active_since;
         ExtraPackage.active_until := None |} in
    if 2147483647 <? quantity then Raised (DataError "integer out of range") w
    else Returned obj (set_packages w (tbl ++ [obj])).

(** [old_package.save(update_fields=["active_until"])]. *)
Definition ExtraPackage_save_active_until (obj : ExtraPackage.t) : M unit :=
  fun w =>
    let tbl := packages w in
    if existsb (fun r => pk_eqb (ExtraPackage.pk r) (ExtraPackage.pk obj)) tbl then
      Returned tt
        (set_packages w
           (map (fun r => if pk_eqb (ExtraPackage.pk r) (ExtraPackage.pk obj)
                          then ExtraPackage.set_active_until r (ExtraPackage.active_until obj)
                          else r) tbl))
    else Raised (DatabaseError "Save with update_fields did not affect any rows.") w.

(** [update_package_quantity], with the value of the expression
    [self.subscription] of line 339 as an argument: [now] is read by
    [timezone.now()] and [now_active] by [active()].  The arguments of
    [get] are evaluated before any query is sent. *)
Definition update_package_quantity_with (self_subscription : Subscription.t -> M (option Z))
    (now now_active : datetime) (self : Subscription.t)
    (package_type : ExtraPackageType.t) (quantity : Z) : M (option ExtraPackage.t) :=
  plan <- Subscription_plan self ;;
  py_assert (Plan.is_premium plan) "Only premium accounts can have additional packages!" ;;
  atomic (
    old_package <-
      try_except
        (subscription <- self_subscription self ;;
         old_package <-
           (fun w => get ExtraPackageModel
                       (filter (fun p => ExtraPackageQuerySet_active now_active p
                                         && pk_eqb (ExtraPackage.subscription p) subscription
                                         && pk_eqb (ExtraPackage.type p)
                                              (ExtraPackageType.pk package_type))
                          (packages w)) w) ;;
         let old_package := ExtraPackage.set_active_until old_package (Some now) in
         ExtraPackage_save_active_until old_package ;;
         ret (Some old_package))
        (is_DoesNotExist ExtraPackageModel)
        (ret None) ;;
    if quantity >? 0 then
      new_package <-
        ExtraPackage_objects_create (Subscription.pk self) quantity
          (ExtraPackageType.pk package_type) now ;;
      ret (Some new_package)
    else ret None).

(** [self.subscription] on a [Subscription]: the class declares the fields
    of lines 251 to 288, the properties and methods below them and the
    reverse accessor [packages]; none is called [subscription], so the
    attribute lookup raises. *)
Definition self_subscription (self : Subscription.t) : M (option Z) :=
  raise (AttributeError "Subscription" "subscription").

(** [Subscription.update_package_quantity] as it is written. *)
Definition update_package_quantity := update_package_quantity_with self_subscription.

(** * Vocabulary of the properties and example databases *)

(** Rows with the columns the examples vary; the other columns hold fixed
    values. *)
Definition example_plan (pk : Z) (user_type : Z) (is_default is_premium : bool) (storage_mb : Z)
    (code : string) : Plan.t :=
  {| Plan.pk := Some pk; Plan.code := code; Plan.user_type := user_type; Plan.ordering := 0;
     Plan.display_name := code; Plan.storage_mb := storage_mb;
     Plan.storage_keep_versions := 10; Plan.job_minutes := 10; Plan.can_add_storage := false;
     Plan.can_add_job_minutes := false; Plan.is_external_db_supported := false;
     Plan.can_configure_repackaging_cache_expire := false;
     Plan.min_repackaging_cache_expire := 60; Plan.synchronizations_per_months := 30;
     Plan.is_public := false; Plan.is_default := is_default; Plan.is_premium := is_premium;
     Plan.is_trial := false; Plan.max_organization_members := -1;
     Plan.max_premium_collaborators_per_private_project := -1;
     Plan.max_trial_organizations := 1 |}.

Definition example_account (pk : Z) (used : Z) : UserAccount.t :=
  {| UserAccount.pk := pk; UserAccount.user := pk; UserAccount.user_type := User.PERSON;
     UserAccount.storage_quota_used_mb := used |}.

Definition example_subscription (pk account : Z) (status : Subscription.Status)
    (active_since active_until : option datetime) : Subscription.t :=
  {| Subscription.pk := Some pk; Subscription.plan := Some 1; Subscription.account := account;
     Subscription.storage_quantity := 0; Subscription.status := status;
     Subscription.created_by := account; Subscription.requested_cancel_at := None;
     Subscription.active_since := active_since; Subscription.active_until := active_until |}.

Definition example_package (pk subscription type quantity : Z) (active_since : datetime)
    (active_until : option datetime) : ExtraPackage.t :=
  {| ExtraPackage.pk := Some pk; ExtraPackage.subscription := Some subscription;
     ExtraPackage.type := Some type; ExtraPackage.quantity := quantity;
     ExtraPackage.active_since := active_since; ExtraPackage.active_until := active_until |}.

Definition example_storage : ExtraPackageType.t :=
  {| ExtraPackageType.pk := Some 1; ExtraPackageType.code := "storage_medium";
     ExtraPackageType.display_name := "Storage"; ExtraPackageType.type := ExtraPackageType.STORAGE;
     ExtraPackageType.is_public := true; ExtraPackageType.min_quantity := 0;
     ExtraPackageType.max_quantity := 100; ExtraPackageType.unit_amount := 1000;
     ExtraPackageType.unit_label := Some "MB"%string |}.

(** A subscription on a community plan, which is not premium, with an
    active storage package. *)
Definition world_not_premium : World :=
  {| plans := [example_plan 1 User.PERSON true false 1000 "community"];
     subscriptions := [example_subscription 1 5 Subscription.ACTIVE_PAID (Some 100) None];
     packages := [example_package 1 1 1 3 100 None] |}.

(** Two subscriptions of account 5, the first closed at instant 200 and the
    second opened at instant 200: the exclusion constraint accepts the
    table, and at instant 200 both are active. *)
Definition world_handover : World :=
  {| plans := [example_plan 1 User.PERSON true false 1000 "community"];
     subscriptions :=
       [example_subscription 1 5 Subscription.INACTIVE_CANCELLED (Some 100) (Some 200);
        example_subscription 2 5 Subscription.ACTIVE_PAID (Some 200) None];
     packages := [] |}.

(** The rows the first statement of [update_subscription] closes, for the
    stored row [row] of the target. *)
Definition others_active (now : datetime) (row : Subscription.t) (s : Subscription.t) : bool :=
  SubscriptionQuerySet_active now s
  && (Subscription.account s =? Subscription.account row)
  && negb (pk_eqb (Subscription.pk s) (Subscription.pk row)).

(** A row as the first statement leaves it. *)
Definition close (active_since : datetime) (s : Subscription.t) : Subscription.t :=
  Subscription.set_active_until (Subscription.set_status s Subscription.INACTIVE_CANCELLED)
    (Some active_since).

(** The object [update_subscription] saves and returns. *)
Definition updated (row : Subscription.t) (status : Subscription.Status)
    (active_since : datetime) (active_until : option datetime) (kwargs : list Attr)
    : Subscription.t :=
  fold_left setattr kwargs
    (Subscription.set_active_until
       (Subscription.set_active_since (Subscription.set_status row status) (Some active_since))
       active_until).

(** The table after both statements. *)
Definition updated_table (now : datetime) (row : Subscription.t) (status : Subscription.Status)
    (active_since : datetime) (active_until : option datetime) (kwargs : list Attr)
    (tbl : list Subscription.t) : list Subscription.t :=
  map (fun r => if pk_eqb (Subscription.pk r) (Subscription.pk row)
                then fold_left (store_field (updated row status active_since active_until kwargs))
                       ([f_status; f_active_since; f_active_until] ++ map attr_name kwargs) r
                else r)
    (map (fun r => if others_active now row r then close active_since r else r) tbl).

(** The literal instants: 2023-01-01 and 2023-06-01, 00:00 UTC, and a day
    between them. *)
Definition t_2023_01_01 : datetime := 1672531200000000.
Definition t_2023_05_20 : datetime := 1684540800000000.
Definition t_2023_06_01 : datetime := 1685577600000000.

(** [A] active since 2023-01-01 with no end, [B] a draft of the same
    account. *)
Definition sub_A : Subscription.t :=
  example_subscription 1 5 Subscription.ACTIVE_PAID (Some t_2023_01_01) None.
Definition sub_B : Subscription.t :=
  example_subscription 2 5 Subscription.INACTIVE_DRAFT None None.
Definition world_A_B : World :=
  {| plans := [example_plan 1 User.PERSON true false 1000 "community"];
     subscriptions := [sub_A; sub_B];
     packages := [] |}.

(** The instant [t] lies in the range the exclusion constraint builds from
    the row: [active_since <= t < active_until]. *)
Definition in_tstzrange (t : datetime) (s : Subscription.t) : bool :=
  match Subscription.active_since s with
  | None => false
  | Some lo => (lo <=? t) && before t (Subscription.active_until s)
  end.

(** The rows of an account whose range contains [t]. *)
Definition in_range (t : datetime) (account : Z) (tbl : list Subscription.t)
    : list Subscription.t :=
  filter (fun s => in_tstzrange t s && (Subscription.account s =? account)) tbl.

(** A subscription on a premium plan with three storage packages active
    since instant 100. *)
Definition world_premium : World :=
  {| plans := [example_plan 1 User.PERSON true true 1000 "pro"];
     subscriptions := [example_subscription 1 5 Subscription.ACTIVE_PAID (Some 100) None];
     packages := [example_package 1 1 1 3 100 None] |}.

(** The row [Subscription.objects.create] inserts for the default plan. *)
Definition default_subscription (tbl : list Subscription.t) (plan : Plan.t)
    (account : UserAccount.t) (active_since : datetime) : Subscription.t :=
  {| Subscription.pk := Some (next_pk (map Subscription.pk tbl));
     Subscription.plan := Plan.pk plan;
     Subscription.account := UserAccount.pk account;
     Subscription.storage_quantity := 0;
     Subscription.status := Subscription.ACTIVE_PAID;
     Subscription.created_by := UserAccount.user account;
     Subscription.requested_cancel_at := None;
     Subscription.active_since := Some active_since;
     Subscription.active_until := None |}.

(** The plans flagged default for a user category. *)
Definition default_plans (user_type : Z) (tbl : list Plan.t) : list Plan.t :=
  filter (fun p => (Plan.user_type p =? user_type) && Plan.is_default p) tbl.

(** Every dated subscription of the account has ended by [t]. *)
Definition all_ended (t : datetime) (account_pk : Z) (tbl : list Subscription.t) : Prop :=
  forall s, In s tbl -> Subscription.account s = account_pk ->
    Subscription.active_since s <> None ->
    exists h, Subscription.active_until s = Some h /\ h <= t.

(** An account whose only subscription was active from instant 100 to
    instant 150. *)
Definition world_ended : World :=
  {| plans := [example_plan 1 User.PERSON true false 1000 "community";
               example_plan 2 User.ORGANIZATION true false 1000 "organization"];
     subscriptions :=
       [example_subscription 1 5 Subscription.INACTIVE_CANCELLED (Some 100) (Some 150)];
     packages := [] |}.

(** An account whose only subscription starts at instant 300. *)
Definition world_future : World :=
  {| plans := [example_plan 1 User.PERSON true false 1000 "community"];
     subscriptions := [example_subscription 1 5 Subscription.ACTIVE_PAID (Some 300) None];
     packages := [] |}.

(** The database a call leaves, whether it returns or raises. *)
Definition world_of {A} (o : Outcome A) : World :=
  match o with
  | Returned _ w => w
  | Raised _ w => w
  end.

(** The plan tables the code can produce when every save writes the whole
    object: from the empty table, by calls of [Plan.save] without
    [update_fields] ([Plan.objects.create] goes through one) and of
    [Plan.get_or_create_default]. *)
Inductive plans_reachable : list Plan.t -> Prop :=
| reachable_empty : plans_reachable []
| reachable_save (w : World) (kw : SaveKwargs) (self : Plan.t) :
    update_fields kw = None ->
    plans_reachable (plans w) ->
    plans_reachable (plans (world_of (Plan_save_kwargs kw self w)))
| reachable_get_or_create_default (w : World) :
    plans_reachable (plans w) ->
    plans_reachable (plans (world_of (Plan_get_or_create_default w))).

(** Primary keys are present and distinct. *)
Definition keys_ok (tbl : list Plan.t) : Prop :=
  NoDup (map Plan.pk tbl) /\ forall p, In p tbl -> Plan.pk p <> None.

(** Two default plans of one user category are the same row. *)
Definition one_default (tbl : list Plan.t) : Prop :=
  forall p q, In p tbl -> In q tbl ->
    Plan.is_default p = true -> Plan.is_default q = true ->
    Plan.user_type p = Plan.user_type q -> Plan.pk p = Plan.pk q.

(** A row as [update(is_default=False)] on the plans of [user_type] leaves
    it. *)
Definition unset (user_type : Z) (r : Plan.t) : Plan.t :=
  if Plan.user_type r =? user_type then Plan.set_is_default r false else r.

(** The table [models.Model.save] leaves. *)
Definition saved_table (self : Plan.t) (tbl : list Plan.t) : list Plan.t :=
  if existsb (fun r => pk_eqb (Plan.pk r) (Plan.pk self)) tbl then
    map (fun r => if pk_eqb (Plan.pk r) (Plan.pk self) then self else r) tbl
  else
    tbl ++ [match Plan.pk self with
            | Some _ => self
            | None => Plan.set_pk self (Some (next_pk (map Plan.pk tbl)))
            end].

(** The object [models.Model.save] returns: [self], with a fresh key when
    it had none. *)
Definition saved_object (self : Plan.t) (tbl : list Plan.t) : Plan.t :=
  if existsb (fun r => pk_eqb (Plan.pk r) (Plan.pk self)) tbl then self
  else match Plan.pk self with
       | Some _ => self
       | None => Plan.set_pk self (Some (next_pk (map Plan.pk tbl)))
       end.

(** The table [Plan.save] hands to [models.Model.save]. *)
Definition unset_table (self : Plan.t) (tbl : list Plan.t) : list Plan.t :=
  if Plan.is_default self then map (unset (Plan.user_type self)) tbl else tbl.

(** The two plans [get_or_create_default] creates in an empty table. *)
Definition default_user : Plan.t :=
  Plan.set_pk (Plan.new "default_user" "default user (autocreated)" true false User.PERSON)
    (Some 1).
Definition default_org : Plan.t :=
  Plan.set_pk
    (Plan.new "default_org" "default organization (autocreated)" true false User.ORGANIZATION)
    (Some 2).

(** The empty database, the database after the first call of
    [get_or_create_default], and an unsaved premium plan for persons with
    [is_default] set. *)
Definition world_empty : World := {| plans := []; subscriptions := []; packages := [] |}.

Definition world_defaults : World :=
  {| plans := [default_user; default_org]; subscriptions := []; packages := [] |}.

Definition plan_pro : Plan.t := Plan.new "pro" "Pro" true true User.PERSON.

(** The plan [default_org] as loaded from the database of
    [world_defaults], after the assignments [plan.user_type = PERSON] and
    [plan.is_default = False] on the Python object; and the call
    [save(update_fields=["user_type"])]. *)
Definition org_moved : Plan.t :=
  Plan.set_is_default (Plan.set_user_type default_org User.PERSON) false.

Definition only_user_type : SaveKwargs :=
  {| force_insert := false; force_update := false; update_fields := Some [c_user_type] |}.

(** Account 5 has [A] active and the draft [B]; account 6 has a
    subscription of its own, active as well. *)
Definition world_two_accounts : World :=
  {| plans := [example_plan 1 User.PERSON true false 1000 "community"];
     subscriptions :=
       [sub_A; sub_B; example_subscription 3 6 Subscription.ACTIVE_PAID (Some t_2023_01_01) None];
     packages := [example_package 1 3 1 2 t_2023_01_01 None] |}.

(** A database with plans but none flagged default. *)
Definition world_no_default : World :=
  {| plans := [example_plan 1 User.PERSON false false 1000 "community"];
     subscriptions := [];
     packages := [] |}.

(** [ExtraPackageType.Type] has the single member [STORAGE]. *)
Definition Type_eqb (a b : ExtraPackageType.Type_) : bool :=
  match a, b with
  | ExtraPackageType.STORAGE, ExtraPackageType.STORAGE => true
  end.

(** The order of primary keys; rows of a table always carry one. *)
Definition pk_leb (a b : option Z) : bool :=
  match a, b with
  | Some x, Some y => x <=? y
  | None, _ => true
  | Some _, None => false
  end.

(** [QuerySet.first()] on a query set without ordering ([ExtraPackage]
    declares none): the row with the least primary key, [None] when no row
    is selected. *)
Fixpoint QuerySet_first (rows : list ExtraPackage.t) : option ExtraPackage.t :=
  match rows with
  | [] => None
  | p :: rest =>
      match QuerySet_first rest with
      | None => Some p
      | Some q => if pk_leb (ExtraPackage.pk p) (ExtraPackage.pk q) then Some p else Some q
      end
  end.

(** The rows of
    [self.packages.active().filter(Q(type__type=ExtraPackageType.Type.STORAGE))]
    for a stored subscription: [self.packages] are the packages whose
    [subscription] is [self], and [type__type] joins the table of package
    types, here the argument [types]. *)
Definition storage_packages (now : datetime) (types : list ExtraPackageType.t)
    (self : Subscription.t) (tbl : list ExtraPackage.t) : list ExtraPackage.t :=
  filter (fun p =>
            pk_eqb (ExtraPackage.subscription p) (Subscription.pk self)
            && ExtraPackageQuerySet_active now p
            && existsb (fun t => pk_eqb (ExtraPackageType.pk t) (ExtraPackage.type p)
                                 && Type_eqb (ExtraPackageType.type t) ExtraPackageType.STORAGE)
                 types)
    tbl.

(** [Subscription.active_storage_package]; [now] is read by [active()]. *)
Definition active_storage_package (now : datetime) (types : list ExtraPackageType.t)
    (self : Subscription.t) : M (option ExtraPackage.t) :=
  fun w => Returned (QuerySet_first (storage_packages now types self (packages w))) w.

(** [Subscription.active_storage_package_quantity]:
    [self.active_storage_package.quantity if self.active_storage_package else 0].
    The condition is evaluated first; each of the two reads of the property
    runs its query, with its own [now]. *)
Definition active_storage_package_quantity (now_if now_value : datetime)
    (types : list ExtraPackageType.t) (self : Subscription.t) : M Z :=
  condition <- active_storage_package now_if types self ;;
  match condition with
  | Some _ =>
      package <- active_storage_package now_value types self ;;
      match package with
      | Some p => ret (ExtraPackage.quantity p)
      | None => raise (AttributeError "NoneType" "quantity")
      end
  | None => ret 0
  end.

(** [Subscription.active_storage_package_mb]:
    [self.active_storage_package.quantity * 1000 if self.active_storage_package else 0]. *)
Definition active_storage_package_mb (now_if now_value : datetime)
    (types : list ExtraPackageType.t) (self : Subscription.t) : M Z :=
  condition <- active_storage_package now_if types self ;;
  match condition with
  | Some _ =>
      package <- active_storage_package now_value types self ;;
      match package with
      | Some p => ret (ExtraPackage.quantity p * 1000)
      | None => raise (AttributeError "NoneType" "quantity")
      end
  | None => ret 0
  end.

(** Subscription 1 holds two storage packages active at instant 150, with
    keys 2 and 1 in that order in the table, and one that ended at
    instant 120. *)
Definition world_packages : World :=
  {| plans := [example_plan 1 User.PERSON true true 1000 "pro"];
     subscriptions := [example_subscription 1 5 Subscription.ACTIVE_PAID (Some 100) None];
     packages := [example_package 3 1 1 7 100 (Some 120);
                  example_package 2 1 1 5 100 None;
                  example_package 1 1 1 3 100 (Some 200)] |}.

(** The package with key 1 ends at instant 200 and the one with key 2 has
    no end: at 150 the quantity is that of key 1.  With only the package
    that ends at 200, a first read at 200 and a second at 201 raise. *)
Definition world_package_ending : World :=
  {| plans := [example_plan 1 User.PERSON true true 1000 "pro"];
     subscriptions := [example_subscription 1 5 Subscription.ACTIVE_PAID (Some 100) None];
     packages := [example_package 1 1 1 3 100 (Some 200)] |}.

(** [UserAccount] as migration 0004 reads it: its primary key (the value a
    foreign key to it stores), [user_id] and [plan_id]. *)
Record MigrationAccount := {
  account_pk : Z;
  account_user_id : Z;
  account_plan_id : option Z
}.

(** A row of the subscription table the migration creates, with the columns
    its data steps write or read; the other columns of [CreateModel] take
    their defaults. *)
Record MigrationSubscription := {
  row_id : option Z;
  row_account_id : Z;
  row_plan_id : option Z;
  row_status : string;
  row_created_by_id : Z;
  row_active_since : option datetime;
  row_active_until : option datetime
}.

(** [populate_subscriptions_model]: one [Subscription.objects.create] per
    account, in the order of [UserAccount.objects.all()]; [now] is the
    constant of the module.  The exclusion constraint is added by the
    operation that follows this step, so the inserts are not checked. *)
Definition populate_subscriptions_model (now : datetime) (accounts : list MigrationAccount)
    (tbl : list MigrationSubscription) : list MigrationSubscription :=
  fold_left
    (fun tbl account =>
       tbl ++ [{| row_id := Some (next_pk (map row_id tbl));
                  row_account_id := account_pk account;
                  row_plan_id := account_plan_id account;
                  row_status := "active_paid";
                  row_created_by_id := account_user_id account;
                  row_active_since := Some now;
                  row_active_until := None |}])
    accounts tbl.

(** [populate_account_plan_field], the reverse step: for every subscription
    with [active_until >= now] or no [active_until], in table order,
    [UserAccount.objects.filter(user_id=subscription.account_id).update(plan_id=subscription.plan_id)]. *)
Definition populate_account_plan_field (now : datetime) (tbl : list MigrationSubscription)
    (accounts : list MigrationAccount) : list MigrationAccount :=
  fold_left
    (fun accounts subscription =>
       map (fun a => if account_user_id a =? row_account_id subscription
                     then {| account_pk := account_pk a;
                             account_user_id := account_user_id a;
                             account_plan_id := row_plan_id subscription |}
                     else a)
         accounts)
    (filter (fun s => match row_active_until s with
                      | None => true
                      | Some until => until >=? now
                      end) tbl)
    accounts.

(** The exclusion constraint the migration adds after the forward step, on
    the rows of the migration. *)
Definition row_excluded (a b : MigrationSubscription) : bool :=
  match row_active_since a, row_active_since b with
  | Some lo_a, Some lo_b =>
      (row_account_id a =? row_account_id b) &&
      tstzrange_overlap lo_a (row_active_until a) lo_b (row_active_until b)
  | _, _ => false
  end.

Fixpoint rows_prevent_overlaps (tbl : list MigrationSubscription) : bool :=
  match tbl with
  | [] => true
  | r :: rest => forallb (fun r' => negb (row_excluded r r')) rest && rows_prevent_overlaps rest
  end.

(** The row the forward step inserts for an account. *)
Definition populated_row (now : datetime) (id : Z) (account : MigrationAccount)
    : MigrationSubscription :=
  {| row_id := Some id;
     row_account_id := account_pk account;
     row_plan_id := account_plan_id account;
     row_status := "active_paid";
     row_created_by_id := account_user_id account;
     row_active_since := Some now;
     row_active_until := None |}.

Definition example_accounts : list MigrationAccount :=
  [{| account_pk := 5; account_user_id := 5; account_plan_id := Some 1 |};
   {| account_pk := 6; account_user_id := 6; account_plan_id := Some 2 |}].

(** * Properties *)

(** ** Choice fields *)

Section ChoiceFieldFacts.
Import ChoiceField.

Variable K : Type.
Implicit Types (_choices : list (K * string)) (data : string).

Lemma find_code_none _choices data :
  find_code String.eqb _choices data = None <-> ~ In data (values _choices).
Proof.
  induction _choices as [|[i label] rest IH]; simpl.
  - split; [intros _ []| reflexivity].
  - destruct (String.eqb_spec label data) as [->|Hne].
    + split; [discriminate|]. intros H. exfalso. apply H. now left.
    + rewrite IH. split.
      * intros H [Heq|Hin]; [congruence | now apply H].
      * intros H Hin. apply H. now right.
Qed.

Lemma find_code_some _choices data i :
  find_code String.eqb _choices data = Some i -> In (i, data) _choices.
Proof.
  induction _choices as [|[j label] rest IH]; simpl; [discriminate|].
  destruct (String.eqb_spec label data) as [->|Hne].
  - intros [= ->]. now left.
  - intros H. right. now apply IH.
Qed.

(** The code returned is the first key, in iteration order, whose label
    is [data]. *)
Lemma find_code_first _choices data i :
  find_code String.eqb _choices data = Some i ->
  exists l1 l2, _choices = l1 ++ (i, data) :: l2 /\ ~ In data (values l1).
Proof.
  induction _choices as [|[j label] rest IH]; simpl; [discriminate|].
  destruct (String.eqb_spec label data) as [->|Hne].
  - intros [= ->]. exists [], rest. split; [reflexivity | intros []].
  - intros H. destruct (IH H) as (l1 & l2 & -> & Hl1).
    exists ((j, label) :: l1), l2. split; [reflexivity|].
    simpl. intros [Heq|Hin]; [congruence | contradiction].
Qed.
End ChoiceFieldFacts.

Lemma string_app_assoc (a b c : string) : ((a ++ b) ++ c = a ++ (b ++ c))%string.
Proof. induction a as [|ch a IH]; simpl; [reflexivity | now rewrite IH]. Qed.

Lemma string_app_nil_r (a : string) : (a ++ EmptyString = a)%string.
Proof. induction a as [|ch a IH]; simpl; [reflexivity | now rewrite IH]. Qed.

Lemma occurs_refl (x : string) : ChoiceField.occurs x x.
Proof. exists EmptyString, EmptyString. simpl. now rewrite string_app_nil_r. Qed.

Lemma occurs_app_l (x s t : string) :
  ChoiceField.occurs x s -> ChoiceField.occurs x (t ++ s)%string.
Proof.
  intros (pre & post & ->). exists (t ++ pre)%string, post.
  now rewrite string_app_assoc.
Qed.

Lemma occurs_app_r (x s t : string) :
  ChoiceField.occurs x s -> ChoiceField.occurs x (s ++ t)%string.
Proof.
  intros (pre & post & ->). exists pre, (post ++ t)%string.
  now rewrite !string_app_assoc.
Qed.

Lemma occurs_join (sep x : string) (l : list string) :
  In x l -> ChoiceField.occurs x (ChoiceField.py_join sep l).
Proof.
  induction l as [|y l IH]; [intros []|].
  intros [->|Hin].
  - destruct l as [|z l]; simpl; [apply occurs_refl|].
    apply occurs_app_r, occurs_refl.
  - destruct l as [|z l]; [destruct Hin|].
    change (ChoiceField.py_join sep (y :: z :: l))
      with (y ++ sep ++ ChoiceField.py_join sep (z :: l))%string.
    now apply occurs_app_l, occurs_app_l, IH.
Qed.

(** Every label stands, quoted, in the text of the message. *)
Lemma message_lists_values (prefix : string) (e : ChoiceField.ValidationError string)
    (label : string) :
  In label (ChoiceField.ve_values e) ->
  ChoiceField.occurs (ChoiceField.py_repr label) (ChoiceField.message prefix e).
Proof.
  intros Hin. unfold ChoiceField.message, ChoiceField.py_str_list.
  apply occurs_app_l, occurs_app_r, occurs_app_l, occurs_app_r, occurs_join.
  now apply in_map.
Qed.



(** ** Storage quota *)

Lemma ceiling_unique (x : Q) (z : Z) :
  (inject_Z (z - 1) < x)%Q -> (x <= inject_Z z)%Q -> Qceiling x = z.
Proof.
  intros Hlo Hhi.
  assert (H1 : Qceiling x <= z).
  { rewrite <- (Qceiling_Z z). now apply Qceiling_resp_le. }
  assert (H2 : z - 1 < Qceiling x).
  { rewrite Zlt_Qlt. eapply Qlt_le_trans; [exact Hlo | apply Qle_ceiling]. }
  lia.
Qed.

Lemma half_even_cases (s : Q) : half_even s = Qfloor s \/ half_even s = Qfloor s + 1.
Proof.
  unfold half_even. destruct (Qcompare _ _); [destruct (Z.even _)| |]; auto.
Qed.

Lemma half_even_exact (z : Z) (s : Q) : (s == inject_Z z)%Q -> half_even s = z.
Proof.
  intros Hs. unfold half_even.
  assert (Hf : Qfloor s = z) by (rewrite Hs; apply Qfloor_Z).
  rewrite Hf.
  assert (Hc : ((s - inject_Z z) ?= (1 # 2))%Q = Lt).
  { rewrite <- Qlt_alt, Hs. unfold Qminus. rewrite Qplus_opp_r. reflexivity. }
  now rewrite Hc.
Qed.

Lemma half_even_le (z : Z) (s : Q) : (s <= inject_Z z)%Q -> half_even s <= z.
Proof.
  intros Hs.
  assert (Hf : Qfloor s <= z).
  { rewrite <- (Qfloor_Z z). now apply Qfloor_resp_le. }
  unfold half_even.
  destruct (Qcompare (s - inject_Z (Qfloor s)) (1 # 2)) eqn:Hc;
    [destruct (Z.even (Qfloor s))| |]; try exact Hf.
  - destruct (Z.eq_dec (Qfloor s) z) as [Heq|]; [|lia].
    exfalso. apply Qeq_alt in Hc.
    assert (Hle : (s - inject_Z (Qfloor s) <= 0)%Q).
    { rewrite Heq. unfold Qminus. rewrite <- (Qplus_opp_r (inject_Z z)).
      apply Qplus_le_compat; [exact Hs | apply Qle_refl]. }
    rewrite Hc in Hle. now apply Hle.
  - destruct (Z.eq_dec (Qfloor s) z) as [Heq|]; [|lia].
    exfalso. apply Qgt_alt in Hc.
    assert (Hle : (s - inject_Z (Qfloor s) <= 0)%Q).
    { rewrite Heq. unfold Qminus. rewrite <- (Qplus_opp_r (inject_Z z)).
      apply Qplus_le_compat; [exact Hs | apply Qle_refl]. }
    apply (Qlt_irrefl (1 # 2)). eapply Qlt_le_trans; [exact Hc|].
    eapply Qle_trans; [exact Hle|]. discriminate.
Qed.

Lemma half_even_gt (z : Z) (s : Q) : (inject_Z z + (1 # 2) < s)%Q -> z + 1 <= half_even s.
Proof.
  intros Hs.
  assert (Hz : (inject_Z z <= s)%Q).
  { apply Qlt_le_weak. eapply Qle_lt_trans; [|exact Hs].
    rewrite <- (Qplus_0_r (inject_Z z)) at 1. apply Qplus_le_compat; [apply Qle_refl | discriminate]. }
  assert (Hf : z <= Qfloor s).
  { rewrite <- (Qfloor_Z z). now apply Qfloor_resp_le. }
  unfold half_even.
  destruct (Qcompare (s - inject_Z (Qfloor s)) (1 # 2)) eqn:Hc;
    [destruct (Z.even (Qfloor s))| |]; try lia.
  - destruct (Z.eq_dec (Qfloor s) z) as [Heq|]; [|lia].
    exfalso. apply Qeq_alt in Hc. rewrite Heq in Hc.
    apply (Qlt_irrefl s). eapply Qle_lt_trans; [|exact Hs].
    rewrite <- Hc. ring_simplify. apply Qle_refl.
  - destruct (Z.eq_dec (Qfloor s) z) as [Heq|]; [|lia].
    exfalso. apply Qlt_alt in Hc. rewrite Heq in Hc.
    apply (Qlt_irrefl s). eapply Qlt_trans; [|exact Hs].
    apply (Qplus_lt_l _ _ (- inject_Z z)). ring_simplify.
    ring_simplify in Hc. exact Hc.
Qed.

Lemma floor_log2_le (n : Z) (d : positive) (E : Z) :
  0 < n -> 0 <= E -> n < 2 ^ (E + 1) * Zpos d -> floor_log2 (n # d) <= E.
Proof.
  intros Hn HE Hlt. unfold floor_log2. simpl Qnum. simpl Qden.
  set (e := Z.log2 n - Z.log2 (Zpos d)).
  destruct (Z_le_gt_dec e E) as [Hle|Hgt].
  - destruct (if 0 <=? e then _ else _); lia.
  - assert (H0 : (0 <=? e) = true) by (apply Z.leb_le; lia).
    rewrite H0.
    assert (Hpow : 2 ^ (E + 1) <= 2 ^ e) by (apply Z.pow_le_mono_r; lia).
    assert (Htest : (2 ^ e * Zpos d <=? n) = false).
    { apply Z.leb_gt. nia. }
    rewrite Htest.
    assert (Hd : Zpos d < 2 ^ (Z.log2 (Zpos d) + 1)).
    { pose proof (Z.log2_spec (Zpos d) ltac:(lia)) as H. replace (Z.log2 (Zpos d) + 1) with (Z.succ (Z.log2 (Zpos d))) by lia. tauto. }
    assert (Hn2 : n < 2 ^ (E + 1 + (Z.log2 (Zpos d) + 1))).
    { rewrite Z.pow_add_r; [|lia|pose proof (Z.log2_nonneg (Zpos d)); lia].
      assert (0 < 2 ^ (E + 1)) by (apply Z.pow_pos_nonneg; lia). nia. }
    apply Z.log2_lt_pow2 in Hn2; [|exact Hn]. lia.
Qed.

Lemma scale_up (q : Q) (j : Z) : 0 <= j -> scale q j = (q * inject_Z (2 ^ j))%Q.
Proof. intros Hj. unfold scale. apply Z.leb_le in Hj. now rewrite Hj. Qed.

Lemma scale_down (q : Q) (j : Z) : j < 0 -> scale q j = (q / inject_Z (2 ^ (- j)))%Q.
Proof. intros Hj. unfold scale. apply Z.leb_gt in Hj. now rewrite Hj. Qed.

(** The division by 1000 of a positive [int] below [1000 * 2 ^ 44],
    rounded with a quantum [1 / P] no larger than [2 ^ -9], has the ceiling
    of the exact quotient. *)
Lemma round_div_ceiling (m P : Z) :
  0 < m -> 512 <= P ->
  let r := (inject_Z (half_even ((m # 1000) * inject_Z P)) / inject_Z P)%Q in
  Qceiling r = (m + 999) / 1000 /\ (r <= inject_Z (m + 1))%Q.
Proof.
  intros Hm HP r.
  pose proof (Z.div_mod m 1000 ltac:(lia)) as Hdm.
  pose proof (Z.mod_pos_bound m 1000 ltac:(lia)) as Hrem.
  set (k := m / 1000) in *. set (rem := m mod 1000) in *.
  assert (Hk : 0 <= k) by (apply Z.div_pos; lia).
  assert (HPq : (0 < inject_Z P)%Q) by (rewrite <- (Zlt_Qlt 0); lia).
  assert (Hceil : (m + 999) / 1000 = if rem =? 0 then k else k + 1).
  { destruct (Z.eqb_spec rem 0) as [H0|H0].
    - symmetry. apply (Z.div_unique _ _ _ 999); lia.
    - symmetry. apply (Z.div_unique _ _ _ (rem - 1)); lia. }
  rewrite Hceil.
  destruct (Z.eqb_spec rem 0) as [H0|H0].
  - assert (HM : half_even ((m # 1000) * inject_Z P) = k * P).
    { apply half_even_exact. unfold Qeq, inject_Z. simpl. nia. }
    unfold r. rewrite HM.
    assert (Hr : (inject_Z (k * P) / inject_Z P == inject_Z k)%Q).
    { rewrite inject_Z_mult. field. intros H. rewrite H in HPq. discriminate. }
    split.
    + rewrite Hr. apply Qceiling_Z.
    + rewrite Hr. rewrite <- Zle_Qle. lia.
  - assert (Hlo : k * P + 1 <= half_even ((m # 1000) * inject_Z P)).
    { apply half_even_gt. unfold Qlt, Qplus, Qmult, inject_Z. simpl. nia. }
    assert (Hhi : half_even ((m # 1000) * inject_Z P) <= (k + 1) * P).
    { apply half_even_le. unfold Qle, Qmult, inject_Z. simpl. nia. }
    set (M := half_even ((m # 1000) * inject_Z P)) in *.
    assert (Hr1 : (inject_Z k < r)%Q).
    { unfold r. apply Qlt_shift_div_l; [exact HPq|].
      rewrite <- inject_Z_mult, <- Zlt_Qlt. lia. }
    assert (Hr2 : (r <= inject_Z (k + 1))%Q).
    { unfold r. apply Qle_shift_div_r; [exact HPq|].
      rewrite <- inject_Z_mult, <- Zle_Qle. lia. }
    split.
    + apply ceiling_unique; [|exact Hr2].
      replace (k + 1 - 1) with k by lia. exact Hr1.
    + eapply Qle_trans; [exact Hr2|]. rewrite <- Zle_Qle. lia.
Qed.

Lemma binary64_pos_div1000 (m : Z) :
  0 < m -> m < 1000 * 2 ^ 44 ->
  exists x, binary64_pos (m # 1000) = Some x /\ Qceiling x = (m + 999) / 1000.
Proof.
  intros Hm Hlt. unfold binary64_pos.
  assert (He : floor_log2 (m # 1000) <= 43).
  { apply floor_log2_le; [exact Hm | lia | ]. change (2 ^ (43 + 1)) with (2 ^ 44). lia. }
  set (e := Z.max (floor_log2 (m # 1000)) (-1022)).
  assert (He' : -1022 <= e <= 43) by (unfold e; lia).
  rewrite (scale_up _ (52 - e)) by lia.
  rewrite (scale_down _ (e - 52)) by lia.
  replace (- (e - 52)) with (52 - e) by lia.
  assert (HP : 512 <= 2 ^ (52 - e)).
  { change 512 with (2 ^ 9). apply Z.pow_le_mono_r; lia. }
  destruct (round_div_ceiling m (2 ^ (52 - e)) Hm HP) as [Hc Hr].
  match goal with |- context [Qle_bool ?a ?b] => destruct (Qle_bool a b) eqn:Hov end.
  - exfalso. apply Qle_bool_iff in Hov.
    pose proof (Qle_trans _ _ _ Hov Hr) as H. rewrite <- Zle_Qle in H.
    assert (2 ^ 44 < 2 ^ 1024) by (apply Z.pow_lt_mono_r; lia).
    lia.
  - eexists. split; [reflexivity | exact Hc].
Qed.

Lemma scale_nonneg (q : Q) (j : Z) : (0 <= q)%Q -> (0 <= scale q j)%Q.
Proof.
  intros Hq. unfold scale. destruct (0 <=? j).
  - apply Qmult_le_0_compat; [exact Hq|].
    rewrite <- (Zle_Qle 0). apply Z.pow_nonneg. lia.
  - apply Qmult_le_0_compat; [exact Hq|]. apply Qinv_le_0_compat.
    rewrite <- (Zle_Qle 0). apply Z.pow_nonneg. lia.
Qed.

Lemma half_even_nonneg (s : Q) : (0 <= s)%Q -> 0 <= half_even s.
Proof.
  intros Hs.
  assert (Hf : 0 <= Qfloor s).
  { change 0 with (Qfloor 0). now apply Qfloor_resp_le. }
  destruct (half_even_cases s) as [->| ->]; lia.
Qed.

Lemma binary64_pos_nonneg (q x : Q) : (0 <= q)%Q -> binary64_pos q = Some x -> (0 <= x)%Q.
Proof.
  intros Hq. unfold binary64_pos.
  destruct (Qle_bool _ _); [discriminate|]. intros [= <-].
  apply scale_nonneg. rewrite <- (Zle_Qle 0).
  apply half_even_nonneg. now apply scale_nonneg.
Qed.

Lemma py_max0_spec (x : Z) : py_max0 x = Z.max x 0.
Proof. unfold py_max0. destruct (Z.gtb_spec 0 x); lia. Qed.

(** The result is never negative. *)
Lemma min_storage_package_quantity_nonneg (account : UserAccount.t) (plan : Plan.t) (q : Z) :
  min_storage_package_quantity account plan = inl q -> 0 <= q.
Proof.
  unfold min_storage_package_quantity, int_truediv, binary64, math_ceil.
  set (m := py_max0 _).
  assert (Hm : 0 <= m) by (unfold m; rewrite py_max0_spec; lia).
  destruct (Qcompare (m # 1000) 0) eqn:Hc.
  - intros [= <-]. reflexivity.
  - apply Qlt_alt in Hc. exfalso. unfold Qlt in Hc. simpl in Hc. lia.
  - destruct (binary64_pos (m # 1000)) as [x|] eqn:Hx; [|discriminate].
    intros [= <-]. change 0 with (Qceiling 0). apply Qceiling_resp_le.
    apply (binary64_pos_nonneg (m # 1000)); [|exact Hx].
    unfold Qle. simpl. lia.
Qed.

(** Below [1000 * 2 ^ 44] megabytes the float quotient has the ceiling of
    the exact one. *)
Lemma min_storage_package_quantity_value (account : UserAccount.t) (plan : Plan.t) :
  UserAccount.storage_quota_used_mb account - Plan.storage_mb plan < 1000 * 2 ^ 44 ->
  min_storage_package_quantity account plan
  = inl ((Z.max (UserAccount.storage_quota_used_mb account - Plan.storage_mb plan) 0 + 999)
         / 1000).
Proof.
  intros Hlt. unfold min_storage_package_quantity, int_truediv, binary64, math_ceil.
  rewrite py_max0_spec.
  set (m := Z.max _ 0).
  assert (Hm : 0 <= m < 1000 * 2 ^ 44) by (unfold m; lia).
  destruct (Z.eq_dec m 0) as [->|Hne]; [reflexivity|].
  assert (Hc : Qcompare (m # 1000) 0 = Gt).
  { apply Qgt_alt. unfold Qlt. simpl. lia. }
  rewrite Hc.
  destruct (binary64_pos_div1000 m) as (x & -> & Hx); [lia | lia |].
  now rewrite Hx.
Qed.

Lemma ceiling_div_le (m n : Z) : (m + 999) / 1000 <= n <-> m <= 1000 * n.
Proof.
  pose proof (Z.div_mod (m + 999) 1000 ltac:(lia)) as Hdm.
  pose proof (Z.mod_pos_bound (m + 999) 1000 ltac:(lia)) as Hrem.
  lia.
Qed.

(** C5, on the storage the float division is exact enough for.
    [min_storage_package_quantity] is never negative.  When the storage
    used exceeds the storage included by less than [1000 * 2 ^ 44]
    megabytes, it is the ceiling of [max(used - included, 0) / 1000]: the
    least integer [n >= 0] with [used - included <= 1000 * n]; it is 2 for
    2500 MB used with 1000 MB included and 0 for 500 MB used with 1000 MB
    included. *)
Theorem min_storage_package_quantity_ceiling (account : UserAccount.t) (plan : Plan.t) :
  (forall q, min_storage_package_quantity account plan = inl q -> 0 <= q) /\
  (UserAccount.storage_quota_used_mb account - Plan.storage_mb plan < 1000 * 2 ^ 44 ->
   exists q,
     min_storage_package_quantity account plan = inl q /\
     forall n : Z,
       q <= n <->
       0 <= n /\ UserAccount.storage_quota_used_mb account - Plan.storage_mb plan <= 1000 * n) /\
  (UserAccount.storage_quota_used_mb account = 2500 -> Plan.storage_mb plan = 1000 ->
   min_storage_package_quantity account plan = inl 2) /\
  (UserAccount.storage_quota_used_mb account = 500 -> Plan.storage_mb plan = 1000 ->
   min_storage_package_quantity account plan = inl 0).
Proof.
  split; [|split; [|split]].
  - apply min_storage_package_quantity_nonneg.
  - intros Hlt. eexists. split; [now apply min_storage_package_quantity_value|].
    intros n. rewrite ceiling_div_le. lia.
  - intros Hu Hi. rewrite min_storage_package_quantity_value; rewrite Hu, Hi; [reflexivity|].
    assert (0 < 2 ^ 44) by (apply Z.pow_pos_nonneg; lia). lia.
  - intros Hu Hi. rewrite min_storage_package_quantity_value; rewrite Hu, Hi; [reflexivity|].
    assert (0 < 2 ^ 44) by (apply Z.pow_pos_nonneg; lia). lia.
Qed.

(** The two literal cases, and the least quantity for 1001 MB over the
    plan. *)
Lemma min_storage_package_quantity_ceiling_witness :
  min_storage_package_quantity (example_account 1 2500)
    (example_plan 1 User.PERSON true false 1000 "community") = inl 2 /\
  min_storage_package_quantity (example_account 1 500)
    (example_plan 1 User.PERSON true false 1000 "community") = inl 0 /\
  exists q,
    min_storage_package_quantity (example_account 1 2001)
      (example_plan 1 User.PERSON true false 1000 "community") = inl q /\
    forall n : Z, q <= n <-> 0 <= n /\ 2001 - 1000 <= 1000 * n.
Proof.
  split; [|split].
  - apply (proj1 (proj2 (proj2 (min_storage_package_quantity_ceiling
        (example_account 1 2500) (example_plan 1 User.PERSON true false 1000 "community")))));
      reflexivity.
  - apply (proj2 (proj2 (proj2 (min_storage_package_quantity_ceiling
        (example_account 1 500) (example_plan 1 User.PERSON true false 1000 "community")))));
      reflexivity.
  - apply (proj1 (proj2 (min_storage_package_quantity_ceiling
        (example_account 1 2001) (example_plan 1 User.PERSON true false 1000 "community")))).
    simpl. reflexivity.
Defined.

(** With [10 ^ 17 + 1001] MB used and 1000 MB included, the quotient
    [100000000000000.001] rounds to the float [1e14]: the result is
    [10 ^ 14], one below the ceiling, and [1000] times it is less than the
    storage over the plan. *)
Lemma min_storage_package_quantity_rounds_down :
  min_storage_package_quantity (example_account 1 (10 ^ 17 + 1001))
    (example_plan 1 User.PERSON true false 1000 "community") = inl (10 ^ 14) /\
  1000 * 10 ^ 14 < (10 ^ 17 + 1001) - 1000.
Proof. split; [vm_compute; reflexivity | reflexivity]. Qed.

(** ** Active periods *)

(** The period the query selects is closed at both ends. *)
Lemma SubscriptionQuerySet_active_iff (now : datetime) (s : Subscription.t) :
  SubscriptionQuerySet_active now s = true <->
  exists since, Subscription.active_since s = Some since /\ since <= now /\
    (forall until, Subscription.active_until s = Some until -> now <= until).
Proof.
  unfold SubscriptionQuerySet_active.
  destruct (Subscription.active_since s) as [since|].
  - rewrite andb_true_iff, Z.leb_le. split.
    + intros [H1 H2]. exists since. split; [reflexivity|]. split; [exact H1|].
      intros u Hu. rewrite Hu in H2. apply Z.geb_le in H2. exact H2.
    + intros (since' & [= <-] & H1 & H2). split; [exact H1|].
      destruct (Subscription.active_until s) as [u|]; [|reflexivity].
      apply Z.geb_le. now apply H2.
  - split; [discriminate|]. intros (since & [=] & _).
Qed.

(** C3, evaluated on the code.  A subscription or a package whose
    [active_until] is the instant of the query is selected by [active()]
    exactly when its [active_since] is not later than that instant: the end
    of the period is inside it. *)
Theorem active_at_active_until (s : Subscription.t) (p : ExtraPackage.t)
    (since t : datetime) :
  SubscriptionQuerySet_active t
    (Subscription.set_active_until (Subscription.set_active_since s (Some since)) (Some t))
  = (since <=? t) /\
  ExtraPackageQuerySet_active t
    {| ExtraPackage.pk := ExtraPackage.pk p;
       ExtraPackage.subscription := ExtraPackage.subscription p;
       ExtraPackage.type := ExtraPackage.type p; ExtraPackage.quantity := ExtraPackage.quantity p;
       ExtraPackage.active_since := since; ExtraPackage.active_until := Some t |}
  = (since <=? t) /\
  SubscriptionQuerySet_active 200
    (example_subscription 1 5 Subscription.ACTIVE_PAID (Some 100) (Some 200)) = true /\
  ExtraPackageQuerySet_active 200 (example_package 1 1 1 3 100 (Some 200)) = true.
Proof.
  unfold SubscriptionQuerySet_active, ExtraPackageQuerySet_active. simpl.
  assert (Ht : (t >=? t) = true) by (apply Z.geb_le; lia).
  rewrite Ht, andb_true_r. repeat split; reflexivity.
Qed.

(** ** Extra packages *)

(** C7. On a subscription whose plan is not premium,
    [update_package_quantity] raises the assertion failure of its first
    statement and leaves every table as it was. *)
Theorem update_package_quantity_not_premium (w : World) (self : Subscription.t)
    (plan : Plan.t) (now now_active : datetime) (package_type : ExtraPackageType.t)
    (quantity : Z) :
  Subscription_plan self w = Returned plan w ->
  Plan.is_premium plan = false ->
  update_package_quantity now now_active self package_type quantity w
  = Raised (AssertionError "Only premium accounts can have additional packages!") w.
Proof.
  intros Hplan Hpremium.
  unfold update_package_quantity, update_package_quantity_with, bind.
  rewrite Hplan. unfold py_assert. rewrite Hpremium. reflexivity.
Qed.

Lemma update_package_quantity_not_premium_witness :
  update_package_quantity 200 200
    (example_subscription 1 5 Subscription.ACTIVE_PAID (Some 100) None) example_storage 2
    world_not_premium
  = Raised (AssertionError "Only premium accounts can have additional packages!")
      world_not_premium.
Proof.
  apply (update_package_quantity_not_premium world_not_premium
           (example_subscription 1 5 Subscription.ACTIVE_PAID (Some 100) None)
           (example_plan 1 User.PERSON true false 1000 "community")); reflexivity.
Defined.

(** ** Looking up the active subscription *)

(** C10. When two or more subscriptions of the account are active at the
    instant of the lookup, [get_or_create_active_subscription] raises
    [MultipleObjectsReturned]: it returns none of them and creates
    nothing. *)
Theorem get_or_create_active_subscription_multiple (w : World) (account : UserAccount.t)
    (now_get now_active now_since : datetime) :
  (2 <= List.length (active_subscriptions now_get (UserAccount.pk account) (subscriptions w)))%nat ->
  get_or_create_active_subscription now_get now_active now_since account w
  = Raised (MultipleObjectsReturned SubscriptionModel) w.
Proof.
  intros Hlen. unfold get_or_create_active_subscription, try_except.
  destruct (active_subscriptions now_get (UserAccount.pk account) (subscriptions w))
    as [|a [|b rest]]; simpl in Hlen; try lia.
  reflexivity.
Qed.

Lemma get_or_create_active_subscription_multiple_witness :
  prevent_overlaps (subscriptions world_handover) = true /\
  get_or_create_active_subscription 200 200 200 (example_account 5 0) world_handover
  = Raised (MultipleObjectsReturned SubscriptionModel) world_handover.
Proof.
  split; [reflexivity|].
  apply (get_or_create_active_subscription_multiple world_handover (example_account 5 0)).
  simpl. lia.
Defined.

(** ** Replacing a subscription *)

Lemma pk_eqb_eq (a b : option Z) : pk_eqb a b = true -> a = b.
Proof.
  destruct a as [x|], b as [y|]; simpl; try discriminate.
  intros H. apply Z.eqb_eq in H. now subst.
Qed.

Lemma pk_eqb_trans_false (a b c : option Z) :
  pk_eqb a b = true -> pk_eqb c b = false -> pk_eqb c a = false.
Proof. intros H. apply pk_eqb_eq in H. now subst. Qed.

(** The keyword arguments add their names to [update_fields] and their
    values to the object. *)
Lemma fold_kwargs (kwargs : list Attr) (fields : list Field) (s : Subscription.t) :
  fold_left (fun '(fields, s) a => (fields ++ [attr_name a], setattr s a)) kwargs (fields, s)
  = (fields ++ map attr_name kwargs, fold_left setattr kwargs s).
Proof.
  revert fields s. induction kwargs as [|a kwargs IH]; intros fields s; simpl.
  - now rewrite app_nil_r.
  - rewrite IH, <- app_assoc. reflexivity.
Qed.

(** No keyword argument reaches the key or the three named parameters. *)
Lemma setattr_kwargs_keeps (kwargs : list Attr) (s : Subscription.t) :
  Subscription.pk (fold_left setattr kwargs s) = Subscription.pk s /\
  Subscription.status (fold_left setattr kwargs s) = Subscription.status s /\
  Subscription.active_since (fold_left setattr kwargs s) = Subscription.active_since s /\
  Subscription.active_until (fold_left setattr kwargs s) = Subscription.active_until s.
Proof.
  revert s. induction kwargs as [|a kwargs IH]; intros s; simpl; [auto|].
  destruct (IH (setattr s a)) as (H1 & H2 & H3 & H4).
  rewrite H1, H2, H3, H4. destruct a; simpl; auto.
Qed.

Lemma store_fields_pk (obj : Subscription.t) (fields : list Field) (row : Subscription.t) :
  Subscription.pk (fold_left (store_field obj) fields row) = Subscription.pk row.
Proof.
  revert row. induction fields as [|f fields IH]; intros row; simpl; [reflexivity|].
  rewrite IH. destruct f; reflexivity.
Qed.

(** A listed column of the row holds the value of the object once the
    statement is executed: by induction on the list of columns, keeping
    that the column is still to come or already holds the value. *)
Ltac stored_column fields row :=
  let f := fresh "f" in
  let IH := fresh "IH" in
  let H := fresh "H" in
  revert row; induction fields as [|f fields IH]; intros row H; simpl;
  [ destruct H as [[]|H]; exact H
  | apply IH; destruct H as [[->|H]|H];
    [ right; reflexivity | left; exact H | right; destruct f; simpl; auto ] ].

Lemma store_fields_status (obj : Subscription.t) (fields : list Field) (row : Subscription.t) :
  In f_status fields \/ Subscription.status row = Subscription.status obj ->
  Subscription.status (fold_left (store_field obj) fields row) = Subscription.status obj.
Proof. stored_column fields row. Qed.

Lemma store_fields_active_since (obj : Subscription.t) (fields : list Field)
    (row : Subscription.t) :
  In f_active_since fields \/ Subscription.active_since row = Subscription.active_since obj ->
  Subscription.active_since (fold_left (store_field obj) fields row)
  = Subscription.active_since obj.
Proof. stored_column fields row. Qed.

Lemma store_fields_active_until (obj : Subscription.t) (fields : list Field)
    (row : Subscription.t) :
  In f_active_until fields \/ Subscription.active_until row = Subscription.active_until obj ->
  Subscription.active_until (fold_left (store_field obj) fields row)
  = Subscription.active_until obj.
Proof. stored_column fields row. Qed.

Lemma write_subscriptions_returned (tbl : list Subscription.t) (w : World) (u : unit) (w' : World) :
  write_subscriptions tbl w = Returned u w' ->
  forallb range_defined tbl = true /\ prevent_overlaps tbl = true /\
  w' = set_subscriptions w tbl.
Proof.
  unfold write_subscriptions.
  destruct (forallb range_defined tbl); simpl; [|discriminate].
  destruct (prevent_overlaps tbl); simpl; [|discriminate].
  intros [= _ <-]. auto.
Qed.

Lemma write_subscriptions_raised (tbl : list Subscription.t) (w : World) (e : Exn) (w' : World) :
  write_subscriptions tbl w = Raised e w' -> w' = w.
Proof.
  unfold write_subscriptions.
  destruct (forallb range_defined tbl); simpl; [|now intros [= _ <-]].
  destruct (prevent_overlaps tbl); simpl; [discriminate | now intros [= _ <-]].
Qed.

(** What a call of [update_subscription] that returns has done. *)
Lemma update_subscription_returned (w w' : World) (now : datetime)
    (subscription b' : Subscription.t) (status : Subscription.Status)
    (active_since : datetime) (active_until : option datetime) (kwargs : list Attr) :
  update_subscription now subscription status active_since active_until kwargs w
  = Returned b' w' ->
  exists row,
    filter (fun s => pk_eqb (Subscription.pk s) (Subscription.pk subscription)) (subscriptions w)
    = [row] /\
    b' = updated row status active_since active_until kwargs /\
    w' = set_subscriptions w
           (updated_table now row status active_since active_until kwargs (subscriptions w)) /\
    forallb range_defined (subscriptions w') = true /\
    prevent_overlaps (subscriptions w') = true.
Proof.
  unfold update_subscription, atomic, bind.
  destruct (filter _ (subscriptions w)) as [|row [|row' rest]] eqn:Hrow; simpl; try discriminate.
  assert (Hpk : Subscription.pk row = Subscription.pk subscription).
  { assert (Hin : In row (filter (fun s => pk_eqb (Subscription.pk s) (Subscription.pk subscription))
                            (subscriptions w))) by (rewrite Hrow; now left).
    apply filter_In in Hin. destruct Hin as [_ Hin]. now apply pk_eqb_eq. }
  unfold Subscription_update, bind.
  destruct (write_subscriptions _ w) as [u w1|e w1] eqn:Hw1; [|discriminate].
  apply write_subscriptions_returned in Hw1. destruct Hw1 as (_ & _ & ->).
  simpl. rewrite fold_kwargs. unfold Subscription_save. simpl.
  destruct (existsb _ _); [|discriminate].
  destruct (write_subscriptions _ _) as [u2 w2|e w2] eqn:Hw2; [|discriminate].
  apply write_subscriptions_returned in Hw2. destruct Hw2 as (Hr & Hp & ->).
  intros [= <- <-]. exists row. split; [reflexivity|].
  assert (Hpk' : Subscription.pk (updated row status active_since active_until kwargs)
                 = Subscription.pk row).
  { unfold updated. now rewrite (proj1 (setattr_kwargs_keeps _ _)). }
  fold (updated row status active_since active_until kwargs) in Hr, Hp |- *.
  unfold updated_table, others_active, close.
  rewrite Hpk' in Hr, Hp |- *. rewrite Hpk.
  split; [reflexivity|]. split; [reflexivity|]. simpl. rewrite Hpk in Hr, Hp. split; assumption.
Qed.

(** [transaction.atomic()]: a call of [update_subscription] that raises
    leaves the database as it found it. *)
Lemma update_subscription_raised (w w' : World) (now : datetime)
    (subscription : Subscription.t) (status : Subscription.Status)
    (active_since : datetime) (active_until : option datetime) (kwargs : list Attr) (e : Exn) :
  update_subscription now subscription status active_since active_until kwargs w = Raised e w' ->
  w' = w.
Proof.
  unfold update_subscription, atomic.
  match goal with |- context [match ?b w with _ => _ end] => destruct (b w) end;
    [discriminate | now intros [= _ <-]].
Qed.

(** C2, for the calls that return.  When [update_subscription] activates
    subscription [B] (stored as [Brow]) and returns, every other subscription [A] of the same account
    that was active at the instant of the call is stored with
    [active_until = active_since] and status [INACTIVE_CANCELLED], its other
    columns unchanged; the object returned and the stored row of [B] carry
    the given status, [active_since] and [active_until]. *)
Theorem update_subscription_closes_active (w w' : World) (now : datetime)
    (B b' A Brow : Subscription.t) (status : Subscription.Status)
    (active_since : datetime) (active_until : option datetime) (kwargs : list Attr) :
  update_subscription now B status active_since active_until kwargs w = Returned b' w' ->
  In Brow (subscriptions w) ->
  pk_eqb (Subscription.pk Brow) (Subscription.pk B) = true ->
  In A (subscriptions w) ->
  SubscriptionQuerySet_active now A = true ->
  Subscription.account A = Subscription.account Brow ->
  pk_eqb (Subscription.pk A) (Subscription.pk B) = false ->
  In (Subscription.set_active_until
        (Subscription.set_status A Subscription.INACTIVE_CANCELLED) (Some active_since))
     (subscriptions w') /\
  (Subscription.pk b' = Subscription.pk B /\
   Subscription.status b' = status /\
   Subscription.active_since b' = Some active_since /\
   Subscription.active_until b' = active_until) /\
  exists B', In B' (subscriptions w') /\
    Subscription.pk B' = Subscription.pk B /\
    Subscription.status B' = status /\
    Subscription.active_since B' = Some active_since /\
    Subscription.active_until B' = active_until.
Proof.
  intros Hcall HBrow HpkB HA Hactive Hacct Hdiff.
  apply update_subscription_returned in Hcall.
  destruct Hcall as (row & Hrow & -> & -> & _ & _).
  assert (Hin : In Brow (filter (fun s => pk_eqb (Subscription.pk s) (Subscription.pk B))
                           (subscriptions w))) by (apply filter_In; auto).
  rewrite Hrow in Hin. destruct Hin as [<-|[]].
  assert (Hpk : Subscription.pk row = Subscription.pk B) by now apply pk_eqb_eq.
  assert (Hrr : pk_eqb (Subscription.pk row) (Subscription.pk row) = true)
    by (rewrite Hpk at 2; exact HpkB).
  destruct (setattr_kwargs_keeps kwargs
              (Subscription.set_active_until
                 (Subscription.set_active_since (Subscription.set_status row status)
                    (Some active_since)) active_until)) as (K1 & K2 & K3 & K4).
  simpl in K1, K2, K3, K4. fold (updated row status active_since active_until kwargs) in K1, K2, K3, K4.
  split; [|split].
  - simpl. unfold updated_table.
    apply in_map_iff. exists (close active_since A). split.
    + unfold close. simpl. rewrite Hpk, Hdiff. reflexivity.
    + apply in_map_iff. exists A. split; [|exact HA].
      unfold others_active. rewrite Hactive, Hacct, Z.eqb_refl, Hpk, Hdiff. reflexivity.
  - rewrite K1, K2, K3, K4. auto.
  - exists (fold_left (store_field (updated row status active_since active_until kwargs))
              ([f_status; f_active_since; f_active_until] ++ map attr_name kwargs) row).
    split; [|split; [|split; [|split]]].
    + simpl. unfold updated_table. apply in_map_iff. exists row. split.
      * rewrite Hrr. reflexivity.
      * apply in_map_iff. exists row. split; [|exact HBrow].
        unfold others_active. rewrite Hrr, andb_false_r. reflexivity.
    + rewrite store_fields_pk. exact Hpk.
    + rewrite store_fields_status; [exact K2 | left; simpl; auto].
    + rewrite store_fields_active_since; [exact K3 | left; simpl; auto].
    + rewrite store_fields_active_until; [exact K4 | left; simpl; auto].
Qed.

(** Activating [B] at 2023-06-01: [A] ends at 2023-06-01 with the status
    stored as [inactive_cancelled]. *)
Lemma update_subscription_closes_active_witness :
  exists b' w',
    update_subscription t_2023_05_20 sub_B Subscription.ACTIVE_PAID t_2023_06_01 None []
      world_A_B = Returned b' w' /\
    Subscription.Status_value Subscription.INACTIVE_CANCELLED = "inactive_cancelled"%string /\
    In (example_subscription 1 5 Subscription.INACTIVE_CANCELLED
          (Some t_2023_01_01) (Some t_2023_06_01)) (subscriptions w') /\
    (Subscription.pk b' = Some 2 /\
     Subscription.status b' = Subscription.ACTIVE_PAID /\
     Subscription.active_since b' = Some t_2023_06_01 /\
     Subscription.active_until b' = None) /\
    exists B', In B' (subscriptions w') /\
      Subscription.pk B' = Some 2 /\
      Subscription.status B' = Subscription.ACTIVE_PAID /\
      Subscription.active_since B' = Some t_2023_06_01 /\
      Subscription.active_until B' = None.
Proof.
  eexists. eexists. split; [reflexivity|]. split; [reflexivity|].
  apply (update_subscription_closes_active world_A_B _ t_2023_05_20 sub_B _ sub_A sub_B
           Subscription.ACTIVE_PAID t_2023_06_01 None []).
  - reflexivity.
  - simpl. auto.
  - reflexivity.
  - simpl. auto.
  - reflexivity.
  - reflexivity.
  - reflexivity.
Defined.

(** A call the engine refuses closes nothing.  [A] has been active since
    2023-01-01; activating [B] as of 2022-12-01 would end [A] before it
    starts, the statement that closes [A] raises [DataError], and [A] is
    left active, without end. *)
Lemma update_subscription_refused_leaves_active :
  In sub_A (subscriptions world_A_B) /\
  In sub_B (subscriptions world_A_B) /\
  SubscriptionQuerySet_active t_2023_05_20 sub_A = true /\
  Subscription.account sub_A = Subscription.account sub_B /\
  Subscription.pk sub_A <> Subscription.pk sub_B /\
  update_subscription t_2023_05_20 sub_B Subscription.ACTIVE_PAID 1669852800000000 None []
    world_A_B
  = Raised (DataError "range lower bound must be less than or equal to range upper bound")
      world_A_B /\
  Subscription.active_until sub_A = None /\
  Subscription.status sub_A = Subscription.ACTIVE_PAID.
Proof.
  repeat split; try reflexivity; try (simpl; auto; fail).
  intros H; discriminate H.
Qed.

(** ** At most one active subscription *)

Lemma in_tstzrange_excluded (t : datetime) (a b : Subscription.t) :
  in_tstzrange t a = true -> in_tstzrange t b = true ->
  Subscription.account a = Subscription.account b ->
  excluded a b = true.
Proof.
  unfold in_tstzrange, excluded, tstzrange_overlap, before.
  destruct (Subscription.active_since a) as [la|]; [|discriminate].
  destruct (Subscription.active_since b) as [lb|]; [|discriminate].
  intros Ha Hb ->. rewrite Z.eqb_refl. simpl.
  apply andb_true_iff in Ha, Hb. destruct Ha as [Ha1 Ha2], Hb as [Hb1 Hb2].
  apply Z.leb_le in Ha1, Hb1.
  destruct (Subscription.active_until a) as [ha|], (Subscription.active_until b) as [hb|];
    simpl; repeat (apply andb_true_iff; split); try reflexivity;
    try apply Z.ltb_lt in Ha2; try apply Z.ltb_lt in Hb2; apply Z.ltb_lt; lia.
Qed.

(** A table the exclusion constraint accepts holds, for every account and
    instant, at most one row whose range contains the instant. *)
Lemma prevent_overlaps_unique (tbl : list Subscription.t) (t : datetime) (account : Z) :
  prevent_overlaps tbl = true ->
  (List.length (in_range t account tbl) <= 1)%nat.
Proof.
  unfold in_range.
  induction tbl as [|r rest IH]; simpl; [lia|].
  intros H. apply andb_true_iff in H. destruct H as [Hr Hrest].
  specialize (IH Hrest).
  destruct (in_tstzrange t r && (Subscription.account r =? account)) eqn:Er; [|exact IH].
  apply andb_true_iff in Er. destruct Er as [Er1 Er2]. apply Z.eqb_eq in Er2.
  destruct (filter _ rest) as [|r' rest'] eqn:Ef; simpl; [lia|].
  exfalso.
  assert (Hin : In r' (filter (fun s => in_tstzrange t s && (Subscription.account s =? account))
                         rest)) by (rewrite Ef; now left).
  apply filter_In in Hin. destruct Hin as [Hin Hsel].
  apply andb_true_iff in Hsel. destruct Hsel as [Hs1 Hs2]. apply Z.eqb_eq in Hs2.
  rewrite forallb_forall in Hr. specialize (Hr r' Hin).
  rewrite (in_tstzrange_excluded t r r') in Hr; [discriminate | assumption | assumption | congruence].
Qed.

(** X1. The guarantee of [update_subscription] that holds on the code, with
    the half-open period of the exclusion constraint: after a call that returns,
    at every instant at most one subscription of any account has
    [active_since <= t < active_until]; a call that raises changes
    nothing. *)
Theorem update_subscription_one_in_range (w w' : World) (now : datetime)
    (subscription b' : Subscription.t) (status : Subscription.Status)
    (active_since : datetime) (active_until : option datetime) (kwargs : list Attr) :
  update_subscription now subscription status active_since active_until kwargs w
  = Returned b' w' ->
  forall (t : datetime) (account : Z),
    (List.length (in_range t account (subscriptions w')) <= 1)%nat.
Proof.
  intros Hcall t account.
  apply update_subscription_returned in Hcall.
  destruct Hcall as (row & _ & _ & _ & _ & Hp).
  now apply prevent_overlaps_unique.
Qed.

Lemma update_subscription_one_in_range_witness :
  exists b' w',
    update_subscription t_2023_06_01 sub_B Subscription.ACTIVE_PAID t_2023_06_01 None []
      world_A_B = Returned b' w' /\
    in_range t_2023_06_01 5 (subscriptions w')
    = [example_subscription 2 5 Subscription.ACTIVE_PAID (Some t_2023_06_01) None] /\
    (List.length (in_range t_2023_06_01 5 (subscriptions w')) <= 1)%nat.
Proof.
  eexists. eexists. split; [reflexivity|]. split; [reflexivity|].
  eapply (update_subscription_one_in_range world_A_B _ t_2023_06_01 sub_B _
            Subscription.ACTIVE_PAID t_2023_06_01 None []).
  reflexivity.
Defined.

(** C1, evaluated on the code.  [A] is active since 2023-01-01 with no end;
    [B] is activated at 2023-06-01.  The call returns, and the exclusion
    constraint accepts the table it leaves; at the instant 2023-06-01
    [active()] selects both [A], closed at that instant, and [B], opened at
    it.  This holds when the call is made at that instant and when it is
    made earlier, on 2023-05-20.  The atomic part holds: a call that raises
    leaves the database unchanged. *)
Theorem update_subscription_two_active_at_handover :
  prevent_overlaps (subscriptions world_A_B) = true /\
  active_subscriptions t_2023_06_01 5 (subscriptions world_A_B) = [sub_A] /\
  (exists b' w',
     update_subscription t_2023_06_01 sub_B Subscription.ACTIVE_PAID t_2023_06_01 None []
       world_A_B = Returned b' w' /\
     prevent_overlaps (subscriptions w') = true /\
     active_subscriptions t_2023_06_01 5 (subscriptions w')
     = [example_subscription 1 5 Subscription.INACTIVE_CANCELLED
          (Some t_2023_01_01) (Some t_2023_06_01);
        example_subscription 2 5 Subscription.ACTIVE_PAID (Some t_2023_06_01) None]) /\
  (exists b' w',
     update_subscription t_2023_05_20 sub_B Subscription.ACTIVE_PAID t_2023_06_01 None []
       world_A_B = Returned b' w' /\
     List.length (active_subscriptions t_2023_06_01 5 (subscriptions w')) = 2%nat) /\
  (forall w w' now subscription status active_since active_until kwargs e,
     update_subscription now subscription status active_since active_until kwargs w
     = Raised e w' -> w' = w).
Proof.
  split; [reflexivity|]. split; [reflexivity|]. split; [|split].
  - eexists. eexists. split; [reflexivity|]. split; reflexivity.
  - eexists. eexists. split; reflexivity.
  - intros w w' now subscription status active_since active_until kwargs e.
    apply update_subscription_raised.
Qed.

(** ** Changing the quantity of a package *)

(** On a premium plan the code reaches [self.subscription], which raises
    before any query is sent. *)
Lemma update_package_quantity_premium (w : World) (self : Subscription.t) (plan : Plan.t)
    (now now_active : datetime) (package_type : ExtraPackageType.t) (quantity : Z) :
  Subscription_plan self w = Returned plan w ->
  Plan.is_premium plan = true ->
  update_package_quantity now now_active self package_type quantity w
  = Raised (AttributeError "Subscription" "subscription") w.
Proof.
  intros Hplan Hpremium.
  unfold update_package_quantity, update_package_quantity_with, bind.
  rewrite Hplan. unfold py_assert. rewrite Hpremium. reflexivity.
Qed.

(** C4, evaluated on the code.  On a premium subscription with an active
    storage package, [update_package_quantity] raises [AttributeError] for a
    positive quantity and for quantity 0: the old package is not closed and
    no package is created.  The same holds for every premium subscription. *)
Theorem update_package_quantity_attribute_error :
  update_package_quantity 200 200
    (example_subscription 1 5 Subscription.ACTIVE_PAID (Some 100) None) example_storage 5
    world_premium
  = Raised (AttributeError "Subscription" "subscription") world_premium /\
  update_package_quantity 200 200
    (example_subscription 1 5 Subscription.ACTIVE_PAID (Some 100) None) example_storage 0
    world_premium
  = Raised (AttributeError "Subscription" "subscription") world_premium /\
  (forall w self plan now now_active package_type quantity,
     Subscription_plan self w = Returned plan w ->
     Plan.is_premium plan = true ->
     update_package_quantity now now_active self package_type quantity w
     = Raised (AttributeError "Subscription" "subscription") w).
Proof.
  split; [reflexivity|]. split; [reflexivity|].
  intros w self plan now now_active package_type quantity.
  apply update_package_quantity_premium.
Qed.

(** ** The active subscription of an account *)

Lemma prevent_overlaps_app (tbl : list Subscription.t) (x : Subscription.t) :
  prevent_overlaps (tbl ++ [x])
  = prevent_overlaps tbl && forallb (fun r => negb (excluded r x)) tbl.
Proof.
  induction tbl as [|r rest IH]; simpl; [reflexivity|].
  rewrite IH, forallb_app. simpl. rewrite andb_true_r.
  destruct (forallb (fun r' => negb (excluded r r')) rest), (negb (excluded r x)),
    (prevent_overlaps rest); reflexivity.
Qed.

Lemma all_ended_not_excluded (t : datetime) (plan : Plan.t) (account : UserAccount.t)
    (tbl tbl0 : list Subscription.t) :
  all_ended t (UserAccount.pk account) tbl ->
  forallb (fun r => negb (excluded r (default_subscription tbl0 plan account t))) tbl = true.
Proof.
  intros Hended. apply forallb_forall. intros s Hin.
  unfold excluded. simpl.
  destruct (Subscription.active_since s) as [lo|] eqn:Hlo; [|reflexivity].
  destruct (Z.eqb_spec (Subscription.account s) (UserAccount.pk account)) as [Hacct|]; [|reflexivity].
  destruct (Hended s Hin Hacct) as (h & Hh & Hle); [congruence|].
  rewrite Hh. unfold tstzrange_overlap, before. simpl.
  assert (Ht : (t <? h) = false) by (apply Z.ltb_ge; lia).
  rewrite Ht, !andb_false_r. reflexivity.
Qed.

Lemma create_default_plan_subscription_created (w : World) (account : UserAccount.t)
    (now_active now_since : datetime) (plan : Plan.t) :
  active_subscriptions now_active (UserAccount.pk account) (subscriptions w) = [] ->
  default_plans (UserAccount.user_type account) (plans w) = [plan] ->
  forallb range_defined (subscriptions w) = true ->
  prevent_overlaps (subscriptions w) = true ->
  all_ended now_since (UserAccount.pk account) (subscriptions w) ->
  create_default_plan_subscription now_active now_since account None w
  = Returned (default_subscription (subscriptions w) plan account now_since)
      (set_subscriptions w
         (subscriptions w ++ [default_subscription (subscriptions w) plan account now_since])).
Proof.
  intros Hnone Hplan Hdef Hexcl Hended.
  unfold create_default_plan_subscription. rewrite Hnone.
  unfold default_plans in Hplan. unfold bind. rewrite Hplan. simpl.
  unfold Subscription_objects_create, bind, write_subscriptions.
  fold (default_subscription (subscriptions w) plan account now_since).
  rewrite forallb_app, Hdef, prevent_overlaps_app, Hexcl.
  rewrite (all_ended_not_excluded now_since plan account (subscriptions w) (subscriptions w) Hended).
  reflexivity.
Qed.




(** ** Default plans *)

Lemma unset_pk (ut : Z) (r : Plan.t) : Plan.pk (unset ut r) = Plan.pk r.
Proof. unfold unset. destruct (Plan.user_type r =? ut); reflexivity. Qed.

Lemma unset_user_type (ut : Z) (r : Plan.t) : Plan.user_type (unset ut r) = Plan.user_type r.
Proof. unfold unset. destruct (Plan.user_type r =? ut); reflexivity. Qed.

Lemma unset_is_default (ut : Z) (r : Plan.t) :
  Plan.is_default (unset ut r) = true ->
  Plan.is_default r = true /\ Plan.user_type r <> ut.
Proof.
  unfold unset. destruct (Z.eqb_spec (Plan.user_type r) ut); simpl; [discriminate | auto].
Qed.

Lemma keys_ok_unset (ut : Z) (tbl : list Plan.t) : keys_ok tbl -> keys_ok (map (unset ut) tbl).
Proof.
  intros [Hnd Hsome]. split.
  - rewrite map_map. erewrite map_ext; [exact Hnd|]. intros r. apply unset_pk.
  - intros p Hp. apply in_map_iff in Hp. destruct Hp as (r & <- & Hr).
    rewrite unset_pk. now apply Hsome.
Qed.

Lemma one_default_unset (ut : Z) (tbl : list Plan.t) :
  one_default tbl -> one_default (map (unset ut) tbl).
Proof.
  intros H p q Hp Hq Dp Dq Hut.
  apply in_map_iff in Hp, Hq. destruct Hp as (rp & <- & Hrp), Hq as (rq & <- & Hrq).
  rewrite !unset_pk. rewrite !unset_user_type in Hut.
  apply unset_is_default in Dp, Dq. apply H; tauto.
Qed.

Lemma no_default_unset (ut : Z) (tbl : list Plan.t) (p : Plan.t) :
  In p (map (unset ut) tbl) -> Plan.is_default p = true -> Plan.user_type p <> ut.
Proof.
  intros Hp Dp. apply in_map_iff in Hp. destruct Hp as (r & <- & _).
  rewrite unset_user_type. now apply unset_is_default in Dp.
Qed.

Lemma next_pk_above (keys : list (option Z)) (k : Z) : In (Some k) keys -> k < next_pk keys.
Proof.
  unfold next_pk. induction keys as [|[j|] keys IH]; cbn [fold_right In]; [intros [] | |].
  - intros [[= ->]|H]; [lia|]. specialize (IH H). lia.
  - intros [[=]|H]. now apply IH.
Qed.

Lemma pk_eqb_refl_r (a b : option Z) : pk_eqb a b = true -> pk_eqb b b = true.
Proof.
  destruct a, b; simpl; try discriminate. intros _. apply Z.eqb_refl.
Qed.

Lemma Model_save_plan_returned (self r : Plan.t) (w w' : World) :
  Model_save_plan self w = Returned r w' ->
  r = saved_object self (plans w) /\ w' = set_plans w (saved_table self (plans w)).
Proof.
  unfold Model_save_plan, saved_object, saved_table, bind, write_plans.
  destruct (existsb _ (plans w)).
  - destruct (codes_unique _); [|discriminate]. now intros [= <- <-].
  - destruct (codes_unique _); [|discriminate]. now intros [= <- <-].
Qed.

Lemma saved_object_fields (self : Plan.t) (tbl : list Plan.t) :
  Plan.is_default (saved_object self tbl) = Plan.is_default self /\
  Plan.user_type (saved_object self tbl) = Plan.user_type self.
Proof.
  unfold saved_object. destruct (existsb _ tbl); [auto|].
  destruct (Plan.pk self); auto.
Qed.

Lemma in_saved_table (self : Plan.t) (tbl : list Plan.t) (p : Plan.t) :
  In p (saved_table self tbl) ->
  p = saved_object self tbl \/ (In p tbl /\ Plan.pk p <> Plan.pk (saved_object self tbl)).
Proof.
  unfold saved_table, saved_object.
  destruct (existsb _ tbl) eqn:Hex.
  - intros Hp. apply in_map_iff in Hp. destruct Hp as (r & <- & Hr).
    destruct (pk_eqb (Plan.pk r) (Plan.pk self)) eqn:E; [now left | right].
    split; [exact Hr|]. intros Heq. rewrite Heq in E.
    apply existsb_exists in Hex. destruct Hex as (r' & _ & Hr').
    apply pk_eqb_refl_r in Hr'. congruence.
  - intros Hp. apply in_app_iff in Hp. destruct Hp as [Hp|[<-|[]]]; [right | now left].
    split; [exact Hp|]. intros Heq.
    assert (Hnone : forall r, In r tbl -> pk_eqb (Plan.pk r) (Plan.pk self) = false).
    { intros r Hr. destruct (pk_eqb (Plan.pk r) (Plan.pk self)) eqn:E; [|reflexivity].
      assert (existsb (fun r => pk_eqb (Plan.pk r) (Plan.pk self)) tbl = true)
        by (apply existsb_exists; eauto).
      congruence. }
    destruct (Plan.pk self) as [i|] eqn:Hself.
    + specialize (Hnone p Hp). rewrite Heq, Hself in Hnone. simpl in Hnone.
      rewrite Z.eqb_refl in Hnone. discriminate.
    + simpl in Heq.
      assert (Hlt : next_pk (map Plan.pk tbl) < next_pk (map Plan.pk tbl)).
      { apply next_pk_above. rewrite <- Heq. now apply in_map. }
      lia.
Qed.

Lemma insert_key_fresh (self : Plan.t) (tbl : list Plan.t) (p : Plan.t) :
  existsb (fun r => pk_eqb (Plan.pk r) (Plan.pk self)) tbl = false ->
  In p tbl -> Plan.pk p <> Plan.pk (saved_object self tbl).
Proof.
  intros Hex Hp Heq. unfold saved_object in Heq. rewrite Hex in Heq.
  destruct (Plan.pk self) as [i|] eqn:Hself.
  - simpl in Heq.
    assert (Htrue : existsb (fun r => pk_eqb (Plan.pk r) (Some i)) tbl = true).
    { apply existsb_exists. exists p. split; [exact Hp|].
      rewrite Heq, Hself. simpl. apply Z.eqb_refl. }
    congruence.
  - simpl in Heq.
    assert (Hlt : next_pk (map Plan.pk tbl) < next_pk (map Plan.pk tbl)).
    { apply next_pk_above. rewrite <- Heq. now apply in_map. }
    lia.
Qed.

Lemma NoDup_snoc {A} (l : list A) (x : A) : NoDup l -> ~ In x l -> NoDup (l ++ [x]).
Proof.
  induction l as [|y l IH]; simpl; intros Hnd Hx.
  - constructor; [intros [] | constructor].
  - inversion Hnd as [|? ? Hy Hl]; subst. constructor.
    + rewrite in_app_iff. intros [H|[H|[]]]; [contradiction | subst; apply Hx; now left].
    + apply IH; [exact Hl | intros H; apply Hx; now right].
Qed.

Lemma keys_ok_saved_table (self : Plan.t) (tbl : list Plan.t) :
  keys_ok tbl -> keys_ok (saved_table self tbl).
Proof.
  intros [Hnd Hsome]. unfold saved_table.
  destruct (existsb _ tbl) eqn:Hex.
  - assert (Hpk : forall r, Plan.pk (if pk_eqb (Plan.pk r) (Plan.pk self) then self else r)
                            = Plan.pk r).
    { intros r. destruct (pk_eqb (Plan.pk r) (Plan.pk self)) eqn:E; [|reflexivity].
      symmetry. now apply pk_eqb_eq. }
    split.
    + rewrite map_map. erewrite map_ext; [exact Hnd | exact Hpk].
    + intros p Hp. apply in_map_iff in Hp. destruct Hp as (r & <- & Hr).
      rewrite Hpk. now apply Hsome.
  - pose proof (insert_key_fresh self tbl) as Hfresh.
    unfold saved_object in Hfresh. rewrite Hex in Hfresh.
    split.
    + rewrite map_app. simpl. apply NoDup_snoc; [exact Hnd|].
      intros Hin. apply in_map_iff in Hin. destruct Hin as (p & Hp & Hin).
      now apply (Hfresh p eq_refl Hin).
    + intros p Hp. apply in_app_iff in Hp. destruct Hp as [Hp|[<-|[]]]; [now apply Hsome|].
      destruct (Plan.pk self) eqn:Hself; [congruence | discriminate].
Qed.

Lemma one_default_saved_table (self : Plan.t) (tbl : list Plan.t) :
  one_default tbl ->
  (Plan.is_default self = true ->
   forall p, In p tbl -> Plan.is_default p = true -> Plan.user_type p <> Plan.user_type self) ->
  one_default (saved_table self tbl).
Proof.
  intros Hone Hnone p q Hp Hq Dp Dq Hut.
  destruct (saved_object_fields self tbl) as [Fd Fu].
  apply in_saved_table in Hp, Hq.
  destruct Hp as [->|[Hp _]], Hq as [->|[Hq _]].
  - reflexivity.
  - exfalso. rewrite Fd in Dp. rewrite Fu in Hut. now apply (Hnone Dp q Hq Dq).
  - exfalso. rewrite Fd in Dq. rewrite Fu in Hut. now apply (Hnone Dq p Hp Dp).
  - now apply Hone.
Qed.

Lemma Plan_save_returned (self r : Plan.t) (w w' : World) :
  Plan_save self w = Returned r w' ->
  r = saved_object self (unset_table self (plans w)) /\
  w' = set_plans w (saved_table self (unset_table self (plans w))).
Proof.
  unfold Plan_save, unset_table.
  destruct (negb _); [discriminate|].
  unfold atomic, bind.
  destruct (Plan.is_default self).
  - unfold Plan_unset_default. fold (unset (Plan.user_type self)).
    destruct (Model_save_plan self _) as [r' w1|e w1] eqn:Hsave; [|discriminate].
    apply Model_save_plan_returned in Hsave. destruct Hsave as [-> ->].
    intros [= <- <-]. destruct w; auto.
  - unfold ret.
    destruct (Model_save_plan self _) as [r' w1|e w1] eqn:Hsave; [|discriminate].
    apply Model_save_plan_returned in Hsave. destruct Hsave as [-> ->].
    intros [= <- <-]. auto.
Qed.

(** A call of [Plan.save] that raises leaves the database as it was. *)
Lemma Plan_save_raised (self : Plan.t) (e : Exn) (w w' : World) :
  Plan_save self w = Raised e w' -> w' = w.
Proof.
  unfold Plan_save. destruct (negb _); [now intros [= _ <-]|].
  unfold atomic.
  match goal with |- context [match ?b w with _ => _ end] => destruct (b w) end;
    [discriminate | now intros [= _ <-]].
Qed.

Lemma Plan_save_invariant (self r : Plan.t) (w w' : World) :
  Plan_save self w = Returned r w' ->
  keys_ok (plans w) -> one_default (plans w) ->
  keys_ok (plans w') /\ one_default (plans w').
Proof.
  intros Hsave Hkeys Hone.
  apply Plan_save_returned in Hsave. destruct Hsave as [_ ->]. simpl.
  unfold unset_table. destruct (Plan.is_default self) eqn:Hd.
  - split.
    + now apply keys_ok_saved_table, keys_ok_unset.
    + apply one_default_saved_table; [now apply one_default_unset|].
      intros _ p Hp Dp. now apply (no_default_unset _ (plans w)).
  - split.
    + now apply keys_ok_saved_table.
    + apply one_default_saved_table; [exact Hone | intros H; congruence].
Qed.

Lemma Plan_get_or_create_default_empty (w : World) :
  plans w = [] ->
  Plan_get_or_create_default w
  = Returned (Some default_user) (set_plans w [default_user; default_org]).
Proof.
  destruct w as [pl subs pkgs]. simpl. intros ->. reflexivity.
Qed.

Lemma Plan_get_or_create_default_nonempty (w : World) :
  plans w <> [] ->
  Plan_get_or_create_default w = Returned (first_by_is_default (plans w)) w.
Proof.
  intros Hne. unfold Plan_get_or_create_default, bind.
  destruct (plans w) as [|p tbl] eqn:Hp; [contradiction|].
  simpl. rewrite Hp. reflexivity.
Qed.

(** [get_or_create_default] always returns; it writes only to an empty
    table. *)
Lemma Plan_get_or_create_default_total (w : World) :
  exists r w', Plan_get_or_create_default w = Returned r w' /\
    (plans w' = plans w \/ (plans w = [] /\ plans w' = [default_user; default_org])).
Proof.
  destruct (plans w) as [|p tbl] eqn:Hp.
  - eexists _, _. split; [now apply Plan_get_or_create_default_empty|].
    right. split; reflexivity.
  - eexists _, _. split; [apply Plan_get_or_create_default_nonempty; congruence|].
    left. exact Hp.
Qed.

Lemma keys_ok_defaults : keys_ok [default_user; default_org].
Proof.
  split.
  - simpl. constructor; [intros [[=]|[]]|]. constructor; [intros []|constructor].
  - intros p [<-|[<-|[]]]; discriminate.
Qed.

Lemma one_default_defaults : one_default [default_user; default_org].
Proof.
  intros p q [<-|[<-|[]]] [<-|[<-|[]]] _ _ Hut; try reflexivity; discriminate.
Qed.

Lemma pk_eqb_none_r (tbl : list Plan.t) :
  existsb (fun r => pk_eqb (Plan.pk r) None) tbl = false.
Proof.
  induction tbl as [|r tbl IH]; simpl; [reflexivity|].
  rewrite IH. destruct (Plan.pk r); reflexivity.
Qed.

(** [save()] is [save] with every argument at its default. *)
Lemma Model_save_plan_no_kwargs (self : Plan.t) (w : World) :
  Model_save_plan_kwargs no_kwargs self w = Model_save_plan self w.
Proof.
  unfold Model_save_plan_kwargs, Model_save_plan. simpl.
  destruct (Plan.pk self) as [i|] eqn:Hpk.
  - destruct (existsb _ (plans w)); reflexivity.
  - rewrite pk_eqb_none_r. reflexivity.
Qed.

Lemma Plan_save_no_kwargs (self : Plan.t) (w : World) :
  Plan_save_kwargs no_kwargs self w = Plan_save self w.
Proof.
  unfold Plan_save_kwargs, Plan_save.
  destruct (negb _); [reflexivity|].
  unfold atomic, bind.
  destruct (Plan.is_default self).
  - unfold Plan_unset_default. now rewrite Model_save_plan_no_kwargs.
  - unfold ret. now rewrite Model_save_plan_no_kwargs.
Qed.

(** A save of the whole object that returns leaves the table and the
    object of [models.Model.save], whatever is forced. *)
Lemma Model_save_plan_kwargs_returned (kw : SaveKwargs) (self r : Plan.t) (w w' : World) :
  update_fields kw = None ->
  Model_save_plan_kwargs kw self w = Returned r w' ->
  r = saved_object self (plans w) /\ w' = set_plans w (saved_table self (plans w)).
Proof.
  intros Hnone. unfold Model_save_plan_kwargs, saved_object, saved_table, bind, write_plans.
  rewrite Hnone. rewrite orb_false_r.
  destruct (force_insert kw) eqn:Hfi, (force_update kw) eqn:Hfu; simpl;
    try (intros H; discriminate H).
  - destruct (Plan.pk self) as [i|] eqn:Hpk.
    + destruct (existsb _ (plans w)); [intros H; discriminate H|].
      destruct (codes_unique _); [|intros H; discriminate H]. now intros [= <- <-].
    + rewrite pk_eqb_none_r.
      destruct (codes_unique _); [|intros H; discriminate H]. now intros [= <- <-].
  - destruct (Plan.pk self) as [i|] eqn:Hpk; [|intros H; discriminate H].
    destruct (existsb _ (plans w)); [|intros H; discriminate H].
    destruct (codes_unique _); [|intros H; discriminate H]. now intros [= <- <-].
  - destruct (Plan.pk self) as [i|] eqn:Hpk.
    + destruct (existsb _ (plans w)).
      * destruct (codes_unique _); [|intros H; discriminate H]. now intros [= <- <-].
      * destruct (codes_unique _); [|intros H; discriminate H]. now intros [= <- <-].
    + rewrite pk_eqb_none_r.
      destruct (codes_unique _); [|intros H; discriminate H]. now intros [= <- <-].
Qed.

Lemma Plan_save_kwargs_returned (kw : SaveKwargs) (self r : Plan.t) (w w' : World) :
  update_fields kw = None ->
  Plan_save_kwargs kw self w = Returned r w' ->
  r = saved_object self (unset_table self (plans w)) /\
  w' = set_plans w (saved_table self (unset_table self (plans w))).
Proof.
  intros Hnone. unfold Plan_save_kwargs, unset_table.
  destruct (negb _); [discriminate|].
  unfold atomic, bind.
  destruct (Plan.is_default self).
  - unfold Plan_unset_default. fold (unset (Plan.user_type self)).
    destruct (Model_save_plan_kwargs kw self _) as [r' w1|e w1] eqn:Hsave; [|discriminate].
    apply Model_save_plan_kwargs_returned in Hsave; [|exact Hnone].
    destruct Hsave as [-> ->].
    intros [= <- <-]. destruct w; auto.
  - unfold ret.
    destruct (Model_save_plan_kwargs kw self _) as [r' w1|e w1] eqn:Hsave; [|discriminate].
    apply Model_save_plan_kwargs_returned in Hsave; [|exact Hnone].
    destruct Hsave as [-> ->].
    intros [= <- <-]. auto.
Qed.

(** A call of [Plan.save] that raises leaves the database as it was,
    whatever its arguments. *)
Lemma Plan_save_kwargs_raised (kw : SaveKwargs) (self : Plan.t) (e : Exn) (w w' : World) :
  Plan_save_kwargs kw self w = Raised e w' -> w' = w.
Proof.
  unfold Plan_save_kwargs. destruct (negb _); [now intros [= _ <-]|].
  unfold atomic.
  match goal with |- context [match ?b w with _ => _ end] => destruct (b w) end;
    [discriminate | now intros [= _ <-]].
Qed.

Lemma Plan_save_kwargs_invariant (kw : SaveKwargs) (self r : Plan.t) (w w' : World) :
  update_fields kw = None ->
  Plan_save_kwargs kw self w = Returned r w' ->
  keys_ok (plans w) -> one_default (plans w) ->
  keys_ok (plans w') /\ one_default (plans w').
Proof.
  intros Hnone Hsave Hkeys Hone.
  apply Plan_save_kwargs_returned in Hsave; [|exact Hnone]. destruct Hsave as [_ ->]. simpl.
  unfold unset_table. destruct (Plan.is_default self) eqn:Hd.
  - split.
    + now apply keys_ok_saved_table, keys_ok_unset.
    + apply one_default_saved_table; [now apply one_default_unset|].
      intros _ p Hp Dp. now apply (no_default_unset _ (plans w)).
  - split.
    + now apply keys_ok_saved_table.
    + apply one_default_saved_table; [exact Hone | intros H; congruence].
Qed.

Lemma reachable_invariant (tbl : list Plan.t) :
  plans_reachable tbl -> keys_ok tbl /\ one_default tbl.
Proof.
  induction 1 as [|w kw self Hnone _ [Hk Ho]|w _ [Hk Ho]].
  - split; [split; [constructor | intros p []] | intros p q []].
  - destruct (Plan_save_kwargs kw self w) as [r w'|e w'] eqn:Hsave; simpl.
    + now apply (Plan_save_kwargs_invariant kw self r w w').
    + apply Plan_save_kwargs_raised in Hsave. subst. auto.
  - destruct (Plan_get_or_create_default_total w) as (r & w' & Hcall & Hw').
    rewrite Hcall. simpl. destruct Hw' as [->|[_ ->]]; [auto|].
    split; [apply keys_ok_defaults | apply one_default_defaults].
Qed.

Lemma NoDup_map_filter {A B} (g : A -> B) (f : A -> bool) (l : list A) :
  NoDup (map g l) -> NoDup (map g (filter f l)).
Proof.
  induction l as [|x l IH]; simpl; [auto|].
  intros Hnd. inversion Hnd as [|? ? Hx Hl]; subst.
  destruct (f x); simpl; [|now apply IH].
  constructor; [|now apply IH].
  intros Hin. apply Hx. apply in_map_iff in Hin. destruct Hin as (y & Hy & Hin).
  apply filter_In in Hin. apply in_map_iff. exists y. tauto.
Qed.

(** With distinct keys, pairwise uniqueness bounds the number of default
    plans of a user category by one. *)
Lemma one_default_count (tbl : list Plan.t) (user_type : Z) :
  keys_ok tbl -> one_default tbl ->
  (List.length (default_plans user_type tbl) <= 1)%nat.
Proof.
  intros [Hnd _] Hone.
  pose proof (NoDup_map_filter Plan.pk
                (fun p => (Plan.user_type p =? user_type) && Plan.is_default p) tbl Hnd) as Hf.
  fold (default_plans user_type tbl) in Hf.
  assert (Hsel : forall p, In p (default_plans user_type tbl) ->
                   In p tbl /\ Plan.user_type p = user_type /\ Plan.is_default p = true).
  { intros p Hp. apply filter_In in Hp. destruct Hp as [Hp Hs].
    apply andb_true_iff in Hs. destruct Hs as [Hs1 Hs2]. apply Z.eqb_eq in Hs1. auto. }
  destruct (default_plans user_type tbl) as [|x [|y rest]]; simpl; try lia.
  exfalso.
  destruct (Hsel x) as (Hx & Ux & Dx); [now left|].
  destruct (Hsel y) as (Hy & Uy & Dy); [right; now left|].
  simpl in Hf. inversion Hf as [|? ? Hxy _]; subst.
  apply Hxy. left. symmetry. apply Hone; congruence.
Qed.

Lemma saved_object_in (self : Plan.t) (tbl : list Plan.t) :
  In (saved_object self tbl) (saved_table self tbl).
Proof.
  unfold saved_object, saved_table. destruct (existsb _ tbl) eqn:Hex.
  - apply existsb_exists in Hex. destruct Hex as (r & Hr & Hpk).
    apply in_map_iff. exists r. rewrite Hpk. auto.
  - apply in_app_iff. right. now left.
Qed.

(** C8, for saves of the whole object.  In every plan table the code can
    produce by saves without [update_fields] and by
    [Plan.get_or_create_default], at most one plan per user category is
    flagged default.  A call of [Plan.save] without [update_fields] that
    returns, for a plan with [is_default] set, leaves the saved plan as the
    only default of its user category: every other plan of that category
    has [is_default] unset; [save()] with no argument is such a call.
    [Plan.get_or_create_default] always returns, a second call returns the
    same plan and writes nothing, and no call adds a second default to a
    user category. *)
Theorem one_default_plan_per_user_type :
  (forall tbl, plans_reachable tbl ->
     forall user_type, (List.length (default_plans user_type tbl) <= 1)%nat) /\
  (forall w kw self r w',
     update_fields kw = None ->
     plans_reachable (plans w) ->
     Plan_save_kwargs kw self w = Returned r w' ->
     Plan.is_default self = true ->
     default_plans (Plan.user_type self) (plans w') = [r] /\
     forall p, In p (plans w') -> Plan.user_type p = Plan.user_type self ->
       Plan.pk p <> Plan.pk r -> Plan.is_default p = false) /\
  (forall self w, Plan_save self w = Plan_save_kwargs no_kwargs self w) /\
  (forall w, exists r w',
     Plan_get_or_create_default w = Returned r w' /\
     Plan_get_or_create_default w' = Returned r w' /\
     forall user_type,
       (List.length (default_plans user_type (plans w)) <= 1)%nat ->
       (List.length (default_plans user_type (plans w')) <= 1)%nat).
Proof.
  split; [|split; [|split]].
  - intros tbl Hreach user_type.
    destruct (reachable_invariant tbl Hreach) as [Hk Ho].
    now apply one_default_count.
  - intros w kw self r w' Hnone Hreach Hsave Hdefault.
    destruct (reachable_invariant _ Hreach) as [Hk Ho].
    destruct (Plan_save_kwargs_invariant kw self r w w' Hnone Hsave Hk Ho) as [Hk' Ho'].
    pose proof (one_default_count (plans w') (Plan.user_type self) Hk' Ho') as Hcount.
    apply Plan_save_kwargs_returned in Hsave; [|exact Hnone]. destruct Hsave as [Hr Hw'].
    assert (Hin : In r (default_plans (Plan.user_type self) (plans w'))).
    { apply filter_In. rewrite Hw', Hr. simpl. split; [apply saved_object_in|].
      destruct (saved_object_fields self (unset_table self (plans w))) as [-> ->].
      rewrite Hdefault, Z.eqb_refl. reflexivity. }
    assert (Heq : default_plans (Plan.user_type self) (plans w') = [r]).
    { destruct (default_plans (Plan.user_type self) (plans w')) as [|x [|y rest]];
        simpl in Hcount, Hin; [contradiction | | lia].
      destruct Hin as [->|[]]. reflexivity. }
    split; [exact Heq|].
    intros p Hp Hut Hpk. destruct (Plan.is_default p) eqn:Dp; [|reflexivity].
    exfalso. apply Hpk.
    assert (Hp' : In p (default_plans (Plan.user_type self) (plans w'))).
    { apply filter_In. split; [exact Hp|]. rewrite Hut, Z.eqb_refl, Dp. reflexivity. }
    rewrite Heq in Hp'. destruct Hp' as [->|[]]. reflexivity.
  - intros self w. symmetry. apply Plan_save_no_kwargs.
  - intros w. destruct (plans w) as [|p tbl] eqn:Hp.
    + exists (Some default_user), (set_plans w [default_user; default_org]).
      split; [now apply Plan_get_or_create_default_empty|]. split.
      * rewrite Plan_get_or_create_default_nonempty; [reflexivity | discriminate].
      * intros user_type _.
        change (plans (set_plans w [default_user; default_org]))
          with [default_user; default_org].
        apply one_default_count; [apply keys_ok_defaults | apply one_default_defaults].
    + assert (Hne : plans w <> []) by congruence.
      exists (first_by_is_default (plans w)), w.
      split; [now apply Plan_get_or_create_default_nonempty|].
      split; [now apply Plan_get_or_create_default_nonempty|].
      intros user_type H. rewrite Hp. exact H.
Qed.

Lemma one_default_plan_per_user_type_witness :
  Plan_get_or_create_default world_empty = Returned (Some default_user) world_defaults /\
  (List.length (default_plans User.PERSON (plans world_defaults)) <= 1)%nat /\
  exists r w',
    Plan_save plan_pro world_defaults = Returned r w' /\
    Plan.pk r = Some 3 /\
    default_plans User.PERSON (plans w') = [r] /\
    In (Plan.set_is_default default_user false) (plans w') /\
    forall p, In p (plans w') -> Plan.user_type p = User.PERSON ->
      Plan.pk p <> Plan.pk r -> Plan.is_default p = false.
Proof.
  assert (Hreach : plans_reachable (plans world_defaults))
    by exact (reachable_get_or_create_default world_empty reachable_empty).
  split; [reflexivity|]. split.
  - exact (proj1 one_default_plan_per_user_type _ Hreach User.PERSON).
  - eexists. eexists. split; [reflexivity|]. split; [reflexivity|].
    split; [reflexivity|]. split; [simpl; auto|].
    refine (proj2 (proj1 (proj2 one_default_plan_per_user_type) world_defaults no_kwargs plan_pro
                     _ _ eq_refl Hreach _ eq_refl)).
    reflexivity.
Defined.

(** A save that lists [update_fields] can leave two defaults in one user
    category.  The database holds the two default plans
    [get_or_create_default] created.  The object of [default_org] gets
    [user_type = PERSON] and [is_default = False] and is saved with
    [update_fields=["user_type"]]: [is_default] is unset on the object, so
    no default is unset; only [user_type] is written, so the row keeps its
    flag and becomes a second default for persons. *)
Lemma Plan_save_update_fields_two_defaults :
  plans_reachable (plans world_defaults) /\
  exists w',
    Plan_save_kwargs only_user_type org_moved world_defaults = Returned org_moved w' /\
    default_plans User.PERSON (plans w')
    = [default_user; Plan.set_user_type default_org User.PERSON] /\
    (List.length (default_plans User.PERSON (plans w')) = 2)%nat.
Proof.
  split.
  - exact (reachable_get_or_create_default world_empty reachable_empty).
  - eexists. split; [reflexivity|]. split; reflexivity.
Qed.

(** ** Choice fields: encoding and decoding *)

Section ChoiceFieldRoundTrip.
Import ChoiceField.

Variable K : Type.
Variable K_eqb : K -> K -> bool.
Hypothesis K_eqb_eq : forall a b, K_eqb a b = true <-> a = b.
Implicit Types (_choices : list (K * string)) (data label : string) (obj i : K).

Lemma to_representation_in _choices obj label :
  to_representation K_eqb _choices obj = Some label -> In (obj, label) _choices.
Proof.
  induction _choices as [|[j l] rest IH]; simpl; [discriminate|].
  destruct (K_eqb j obj) eqn:E.
  - apply K_eqb_eq in E. intros [= ->]. left. now subst.
  - intros H. right. now apply IH.
Qed.

(** A dictionary has one value per key. *)
Lemma to_representation_key _choices obj label :
  NoDup (map fst _choices) -> In (obj, label) _choices ->
  to_representation K_eqb _choices obj = Some label.
Proof.
  induction _choices as [|[j l] rest IH]; simpl; [intros _ []|].
  intros Hnd Hin. inversion Hnd as [|? ? Hj Hrest]; subst.
  destruct (K_eqb j obj) eqn:E.
  - apply K_eqb_eq in E. subst j. destruct Hin as [[= ->]|Hin]; [reflexivity|].
    exfalso. apply Hj. change obj with (fst (obj, label)). now apply in_map.
  - destruct Hin as [[= -> ->]|Hin]; [|now apply IH].
    assert (K_eqb obj obj = true) by now apply K_eqb_eq. congruence.
Qed.

(** [KeyError]: the code is no key of the dictionary. *)
Lemma to_representation_missing _choices obj :
  to_representation K_eqb _choices obj = None <-> ~ In obj (map fst _choices).
Proof.
  induction _choices as [|[j l] rest IH]; simpl.
  - split; [intros _ [] | reflexivity].
  - destruct (K_eqb j obj) eqn:E.
    + apply K_eqb_eq in E. split; [discriminate|]. intros H. exfalso. apply H. now left.
    + rewrite IH. split.
      * intros H [Heq|Hin]; [|now apply H].
        apply K_eqb_eq in Heq. congruence.
      * intros H Hin. apply H. now right.
Qed.

Lemma label_unique _choices obj i label :
  NoDup (map snd _choices) -> In (obj, label) _choices -> In (i, label) _choices -> i = obj.
Proof.
  induction _choices as [|[j l] rest IH]; simpl; [intros _ []|].
  intros Hnd H1 H2. inversion Hnd as [|? ? Hl Hrest]; subst.
  destruct H1 as [[= -> ->]|H1], H2 as [[= ->]|H2].
  - reflexivity.
  - exfalso. apply Hl. change label with (snd (i, label)). now apply in_map.
  - exfalso. subst. apply Hl. change label with (snd (obj, label)). now apply in_map.
  - now apply IH.
Qed.
End ChoiceFieldRoundTrip.

(** X3. Decoding then encoding: the code a role or status choice field
    returns for a display label is a key whose label, as
    [to_representation] reads it from the dictionary, is that display
    label. *)
Theorem to_representation_to_internal_value (K : Type) (K_eqb : K -> K -> bool)
    (_choices : list (K * string)) (data : string) (i : K) :
  (forall a b, K_eqb a b = true <-> a = b) ->
  NoDup (map fst _choices) ->
  ChoiceField.RoleChoiceField_to_internal_value _choices data = inl i \/
  ChoiceField.StatusChoiceField_to_internal_value _choices data = inl i ->
  ChoiceField.to_representation K_eqb _choices i = Some data.
Proof.
  intros Heq Hnd H. apply (to_representation_key K K_eqb Heq); [exact Hnd|].
  unfold ChoiceField.RoleChoiceField_to_internal_value,
    ChoiceField.StatusChoiceField_to_internal_value, ChoiceField.to_internal_value in H.
  destruct (ChoiceField.find_code String.eqb _choices data) as [j|] eqn:E.
  - apply find_code_some in E. destruct H as [[= <-]|[= <-]]; exact E.
  - destruct H; discriminate.
Qed.

Lemma to_representation_to_internal_value_witness :
  ChoiceField.to_representation Z.eqb [(1, "admin"); (2, "manager"); (3, "reader")]%string 2
  = Some "manager"%string.
Proof.
  apply (to_representation_to_internal_value Z Z.eqb
           [(1, "admin"); (2, "manager"); (3, "reader")]%string "manager" 2).
  - intros a b. apply Z.eqb_eq.
  - simpl. repeat constructor; simpl; intuition discriminate.
  - left. reflexivity.
Defined.

(** X4. Encoding then decoding: when no two codes share a display label,
    the display label [to_representation] gives for a code is decoded by
    [to_internal_value] to that code, by the role and by the status
    field. *)
Theorem to_internal_value_to_representation (K : Type) (K_eqb : K -> K -> bool)
    (_choices : list (K * string)) (obj : K) (label : string) :
  (forall a b, K_eqb a b = true <-> a = b) ->
  NoDup (ChoiceField.values _choices) ->
  ChoiceField.to_representation K_eqb _choices obj = Some label ->
  ChoiceField.RoleChoiceField_to_internal_value _choices label = inl obj /\
  ChoiceField.StatusChoiceField_to_internal_value _choices label = inl obj.
Proof.
  intros Heq Hnd Hrep.
  apply (to_representation_in K K_eqb Heq) in Hrep.
  unfold ChoiceField.RoleChoiceField_to_internal_value,
    ChoiceField.StatusChoiceField_to_internal_value, ChoiceField.to_internal_value.
  destruct (ChoiceField.find_code String.eqb _choices label) as [j|] eqn:E.
  - apply find_code_some in E.
    rewrite (label_unique K _choices obj j label Hnd Hrep E). auto.
  - apply find_code_none in E. exfalso. apply E.
    change label with (snd (obj, label)). unfold ChoiceField.values. now apply in_map.
Qed.

Lemma to_internal_value_to_representation_witness :
  ChoiceField.RoleChoiceField_to_internal_value
    [(1, "admin"); (2, "manager"); (3, "reader")]%string "reader" = inl 3 /\
  ChoiceField.StatusChoiceField_to_internal_value
    [(1, "admin"); (2, "manager"); (3, "reader")]%string "reader" = inl 3.
Proof.
  apply (to_internal_value_to_representation Z Z.eqb
           [(1, "admin"); (2, "manager"); (3, "reader")]%string 3 "reader").
  - intros a b. apply Z.eqb_eq.
  - simpl. repeat constructor; simpl; intuition discriminate.
  - reflexivity.
Defined.

(** ** Replacing a subscription: what is stored and what is left alone *)

(** A column of the object is named by a keyword argument or still holds
    the value it had before the keyword arguments were applied. *)
Ltac kwarg_column kwargs s :=
  let a := fresh "a" in
  let IH := fresh "IH" in
  revert s; induction kwargs as [|a kwargs IH]; intros s; simpl;
  [ right; reflexivity
  | destruct (IH (setattr s a)) as [IH'|IH'];
    [ left; right; exact IH'
    | destruct a; simpl in IH' |- *; auto ] ].

Lemma kwargs_plan (kwargs : list Attr) (s : Subscription.t) :
  In f_plan (map attr_name kwargs) \/
  Subscription.plan (fold_left setattr kwargs s) = Subscription.plan s.
Proof. kwarg_column kwargs s. Qed.

Lemma kwargs_account (kwargs : list Attr) (s : Subscription.t) :
  In f_account (map attr_name kwargs) \/
  Subscription.account (fold_left setattr kwargs s) = Subscription.account s.
Proof. kwarg_column kwargs s. Qed.

Lemma kwargs_storage_quantity (kwargs : list Attr) (s : Subscription.t) :
  In f_storage_quantity (map attr_name kwargs) \/
  Subscription.storage_quantity (fold_left setattr kwargs s) = Subscription.storage_quantity s.
Proof. kwarg_column kwargs s. Qed.

Lemma kwargs_created_by (kwargs : list Attr) (s : Subscription.t) :
  In f_created_by (map attr_name kwargs) \/
  Subscription.created_by (fold_left setattr kwargs s) = Subscription.created_by s.
Proof. kwarg_column kwargs s. Qed.

Lemma kwargs_requested_cancel_at (kwargs : list Attr) (s : Subscription.t) :
  In f_requested_cancel_at (map attr_name kwargs) \/
  Subscription.requested_cancel_at (fold_left setattr kwargs s)
  = Subscription.requested_cancel_at s.
Proof. kwarg_column kwargs s. Qed.

Lemma store_fields_plan (obj : Subscription.t) (fields : list Field) (row : Subscription.t) :
  In f_plan fields \/ Subscription.plan row = Subscription.plan obj ->
  Subscription.plan (fold_left (store_field obj) fields row) = Subscription.plan obj.
Proof. stored_column fields row. Qed.

Lemma store_fields_account (obj : Subscription.t) (fields : list Field) (row : Subscription.t) :
  In f_account fields \/ Subscription.account row = Subscription.account obj ->
  Subscription.account (fold_left (store_field obj) fields row) = Subscription.account obj.
Proof. stored_column fields row. Qed.

Lemma store_fields_storage_quantity (obj : Subscription.t) (fields : list Field)
    (row : Subscription.t) :
  In f_storage_quantity fields \/
  Subscription.storage_quantity row = Subscription.storage_quantity obj ->
  Subscription.storage_quantity (fold_left (store_field obj) fields row)
  = Subscription.storage_quantity obj.
Proof. stored_column fields row. Qed.

Lemma store_fields_created_by (obj : Subscription.t) (fields : list Field)
    (row : Subscription.t) :
  In f_created_by fields \/ Subscription.created_by row = Subscription.created_by obj ->
  Subscription.created_by (fold_left (store_field obj) fields row) = Subscription.created_by obj.
Proof. stored_column fields row. Qed.

Lemma store_fields_requested_cancel_at (obj : Subscription.t) (fields : list Field)
    (row : Subscription.t) :
  In f_requested_cancel_at fields \/
  Subscription.requested_cancel_at row = Subscription.requested_cancel_at obj ->
  Subscription.requested_cancel_at (fold_left (store_field obj) fields row)
  = Subscription.requested_cancel_at obj.
Proof. stored_column fields row. Qed.

Lemma subscription_ext (a b : Subscription.t) :
  Subscription.pk a = Subscription.pk b ->
  Subscription.plan a = Subscription.plan b ->
  Subscription.account a = Subscription.account b ->
  Subscription.storage_quantity a = Subscription.storage_quantity b ->
  Subscription.status a = Subscription.status b ->
  Subscription.created_by a = Subscription.created_by b ->
  Subscription.requested_cancel_at a = Subscription.requested_cancel_at b ->
  Subscription.active_since a = Subscription.active_since b ->
  Subscription.active_until a = Subscription.active_until b ->
  a = b.
Proof. destruct a, b; simpl; intros; subst; reflexivity. Qed.

(** The row [save(update_fields=...)] writes is the object itself: the
    columns it does not list are those the object took from the row. *)
Lemma stored_row_is_object (row : Subscription.t) (status : Subscription.Status)
    (active_since : datetime) (active_until : option datetime) (kwargs : list Attr) :
  fold_left (store_field (updated row status active_since active_until kwargs))
    ([f_status; f_active_since; f_active_until] ++ map attr_name kwargs) row
  = updated row status active_since active_until kwargs.
Proof.
  set (s0 := Subscription.set_active_until
               (Subscription.set_active_since (Subscription.set_status row status)
                  (Some active_since)) active_until).
  assert (Hobj : updated row status active_since active_until kwargs = fold_left setattr kwargs s0)
    by reflexivity.
  destruct (setattr_kwargs_keeps kwargs s0) as (K1 & K2 & K3 & K4).
  apply subscription_ext.
  - rewrite store_fields_pk, Hobj, K1. reflexivity.
  - apply store_fields_plan. rewrite Hobj.
    destruct (kwargs_plan kwargs s0) as [H|H]; [left; apply in_or_app; auto | right; rewrite H; reflexivity].
  - apply store_fields_account. rewrite Hobj.
    destruct (kwargs_account kwargs s0) as [H|H]; [left; apply in_or_app; auto | right; rewrite H; reflexivity].
  - apply store_fields_storage_quantity. rewrite Hobj.
    destruct (kwargs_storage_quantity kwargs s0) as [H|H];
      [left; apply in_or_app; auto | right; rewrite H; reflexivity].
  - apply store_fields_status. left. simpl. auto.
  - apply store_fields_created_by. rewrite Hobj.
    destruct (kwargs_created_by kwargs s0) as [H|H];
      [left; apply in_or_app; auto | right; rewrite H; reflexivity].
  - apply store_fields_requested_cancel_at. rewrite Hobj.
    destruct (kwargs_requested_cancel_at kwargs s0) as [H|H];
      [left; apply in_or_app; auto | right; rewrite H; reflexivity].
  - apply store_fields_active_since. left. simpl. auto.
  - apply store_fields_active_until. left. simpl. auto.
Qed.

(** X5. The object [update_subscription] returns is a row of the table it
    leaves: the status, the period and every keyword argument are stored,
    and the columns the call does not name are those of the row as it was
    stored before the call. *)
Theorem update_subscription_returns_stored_row (w w' : World) (now : datetime)
    (subscription b' : Subscription.t) (status : Subscription.Status)
    (active_since : datetime) (active_until : option datetime) (kwargs : list Attr) :
  update_subscription now subscription status active_since active_until kwargs w
  = Returned b' w' ->
  In b' (subscriptions w') /\
  exists row, In row (subscriptions w) /\
    Subscription.pk row = Subscription.pk subscription /\
    b' = fold_left setattr kwargs
           (Subscription.set_active_until
              (Subscription.set_active_since (Subscription.set_status row status)
                 (Some active_since)) active_until).
Proof.
  intros Hcall. apply update_subscription_returned in Hcall.
  destruct Hcall as (row & Hrow & -> & -> & _ & _).
  assert (Hin : In row (filter (fun s => pk_eqb (Subscription.pk s) (Subscription.pk subscription))
                          (subscriptions w))) by (rewrite Hrow; now left).
  apply filter_In in Hin. destruct Hin as [Hin Hpk].
  assert (Hrr : pk_eqb (Subscription.pk row) (Subscription.pk row) = true)
    by (rewrite (pk_eqb_eq _ _ Hpk) at 2; exact Hpk).
  split.
  - simpl. unfold updated_table. apply in_map_iff. exists row. split.
    + rewrite Hrr. apply stored_row_is_object.
    + apply in_map_iff. exists row. split; [|exact Hin].
      unfold others_active. rewrite Hrr, andb_false_r. reflexivity.
  - exists row. split; [exact Hin|]. split; [now apply pk_eqb_eq | reflexivity].
Qed.

(** [update_subscription(B, ACTIVE_PAID, active_since=2023-06-01,
    storage_quantity=3, requested_cancel_at=2023-06-01)]: the two keyword
    arguments are stored with the status and the period; the plan, the
    account and the author stay those of the stored row. *)
Lemma update_subscription_returns_stored_row_witness :
  exists b' w',
    update_subscription t_2023_05_20 sub_B Subscription.ACTIVE_PAID t_2023_06_01 None
      [attr_storage_quantity 3; attr_requested_cancel_at (Some t_2023_06_01)] world_A_B
    = Returned b' w' /\
    Subscription.storage_quantity b' = 3 /\
    Subscription.requested_cancel_at b' = Some t_2023_06_01 /\
    Subscription.plan b' = Subscription.plan sub_B /\
    Subscription.account b' = Subscription.account sub_B /\
    Subscription.created_by b' = Subscription.created_by sub_B /\
    In b' (subscriptions w').
Proof.
  eexists. eexists. split; [reflexivity|].
  do 5 (split; [reflexivity|]).
  eapply (proj1 (update_subscription_returns_stored_row world_A_B _ t_2023_05_20 sub_B _
                   Subscription.ACTIVE_PAID t_2023_06_01 None
                   [attr_storage_quantity 3; attr_requested_cancel_at (Some t_2023_06_01)]
                   eq_refl)).
Defined.

Lemma Forall2_map_same {A} (P : A -> A -> Prop) (f : A -> A) (l : list A) :
  (forall x, In x l -> P x (f x)) -> Forall2 P l (map f l).
Proof.
  induction l as [|x l IH]; simpl; intros H; constructor.
  - apply H. now left.
  - apply IH. intros y Hy. apply H. now right.
Qed.

(** X6. A call of [update_subscription] that returns inserts and deletes no
    row and writes neither plans nor packages; row by row, the key is kept,
    and a row other than the target that belongs to another account, or
    that is not active at the instant of the call, is left as it was. *)
Theorem update_subscription_frame (w w' : World) (now : datetime)
    (subscription b' : Subscription.t) (status : Subscription.Status)
    (active_since : datetime) (active_until : option datetime) (kwargs : list Attr) :
  update_subscription now subscription status active_since active_until kwargs w
  = Returned b' w' ->
  plans w' = plans w /\ packages w' = packages w /\
  exists row, In row (subscriptions w) /\
    Subscription.pk row = Subscription.pk subscription /\
    Forall2
      (fun s s' =>
         Subscription.pk s' = Subscription.pk s /\
         (pk_eqb (Subscription.pk s) (Subscription.pk subscription) = false ->
          Subscription.account s <> Subscription.account row \/
          SubscriptionQuerySet_active now s = false ->
          s' = s))
      (subscriptions w) (subscriptions w').
Proof.
  intros Hcall. apply update_subscription_returned in Hcall.
  destruct Hcall as (row & Hrow & _ & -> & _ & _).
  assert (Hin : In row (filter (fun s => pk_eqb (Subscription.pk s) (Subscription.pk subscription))
                          (subscriptions w))) by (rewrite Hrow; now left).
  apply filter_In in Hin. destruct Hin as [Hin Hpk].
  pose proof (pk_eqb_eq _ _ Hpk) as Hpk'.
  split; [reflexivity|]. split; [reflexivity|].
  exists row. split; [exact Hin|]. split; [exact Hpk'|].
  simpl. unfold updated_table. rewrite map_map.
  apply Forall2_map_same. intros s _.
  assert (Hclose : Subscription.pk (if others_active now row s then close active_since s else s)
                   = Subscription.pk s) by (destruct (others_active now row s); reflexivity).
  rewrite Hclose. split.
  - destruct (pk_eqb (Subscription.pk s) (Subscription.pk row)) eqn:E.
    + rewrite store_fields_pk. exact Hclose.
    + exact Hclose.
  - intros Hother Hframe. rewrite Hpk', Hother.
    unfold others_active. destruct Hframe as [Hacct|Hinactive].
    + apply Z.eqb_neq in Hacct. rewrite Hacct, andb_false_r. reflexivity.
    + rewrite Hinactive. reflexivity.
Qed.

Lemma update_subscription_frame_witness :
  exists b' w',
    update_subscription t_2023_05_20 sub_B Subscription.ACTIVE_PAID t_2023_06_01 None []
      world_two_accounts = Returned b' w' /\
    In (example_subscription 3 6 Subscription.ACTIVE_PAID (Some t_2023_01_01) None)
      (subscriptions w') /\
    plans w' = plans world_two_accounts /\ packages w' = packages world_two_accounts /\
    exists row, In row (subscriptions world_two_accounts) /\
      Subscription.pk row = Subscription.pk sub_B /\
      Forall2
        (fun s s' =>
           Subscription.pk s' = Subscription.pk s /\
           (pk_eqb (Subscription.pk s) (Subscription.pk sub_B) = false ->
            Subscription.account s <> Subscription.account row \/
            SubscriptionQuerySet_active t_2023_05_20 s = false ->
            s' = s))
        (subscriptions world_two_accounts) (subscriptions w').
Proof.
  eexists. eexists. split; [reflexivity|]. split; [simpl; auto|].
  eapply (update_subscription_frame world_two_accounts _ t_2023_05_20 sub_B _
            Subscription.ACTIVE_PAID t_2023_06_01 None [] eq_refl).
Defined.

(** X7. [update_subscription] refuses an activation instant that lies
    before the start of a subscription it would close: the range of that
    subscription would end before it begins, the statement raises
    [DataError], and the transaction leaves the database as it was. *)
Theorem update_subscription_backdated (w : World) (now : datetime)
    (subscription row A : Subscription.t) (status : Subscription.Status)
    (active_since since_A : datetime) (active_until : option datetime) (kwargs : list Attr) :
  filter (fun s => pk_eqb (Subscription.pk s) (Subscription.pk subscription)) (subscriptions w)
  = [row] ->
  In A (subscriptions w) ->
  SubscriptionQuerySet_active now A = true ->
  Subscription.account A = Subscription.account row ->
  pk_eqb (Subscription.pk A) (Subscription.pk subscription) = false ->
  Subscription.active_since A = Some since_A ->
  active_since < since_A ->
  update_subscription now subscription status active_since active_until kwargs w
  = Raised (DataError "range lower bound must be less than or equal to range upper bound") w.
Proof.
  intros Hrow HA Hactive Hacct Hdiff Hsince Hlt.
  assert (Hin : In row (filter (fun s => pk_eqb (Subscription.pk s) (Subscription.pk subscription))
                          (subscriptions w))) by (rewrite Hrow; now left).
  apply filter_In in Hin. destruct Hin as [_ Hpk]. apply pk_eqb_eq in Hpk.
  unfold update_subscription, atomic, bind. rewrite Hrow. simpl.
  unfold Subscription_update, bind, write_subscriptions.
  match goal with
  | |- context [forallb range_defined ?tbl] =>
      assert (Hbad : forallb range_defined tbl = false)
  end.
  { destruct (forallb range_defined _) eqn:E; [|reflexivity].
    rewrite forallb_forall in E.
    specialize (E (close active_since A)).
    assert (Hr : range_defined (close active_since A) = false).
    { unfold range_defined, close. simpl. rewrite Hsince. simpl. apply Z.leb_gt. lia. }
    rewrite E in Hr; [discriminate|].
    apply in_map_iff. exists A. split; [|exact HA].
    rewrite Hactive, Hacct, Z.eqb_refl, Hpk, Hdiff. reflexivity. }
  rewrite Hbad. reflexivity.
Qed.

(** [A] started on 2023-01-01; [B] cannot be activated as of
    2022-06-01. *)
Lemma update_subscription_backdated_witness :
  update_subscription t_2023_05_20 sub_B Subscription.ACTIVE_PAID 1654041600000000 None []
    world_A_B
  = Raised (DataError "range lower bound must be less than or equal to range upper bound")
      world_A_B.
Proof.
  apply (update_subscription_backdated world_A_B t_2023_05_20 sub_B sub_B sub_A
           Subscription.ACTIVE_PAID 1654041600000000 t_2023_01_01 None []);
    try reflexivity.
  simpl. auto.
Defined.

(** ** The active subscription of an account: composition and errors *)

Lemma active_subscriptions_app (now : datetime) (account_pk : Z) (l1 l2 : list Subscription.t) :
  active_subscriptions now account_pk (l1 ++ l2)
  = active_subscriptions now account_pk l1 ++ active_subscriptions now account_pk l2.
Proof. unfold active_subscriptions. apply filter_app. Qed.

Lemma all_ended_none_active (t t' : datetime) (account_pk : Z) (tbl : list Subscription.t) :
  all_ended t account_pk tbl -> t < t' ->
  active_subscriptions t' account_pk tbl = [].
Proof.
  intros Hended Hlt. unfold active_subscriptions.
  induction tbl as [|s rest IH]; simpl; [reflexivity|].
  assert (Hrest : all_ended t account_pk rest).
  { intros x Hx. apply Hended. now right. }
  rewrite (IH Hrest).
  destruct (SubscriptionQuerySet_active t' s && (Subscription.account s =? account_pk)) eqn:E;
    [|reflexivity].
  exfalso. apply andb_true_iff in E. destruct E as [Ea Eacct].
  apply Z.eqb_eq in Eacct. apply SubscriptionQuerySet_active_iff in Ea.
  destruct Ea as (since & Hsince & _ & Huntil).
  destruct (Hended s (or_introl eq_refl) Eacct) as (h & Hh & Hle); [congruence|].
  specialize (Huntil h Hh). lia.
Qed.

(** X8. A second lookup finds what the first created.  When
    [get_or_create_active_subscription] creates the default subscription
    (none active, one default plan, every dated subscription of the account
    ended), a call at any later instant returns that same subscription and
    writes nothing. *)
Theorem get_or_create_active_subscription_again (w : World) (account : UserAccount.t)
    (now_get now_active now_since later later_active later_since : datetime) (plan : Plan.t) :
  active_subscriptions now_get (UserAccount.pk account) (subscriptions w) = [] ->
  active_subscriptions now_active (UserAccount.pk account) (subscriptions w) = [] ->
  default_plans (UserAccount.user_type account) (plans w) = [plan] ->
  forallb range_defined (subscriptions w) = true ->
  prevent_overlaps (subscriptions w) = true ->
  all_ended now_since (UserAccount.pk account) (subscriptions w) ->
  now_since < later ->
  exists s w',
    get_or_create_active_subscription now_get now_active now_since account w = Returned s w' /\
    get_or_create_active_subscription later later_active later_since account w'
    = Returned s w'.
Proof.
  intros Hget Hnone Hplan Hdef Hexcl Hended Hlater.
  eexists. eexists. split.
  - unfold get_or_create_active_subscription, try_except. rewrite Hget.
    cbn [get raise is_DoesNotExist Model_eqb].
    exact (create_default_plan_subscription_created w account now_active now_since plan
             Hnone Hplan Hdef Hexcl Hended).
  - unfold get_or_create_active_subscription, try_except. simpl.
    rewrite active_subscriptions_app, (all_ended_none_active _ _ _ _ Hended Hlater).
    unfold active_subscriptions, SubscriptionQuerySet_active. simpl.
    rewrite Z.eqb_refl.
    assert (H : (now_since <=? later) = true) by (apply Z.leb_le; lia).
    rewrite H. reflexivity.
Qed.

Lemma get_or_create_active_subscription_again_witness :
  exists s w',
    get_or_create_active_subscription 200 200 200 (example_account 5 0) world_ended
    = Returned s w' /\
    get_or_create_active_subscription 250 250 250 (example_account 5 0) w' = Returned s w'.
Proof.
  apply (get_or_create_active_subscription_again world_ended (example_account 5 0)
           200 200 200 250 250 250 (example_plan 1 User.PERSON true false 1000 "community"));
    try reflexivity.
  intros s [<-|[]] _ _. exists 150. split; [reflexivity | lia].
Defined.

(** X9. The default plan is looked up with [get]: when the account has no
    active subscription and no plan is flagged default for its user
    category, [get_or_create_active_subscription] raises the [DoesNotExist]
    of [Plan], which the handler for the [DoesNotExist] of [Subscription]
    does not catch; when several plans are flagged, it raises
    [MultipleObjectsReturned].  Neither case creates a subscription. *)
Theorem get_or_create_active_subscription_default_plan (w : World) (account : UserAccount.t)
    (now_get now_active now_since : datetime) :
  active_subscriptions now_get (UserAccount.pk account) (subscriptions w) = [] ->
  active_subscriptions now_active (UserAccount.pk account) (subscriptions w) = [] ->
  (default_plans (UserAccount.user_type account) (plans w) = [] ->
   get_or_create_active_subscription now_get now_active now_since account w
   = Raised (DoesNotExist PlanModel) w) /\
  ((2 <= List.length (default_plans (UserAccount.user_type account) (plans w)))%nat ->
   get_or_create_active_subscription now_get now_active now_since account w
   = Raised (MultipleObjectsReturned PlanModel) w).
Proof.
  intros Hget Hnone.
  unfold get_or_create_active_subscription, try_except. rewrite Hget. simpl.
  unfold create_default_plan_subscription. rewrite Hnone. unfold bind, default_plans.
  split.
  - intros ->. reflexivity.
  - intros Hlen.
    destruct (filter _ (plans w)) as [|p [|q rest]]; simpl in Hlen; try lia. reflexivity.
Qed.

Lemma get_or_create_active_subscription_default_plan_witness :
  get_or_create_active_subscription 200 200 200 (example_account 5 0) world_no_default
  = Raised (DoesNotExist PlanModel) world_no_default.
Proof.
  apply (proj1 (get_or_create_active_subscription_default_plan world_no_default
                  (example_account 5 0) 200 200 200 eq_refl eq_refl)).
  reflexivity.
Defined.

Lemma active_in_tstzrange (t : datetime) (s : Subscription.t) :
  SubscriptionQuerySet_active t s = true ->
  Subscription.active_until s <> Some t ->
  in_tstzrange t s = true.
Proof.
  unfold SubscriptionQuerySet_active, in_tstzrange, before.
  destruct (Subscription.active_since s) as [lo|]; [|discriminate].
  intros H Hne. apply andb_true_iff in H. destruct H as [H1 H2]. rewrite H1. simpl.
  destruct (Subscription.active_until s) as [h|]; [|reflexivity].
  apply Z.geb_le in H2. apply Z.ltb_lt.
  assert (h <> t) by congruence. lia.
Qed.

(** The half-open range lies inside the closed period of the query. *)
Lemma in_tstzrange_active (t : datetime) (s : Subscription.t) :
  in_tstzrange t s = true -> SubscriptionQuerySet_active t s = true.
Proof.
  unfold SubscriptionQuerySet_active, in_tstzrange, before.
  destruct (Subscription.active_since s) as [lo|]; [|discriminate].
  intros H. apply andb_true_iff in H. destruct H as [H1 H2]. rewrite H1. simpl.
  destruct (Subscription.active_until s) as [h|]; [|reflexivity].
  apply Z.ltb_lt in H2. apply Z.geb_le. lia.
Qed.

(** X10. On a table the exclusion constraint accepts, [active()] selects
    at most one subscription of an account at every instant that is not the
    [active_until] of a subscription of that account; at such an instant the
    lookup of [get_or_create_active_subscription] does not raise
    [MultipleObjectsReturned]. *)
Theorem active_unique_off_handover (w : World) (account : UserAccount.t)
    (now_get now_active now_since : datetime) :
  prevent_overlaps (subscriptions w) = true ->
  (forall s, In s (subscriptions w) -> Subscription.account s = UserAccount.pk account ->
     Subscription.active_until s <> Some now_get) ->
  (List.length (active_subscriptions now_get (UserAccount.pk account) (subscriptions w)) <= 1)%nat /\
  forall w',
    get_or_create_active_subscription now_get now_active now_since account w
    <> Raised (MultipleObjectsReturned SubscriptionModel) w'.
Proof.
  intros Hexcl Hoff.
  assert (Heq : active_subscriptions now_get (UserAccount.pk account) (subscriptions w)
                = in_range now_get (UserAccount.pk account) (subscriptions w)).
  { unfold active_subscriptions, in_range. apply filter_ext_in. intros s Hs.
    destruct (Z.eqb_spec (Subscription.account s) (UserAccount.pk account)) as [Hacct|];
      [|now rewrite !andb_false_r].
    rewrite !andb_true_r.
    destruct (SubscriptionQuerySet_active now_get s) eqn:Ea.
    - symmetry. apply active_in_tstzrange; [exact Ea | now apply Hoff].
    - destruct (in_tstzrange now_get s) eqn:Er; [|reflexivity].
      apply in_tstzrange_active in Er. congruence. }
  assert (Hlen : (List.length (active_subscriptions now_get (UserAccount.pk account)
                                 (subscriptions w)) <= 1)%nat).
  { rewrite Heq. now apply prevent_overlaps_unique. }
  split; [exact Hlen|].
  intros w'. unfold get_or_create_active_subscription, try_except.
  destruct (active_subscriptions now_get (UserAccount.pk account) (subscriptions w))
    as [|a [|b rest]]; simpl in Hlen; try lia;
    cbn [get raise ret is_DoesNotExist Model_eqb].
  2: { intros H; discriminate H. }
  unfold create_default_plan_subscription.
  destruct (active_subscriptions now_active _ _); [|unfold raise; intros H; discriminate H].
  unfold bind.
  destruct (filter _ (plans w)) as [|p [|q rest]];
    cbn [get raise ret]; try (intros H; discriminate H).
  unfold Subscription_objects_create, bind, write_subscriptions.
  repeat match goal with
         | |- context [negb ?b] => destruct b; cbn [negb]
         end;
    intros H; discriminate H.
Qed.

Lemma active_unique_off_handover_witness :
  (List.length (active_subscriptions 201%Z 5%Z (subscriptions world_handover)) <= 1)%nat /\
  forall w',
    get_or_create_active_subscription 201 201 201 (example_account 5 0) world_handover
    <> Raised (MultipleObjectsReturned SubscriptionModel) w'.
Proof.
  apply (active_unique_off_handover world_handover (example_account 5 0) 201 201 201).
  - reflexivity.
  - intros s [<-|[<-|[]]] _; discriminate.
Defined.

(** ** Saving a plan: what is refused and what is left alone *)

Lemma codes_unique_inj (tbl : list Plan.t) (p q : Plan.t) :
  codes_unique tbl = true -> In p tbl -> In q tbl -> Plan.code p = Plan.code q ->
  Plan.pk p <> Plan.pk q -> False.
Proof.
  induction tbl as [|r rest IH]; simpl; [intros _ []|].
  intros H Hp Hq Hcode Hpk. apply andb_true_iff in H. destruct H as [Hr Hrest].
  rewrite forallb_forall in Hr.
  destruct Hp as [->|Hp], Hq as [->|Hq].
  - now apply Hpk.
  - specialize (Hr q Hq). rewrite Hcode, String.eqb_refl in Hr. discriminate.
  - specialize (Hr p Hp). rewrite <- Hcode, String.eqb_refl in Hr. discriminate.
  - now apply IH.
Qed.

Lemma in_unset_table (self : Plan.t) (tbl : list Plan.t) (r : Plan.t) :
  In r tbl ->
  exists r', In r' (unset_table self tbl) /\ Plan.pk r' = Plan.pk r /\
    Plan.code r' = Plan.code r /\
    (Plan.is_default self = false \/ Plan.user_type r <> Plan.user_type self -> r' = r).
Proof.
  intros Hr. unfold unset_table. destruct (Plan.is_default self).
  - exists (unset (Plan.user_type self) r). split; [now apply in_map|].
    unfold unset. destruct (Z.eqb_spec (Plan.user_type r) (Plan.user_type self)).
    + repeat split. intros [H|H]; [discriminate | contradiction].
    + auto.
  - exists r. auto.
Qed.

Lemma in_saved_table_other (self : Plan.t) (tbl : list Plan.t) (r : Plan.t) :
  In r tbl -> pk_eqb (Plan.pk r) (Plan.pk self) = false -> In r (saved_table self tbl).
Proof.
  intros Hr Hpk. unfold saved_table. destruct (existsb _ tbl).
  - apply in_map_iff. exists r. rewrite Hpk. auto.
  - apply in_app_iff. now left.
Qed.

Lemma saved_object_pk (self : Plan.t) (tbl : list Plan.t) (r : Plan.t) :
  In r tbl -> pk_eqb (Plan.pk r) (Plan.pk self) = false ->
  Plan.pk r <> Plan.pk (saved_object self tbl).
Proof.
  intros Hr Hpk. destruct (existsb (fun r => pk_eqb (Plan.pk r) (Plan.pk self)) tbl) eqn:Hex.
  - unfold saved_object. rewrite Hex. intros Heq. rewrite Heq in Hpk.
    apply existsb_exists in Hex. destruct Hex as (r' & _ & Hr').
    apply pk_eqb_refl_r in Hr'. congruence.
  - now apply insert_key_fresh.
Qed.

Lemma saved_object_code (self : Plan.t) (tbl : list Plan.t) :
  Plan.code (saved_object self tbl) = Plan.code self.
Proof.
  unfold saved_object. destruct (existsb _ tbl); [reflexivity|].
  destruct (Plan.pk self); reflexivity.
Qed.

(** X11. [Plan.save] of a plan whose code is the code of another stored
    plan raises [IntegrityError] and leaves the database as it was: when the
    plan saved has [is_default] set, the plans the call had unset are
    flagged default again. *)
Theorem Plan_save_duplicate_code (w : World) (self r : Plan.t) :
  Plan.user_type self = User.PERSON \/ Plan.user_type self = User.ORGANIZATION ->
  In r (plans w) ->
  pk_eqb (Plan.pk r) (Plan.pk self) = false ->
  Plan.code r = Plan.code self ->
  Plan_save self w = Raised (IntegrityError "subscription_plan_code_key") w.
Proof.
  intros Hut Hr Hpk Hcode.
  destruct (in_unset_table self (plans w) r Hr) as (r' & Hr' & Hpk' & Hcode' & _).
  assert (Hdup : codes_unique (saved_table self (unset_table self (plans w))) = false).
  { destruct (codes_unique _) eqn:E; [|reflexivity]. exfalso.
    apply (codes_unique_inj _ r' (saved_object self (unset_table self (plans w))) E).
    - apply in_saved_table_other; [exact Hr' | now rewrite Hpk'].
    - apply saved_object_in.
    - rewrite saved_object_code. congruence.
    - apply saved_object_pk; [exact Hr' | now rewrite Hpk']. }
  unfold Plan_save.
  assert (Hvalid : negb ((Plan.user_type self =? User.PERSON)
                         || (Plan.user_type self =? User.ORGANIZATION)) = false).
  { destruct Hut as [->| ->]; reflexivity. }
  rewrite Hvalid. unfold atomic, bind.
  unfold unset_table, saved_table in Hdup.
  destruct (Plan.is_default self).
  - unfold Plan_unset_default, Model_save_plan, bind, write_plans. simpl.
    fold (unset (Plan.user_type self)).
    destruct (existsb _ _); rewrite Hdup; reflexivity.
  - unfold ret, Model_save_plan, bind, write_plans.
    destruct (existsb _ _); rewrite Hdup; reflexivity.
Qed.

(** Saving a second plan with the code [default_user], flagged default:
    refused, and [default_user] is still the default for persons. *)
Lemma Plan_save_duplicate_code_witness :
  Plan_save (Plan.new "default_user" "Another" true false User.PERSON) world_defaults
  = Raised (IntegrityError "subscription_plan_code_key") world_defaults /\
  default_plans User.PERSON (plans world_defaults) = [default_user].
Proof.
  split; [|reflexivity].
  apply (Plan_save_duplicate_code world_defaults
           (Plan.new "default_user" "Another" true false User.PERSON) default_user).
  - left. reflexivity.
  - simpl. auto.
  - reflexivity.
  - reflexivity.
Defined.

(** X12. [Plan.save] refuses a user type other than [PERSON] and
    [ORGANIZATION] with a validation error before it writes; a call that
    returns writes neither subscriptions nor packages, deletes no plan and
    inserts at most the plan saved, and leaves every other plan as it was
    unless the plan saved has [is_default] set and the other plan is of the
    same user type. *)
Theorem Plan_save_frame (w : World) (self : Plan.t) :
  (Plan.user_type self <> User.PERSON -> Plan.user_type self <> User.ORGANIZATION ->
   Plan_save self w = Raised (DjangoValidationError user_type_message) w) /\
  (forall r w', Plan_save self w = Returned r w' ->
     subscriptions w' = subscriptions w /\ packages w' = packages w /\
     (map Plan.pk (plans w') = map Plan.pk (plans w) \/
      map Plan.pk (plans w') = map Plan.pk (plans w) ++ [Plan.pk r]) /\
     forall p, In p (plans w) -> pk_eqb (Plan.pk p) (Plan.pk self) = false ->
       Plan.is_default self = false \/ Plan.user_type p <> Plan.user_type self ->
       In p (plans w')).
Proof.
  split.
  - intros H1 H2. unfold Plan_save.
    apply Z.eqb_neq in H1, H2. rewrite H1, H2. reflexivity.
  - intros r w' Hsave. apply Plan_save_returned in Hsave. destruct Hsave as [-> ->].
    split; [reflexivity|]. split; [reflexivity|]. split.
    + simpl.
      assert (Hkeys : map Plan.pk (unset_table self (plans w)) = map Plan.pk (plans w)).
      { unfold unset_table. destruct (Plan.is_default self); [|reflexivity].
        rewrite map_map. apply map_ext. intros a. apply unset_pk. }
      unfold saved_table, saved_object.
      destruct (existsb _ (unset_table self (plans w))).
      * left. rewrite map_map, <- Hkeys. apply map_ext. intros a.
        destruct (pk_eqb (Plan.pk a) (Plan.pk self)) eqn:E; [|reflexivity].
        symmetry. now apply pk_eqb_eq.
      * right. rewrite map_app, Hkeys. reflexivity.
    + intros p Hp Hpk Hframe. simpl.
      destruct (in_unset_table self (plans w) p Hp) as (p' & Hp' & _ & _ & Hsame).
      rewrite (Hsame Hframe) in Hp'.
      now apply in_saved_table_other.
Qed.

Lemma Plan_save_frame_witness :
  Plan_save (Plan.new "team" "Team" true false 3) world_defaults
  = Raised (DjangoValidationError user_type_message) world_defaults /\
  exists r w',
    Plan_save plan_pro world_defaults = Returned r w' /\
    In default_org (plans w') /\
    map Plan.pk (plans w') = [Some 1; Some 2; Some 3].
Proof.
  split.
  - apply (proj1 (Plan_save_frame world_defaults (Plan.new "team" "Team" true false 3)));
      discriminate.
  - eexists. eexists. split; [reflexivity|]. split; [|reflexivity].
    refine (proj2 (proj2 (proj2 (proj2 (Plan_save_frame world_defaults plan_pro) _ _ eq_refl)))
              default_org _ _ _).
    + simpl. auto.
    + reflexivity.
    + right. discriminate.
Defined.

Lemma first_by_is_default_spec (tbl : list Plan.t) :
  tbl <> [] ->
  exists p, first_by_is_default tbl = Some p /\ In p tbl /\
    ((exists q, In q tbl /\ Plan.is_default q = true) -> Plan.is_default p = true).
Proof.
  intros Hne. unfold first_by_is_default.
  destruct (filter Plan.is_default tbl) as [|p rest] eqn:Hf.
  - destruct tbl as [|p tbl]; [contradiction|].
    exists p. split; [reflexivity|]. split; [now left|].
    intros (q & Hq & Dq).
    assert (Hin : In q (filter Plan.is_default (p :: tbl))) by (apply filter_In; auto).
    rewrite Hf in Hin. destruct Hin.
  - assert (Hin : In p (filter Plan.is_default tbl)) by (rewrite Hf; now left).
    apply filter_In in Hin. exists p. tauto.
Qed.

(** X13. [Plan.get_or_create_default] always returns a plan of the table
    it leaves, never [None]; the plan returned is flagged default whenever
    a plan of that table is. *)
Theorem Plan_get_or_create_default_returns (w : World) :
  exists p w',
    Plan_get_or_create_default w = Returned (Some p) w' /\
    In p (plans w') /\
    ((exists q, In q (plans w') /\ Plan.is_default q = true) -> Plan.is_default p = true).
Proof.
  destruct (plans w) as [|p0 tbl] eqn:Hp.
  - exists default_user, (set_plans w [default_user; default_org]).
    split; [now apply Plan_get_or_create_default_empty|].
    split; [simpl; auto | reflexivity].
  - assert (Hne : plans w <> []) by congruence.
    destruct (first_by_is_default_spec (plans w) Hne) as (p & Hfirst & Hin & Hdef).
    exists p, w. split; [|split; assumption].
    rewrite Plan_get_or_create_default_nonempty; [|exact Hne]. now rewrite Hfirst.
Qed.


(** ** The active storage package *)

Lemma first_none (rows : list ExtraPackage.t) : QuerySet_first rows = None <-> rows = [].
Proof.
  destruct rows as [|p rest]; simpl; [tauto|].
  split; [|discriminate].
  destruct (QuerySet_first rest) as [q|]; [|discriminate].
  destruct (pk_leb _ _); discriminate.
Qed.

Lemma first_least (rows : list ExtraPackage.t) (p : ExtraPackage.t) :
  (forall r, In r rows -> ExtraPackage.pk r <> None) ->
  QuerySet_first rows = Some p ->
  In p rows /\ forall r, In r rows -> pk_leb (ExtraPackage.pk p) (ExtraPackage.pk r) = true.
Proof.
  revert p. induction rows as [|x rest IH]; simpl; [discriminate|].
  intros p Hkeys Hfirst.
  assert (Hrest : forall r, In r rest -> ExtraPackage.pk r <> None) by (intros; apply Hkeys; auto).
  assert (Hx : ExtraPackage.pk x <> None) by (apply Hkeys; auto).
  destruct (QuerySet_first rest) as [q|] eqn:Hq.
  - destruct (IH q Hrest eq_refl) as [Hin Hleast].
    assert (Hqk : ExtraPackage.pk q <> None) by now apply Hrest.
    destruct (pk_leb (ExtraPackage.pk x) (ExtraPackage.pk q)) eqn:E; injection Hfirst as <-.
    + split; [now left|]. intros r [<-|Hr].
      * destruct (ExtraPackage.pk x); [simpl; apply Z.leb_refl | contradiction].
      * specialize (Hleast r Hr).
        destruct (ExtraPackage.pk x), (ExtraPackage.pk q), (ExtraPackage.pk r);
          simpl in *; try contradiction; try discriminate.
        apply Z.leb_le in E, Hleast. apply Z.leb_le. lia.
    + split; [now right|]. intros r [<-|Hr]; [|now apply Hleast].
      destruct (ExtraPackage.pk x), (ExtraPackage.pk q);
        simpl in *; try contradiction; try discriminate.
      apply Z.leb_gt in E. apply Z.leb_le. lia.
  - apply first_none in Hq. subst rest. injection Hfirst as <-.
    split; [now left|]. intros r [<-|[]].
    destruct (ExtraPackage.pk x); [simpl; apply Z.leb_refl | contradiction].
Qed.

(** X14. [active_storage_package] never writes.  It returns [None] exactly
    when the subscription has no storage package active at the instant of
    the query; otherwise it returns a package of the subscription, of a
    storage type, active at that instant, whose key is the least among
    those. *)
Theorem active_storage_package_spec (w : World) (now : datetime)
    (types : list ExtraPackageType.t) (self : Subscription.t) :
  (forall p, In p (packages w) -> ExtraPackage.pk p <> None) ->
  exists result,
    active_storage_package now types self w = Returned result w /\
    (result = None <-> storage_packages now types self (packages w) = []) /\
    forall p, result = Some p ->
      In p (packages w) /\
      pk_eqb (ExtraPackage.subscription p) (Subscription.pk self) = true /\
      ExtraPackageQuerySet_active now p = true /\
      (exists t, In t types /\ ExtraPackageType.pk t = ExtraPackage.type p) /\
      forall r, In r (storage_packages now types self (packages w)) ->
        pk_leb (ExtraPackage.pk p) (ExtraPackage.pk r) = true.
Proof.
  intros Hkeys. eexists. split; [reflexivity|]. split; [apply first_none|].
  intros p Hp.
  assert (Hsel : forall r, In r (storage_packages now types self (packages w)) ->
                   ExtraPackage.pk r <> None).
  { intros r Hr. apply filter_In in Hr. now apply Hkeys. }
  destruct (first_least _ p Hsel Hp) as [Hin Hleast].
  apply filter_In in Hin. destruct Hin as [Hin Hf].
  apply andb_true_iff in Hf. destruct Hf as [Hf Ht].
  apply andb_true_iff in Hf. destruct Hf as [Hs Ha].
  apply existsb_exists in Ht. destruct Ht as (t & Ht & Htt).
  apply andb_true_iff in Htt. destruct Htt as [Htt _]. apply pk_eqb_eq in Htt.
  repeat split; try assumption. exists t. auto.
Qed.

Lemma active_storage_package_spec_witness :
  active_storage_package 150 [example_storage]
    (example_subscription 1 5 Subscription.ACTIVE_PAID (Some 100) None) world_packages
  = Returned (Some (example_package 1 1 1 3 100 (Some 200))) world_packages /\
  exists result,
    active_storage_package 150 [example_storage]
      (example_subscription 1 5 Subscription.ACTIVE_PAID (Some 100) None) world_packages
    = Returned result world_packages /\
    (result = None <->
     storage_packages 150 [example_storage]
       (example_subscription 1 5 Subscription.ACTIVE_PAID (Some 100) None)
       (packages world_packages) = []) /\
    forall p, result = Some p ->
      In p (packages world_packages) /\
      pk_eqb (ExtraPackage.subscription p)
        (Subscription.pk (example_subscription 1 5 Subscription.ACTIVE_PAID (Some 100) None))
      = true /\
      ExtraPackageQuerySet_active 150 p = true /\
      (exists t, In t [example_storage] /\ ExtraPackageType.pk t = ExtraPackage.type p) /\
      forall r,
        In r (storage_packages 150 [example_storage]
                (example_subscription 1 5 Subscription.ACTIVE_PAID (Some 100) None)
                (packages world_packages)) ->
        pk_leb (ExtraPackage.pk p) (ExtraPackage.pk r) = true.
Proof.
  split; [reflexivity|].
  apply (active_storage_package_spec world_packages 150 [example_storage]
           (example_subscription 1 5 Subscription.ACTIVE_PAID (Some 100) None)).
  intros p [<-|[<-|[<-|[]]]]; discriminate.
Defined.

(** X15. [active_storage_package_mb] is [active_storage_package_quantity]
    times 1000: both return 0 when no storage package is active at the
    first read of the property, both return from the package found by the
    second read, and both raise [AttributeError] when the first read finds
    a package and the second, at a later instant, finds none. *)
Theorem active_storage_package_mb_quantity (w : World) (now_if now_value : datetime)
    (types : list ExtraPackageType.t) (self : Subscription.t) :
  (storage_packages now_if types self (packages w) = [] ->
   active_storage_package_quantity now_if now_value types self w = Returned 0 w /\
   active_storage_package_mb now_if now_value types self w = Returned 0 w) /\
  (forall q,
     active_storage_package_quantity now_if now_value types self w = Returned q w <->
     active_storage_package_mb now_if now_value types self w = Returned (q * 1000) w) /\
  (storage_packages now_if types self (packages w) <> [] ->
   storage_packages now_value types self (packages w) = [] ->
   active_storage_package_quantity now_if now_value types self w
   = Raised (AttributeError "NoneType" "quantity") w /\
   active_storage_package_mb now_if now_value types self w
   = Raised (AttributeError "NoneType" "quantity") w).
Proof.
  unfold active_storage_package_quantity, active_storage_package_mb, active_storage_package,
    bind, ret, raise.
  split; [|split].
  - intros ->. split; reflexivity.
  - intros q.
    destruct (QuerySet_first (storage_packages now_if types self (packages w))) as [c|].
    + destruct (QuerySet_first (storage_packages now_value types self (packages w))) as [p|].
      * split; intros [= H]; f_equal; lia.
      * split; discriminate.
    + split; intros [= H]; f_equal; lia.
  - intros Hif Hvalue.
    destruct (QuerySet_first (storage_packages now_if types self (packages w))) as [c|] eqn:E.
    + rewrite Hvalue. split; reflexivity.
    + apply first_none in E. contradiction.
Qed.

Lemma active_storage_package_mb_quantity_witness :
  active_storage_package_quantity 150 150 [example_storage]
    (example_subscription 1 5 Subscription.ACTIVE_PAID (Some 100) None) world_packages
  = Returned 3 world_packages /\
  active_storage_package_mb 150 150 [example_storage]
    (example_subscription 1 5 Subscription.ACTIVE_PAID (Some 100) None) world_packages
  = Returned 3000 world_packages /\
  active_storage_package_quantity 200 201 [example_storage]
    (example_subscription 1 5 Subscription.ACTIVE_PAID (Some 100) None) world_package_ending
  = Raised (AttributeError "NoneType" "quantity") world_package_ending /\
  active_storage_package_mb 200 201 [example_storage]
    (example_subscription 1 5 Subscription.ACTIVE_PAID (Some 100) None) world_package_ending
  = Raised (AttributeError "NoneType" "quantity") world_package_ending.
Proof.
  split; [reflexivity|]. split.
  - apply (proj1 (proj1 (proj2 (active_storage_package_mb_quantity world_packages 150 150
                                  [example_storage]
                                  (example_subscription 1 5 Subscription.ACTIVE_PAID (Some 100)
                                     None))) 3)).
    reflexivity.
  - apply (proj2 (proj2 (active_storage_package_mb_quantity world_package_ending 200 201
                           [example_storage]
                           (example_subscription 1 5 Subscription.ACTIVE_PAID (Some 100) None)))).
    + discriminate.
    + reflexivity.
Defined.

(** ** Storage quota: order *)

(** X16. Below [1000 * 2 ^ 44] megabytes over the plan,
    [min_storage_package_quantity] follows the storage used and the storage
    included: an account that uses no more storage, on a plan that
    includes no less, needs no more packages; and no package is needed
    exactly when the storage used does not exceed the storage included. *)
Theorem min_storage_package_quantity_monotone (account1 account2 : UserAccount.t)
    (plan1 plan2 : Plan.t) :
  UserAccount.storage_quota_used_mb account1 - Plan.storage_mb plan1 < 1000 * 2 ^ 44 ->
  UserAccount.storage_quota_used_mb account2 - Plan.storage_mb plan2 < 1000 * 2 ^ 44 ->
  exists q1 q2,
    min_storage_package_quantity account1 plan1 = inl q1 /\
    min_storage_package_quantity account2 plan2 = inl q2 /\
    (UserAccount.storage_quota_used_mb account1 <= UserAccount.storage_quota_used_mb account2 ->
     Plan.storage_mb plan2 <= Plan.storage_mb plan1 ->
     q1 <= q2) /\
    (q1 = 0 <-> UserAccount.storage_quota_used_mb account1 <= Plan.storage_mb plan1).
Proof.
  intros H1 H2.
  rewrite (min_storage_package_quantity_value account1 plan1 H1).
  rewrite (min_storage_package_quantity_value account2 plan2 H2).
  eexists. eexists. split; [reflexivity|]. split; [reflexivity|]. split.
  - intros Hused Hincl. apply ceiling_div_le.
    assert (H := proj1 (ceiling_div_le
      (Z.max (UserAccount.storage_quota_used_mb account2 - Plan.storage_mb plan2) 0)
      _) (Z.le_refl _)).
    lia.
  - set (m := Z.max _ 0).
    assert (Hm : 0 <= m) by (unfold m; lia).
    pose proof (ceiling_div_le m 0) as H0.
    assert (Hge : 0 <= (m + 999) / 1000) by (apply Z.div_pos; lia).
    unfold m in *. lia.
Qed.

Lemma min_storage_package_quantity_monotone_witness :
  exists q1 q2,
    min_storage_package_quantity (example_account 1 1500)
      (example_plan 1 User.PERSON true false 1000 "community") = inl q1 /\
    min_storage_package_quantity (example_account 2 2500)
      (example_plan 2 User.PERSON false false 500 "small") = inl q2 /\
    q1 <= q2 /\ q1 = 1 /\ q2 = 2.
Proof.
  destruct (min_storage_package_quantity_monotone (example_account 1 1500)
              (example_account 2 2500)
              (example_plan 1 User.PERSON true false 1000 "community")
              (example_plan 2 User.PERSON false false 500 "small"))
    as (q1 & q2 & Hq1 & Hq2 & Hle & _); [reflexivity | reflexivity |].
  exists q1, q2. split; [exact Hq1|]. split; [exact Hq2|].
  split; [apply Hle; simpl; lia|].
  vm_compute in Hq1, Hq2. split; congruence.
Defined.

(** ** Migration 0004: the data steps on subscriptions *)

Lemma populate_app (now : datetime) (accounts : list MigrationAccount)
    (tbl : list MigrationSubscription) :
  exists rows,
    populate_subscriptions_model now accounts tbl = tbl ++ rows /\
    Forall2 (fun a r => exists id, r = populated_row now id a) accounts rows.
Proof.
  revert tbl. induction accounts as [|a accounts IH]; intros tbl.
  - exists []. split; [simpl; now rewrite app_nil_r | constructor].
  - unfold populate_subscriptions_model. simpl.
    fold (populated_row now (next_pk (map row_id tbl)) a).
    destruct (IH (tbl ++ [populated_row now (next_pk (map row_id tbl)) a])) as (rows & Heq & Hall).
    unfold populate_subscriptions_model in Heq. rewrite Heq.
    exists (populated_row now (next_pk (map row_id tbl)) a :: rows).
    split; [now rewrite <- app_assoc|].
    constructor; [now eexists | exact Hall].
Qed.

Lemma rows_distinct_accounts (tbl : list MigrationSubscription) :
  NoDup (map row_account_id tbl) -> rows_prevent_overlaps tbl = true.
Proof.
  induction tbl as [|r rest IH]; simpl; [reflexivity|].
  intros Hnd. inversion Hnd as [|? ? Hr Hrest]; subst.
  rewrite (IH Hrest), andb_true_r.
  apply forallb_forall. intros r' Hr'.
  unfold row_excluded.
  destruct (row_active_since r), (row_active_since r'); try reflexivity.
  destruct (Z.eqb_spec (row_account_id r) (row_account_id r')) as [Heq|]; [|reflexivity].
  exfalso. apply Hr. rewrite Heq. now apply in_map.
Qed.

Lemma populated_accounts (now : datetime) (accounts : list MigrationAccount)
    (rows : list MigrationSubscription) :
  Forall2 (fun a r => exists id, r = populated_row now id a) accounts rows ->
  map row_account_id rows = map account_pk accounts.
Proof.
  induction 1 as [|a r accounts rows (id & ->) _ IH]; simpl; [reflexivity|].
  now rewrite IH.
Qed.

(** X17. The forward data step of migration 0004, run on the empty table
    it has just created, inserts one subscription per account, in order,
    with status [active_paid], the plan of the account and the period from
    [now] without end; since accounts have distinct keys, the table
    satisfies the exclusion constraint the next operation adds. *)
Theorem populate_subscriptions_model_accepted (now : datetime)
    (accounts : list MigrationAccount) :
  NoDup (map account_pk accounts) ->
  Forall2 (fun a r => exists id, r = populated_row now id a) accounts
    (populate_subscriptions_model now accounts []) /\
  rows_prevent_overlaps (populate_subscriptions_model now accounts []) = true.
Proof.
  intros Hnd.
  destruct (populate_app now accounts []) as (rows & Heq & Hall).
  simpl in Heq. rewrite Heq. split; [exact Hall|].
  apply rows_distinct_accounts. now rewrite (populated_accounts now accounts rows Hall).
Qed.

Lemma populate_subscriptions_model_accepted_witness :
  populate_subscriptions_model 100 example_accounts []
  = [populated_row 100 1 {| account_pk := 5; account_user_id := 5; account_plan_id := Some 1 |};
     populated_row 100 2 {| account_pk := 6; account_user_id := 6; account_plan_id := Some 2 |}] /\
  rows_prevent_overlaps (populate_subscriptions_model 100 example_accounts []) = true.
Proof.
  split; [reflexivity|].
  apply (proj2 (populate_subscriptions_model_accepted 100 example_accounts
                  ltac:(simpl; repeat constructor; simpl; intuition discriminate))).
Defined.

Lemma restore_plan_other (s : MigrationSubscription) (accounts : list MigrationAccount) :
  ~ In (row_account_id s) (map account_user_id accounts) ->
  map (fun a => if account_user_id a =? row_account_id s
                then {| account_pk := account_pk a;
                        account_user_id := account_user_id a;
                        account_plan_id := row_plan_id s |}
                else a) accounts
  = accounts.
Proof.
  induction accounts as [|a accounts IH]; simpl; [reflexivity|].
  intros Hnot. rewrite IH; [|tauto].
  destruct (Z.eqb_spec (account_user_id a) (row_account_id s)) as [Heq|]; [|reflexivity].
  exfalso. apply Hnot. now left.
Qed.

(** The reverse step over the rows of a list of accounts: the accounts of
    [before] have been given their plans back, the accounts of [current]
    are the accounts of [accounts] with whatever plans they hold now. *)
Lemma restore_plans (now : datetime) (accounts current before : list MigrationAccount)
    (rows : list MigrationSubscription) :
  Forall2 (fun a r => exists id, r = populated_row now id a) accounts rows ->
  Forall2 (fun a c => account_pk c = account_pk a /\ account_user_id c = account_user_id a)
    accounts current ->
  (forall a, In a (before ++ accounts) -> account_pk a = account_user_id a) ->
  NoDup (map account_pk (before ++ accounts)) ->
  fold_left
    (fun accounts subscription =>
       map (fun a => if account_user_id a =? row_account_id subscription
                     then {| account_pk := account_pk a;
                             account_user_id := account_user_id a;
                             account_plan_id := row_plan_id subscription |}
                     else a)
         accounts)
    rows (before ++ current)
  = before ++ accounts.
Proof.
  intros Hall. revert current before.
  induction Hall as [|a r accounts rows (id & ->) _ IH]; intros current before Hcur Hkey Hnd.
  - inversion Hcur; subst. reflexivity.
  - inversion Hcur as [|? c ? cur [Hpk Huser] Hrest]; subst. simpl.
    assert (Hstep :
      map (fun x => if account_user_id x =? account_pk a
                    then {| account_pk := account_pk x;
                            account_user_id := account_user_id x;
                            account_plan_id := account_plan_id a |}
                    else x) (before ++ c :: cur)
      = before ++ a :: cur).
    { rewrite map_app in Hnd. simpl in Hnd.
      pose proof (NoDup_remove_2 _ _ _ Hnd) as Hfresh.
      rewrite map_app. simpl.
      assert (Ha : account_pk a = account_user_id a)
        by (apply Hkey; apply in_or_app; right; now left).
      rewrite Huser, <- Ha, Z.eqb_refl.
      assert (Hrec : {| account_pk := account_pk c; account_user_id := account_pk a;
                        account_plan_id := account_plan_id a |} = a).
      { clear -Hpk Ha. destruct a; simpl in *. congruence. }
      rewrite Hrec.
      f_equal; [|f_equal].
      - apply (restore_plan_other (populated_row now id a)).
        intros Hin. apply Hfresh. apply in_or_app. left.
        rewrite in_map_iff in Hin. destruct Hin as (x & Hx1 & Hx2).
        simpl in Hx1. rewrite <- Hx1, <- Hkey; [now apply in_map | apply in_or_app; now left].
      - apply (restore_plan_other (populated_row now id a)).
        intros Hin. apply Hfresh. apply in_or_app. right.
        rewrite in_map_iff in Hin. destruct Hin as (x & Hx1 & Hx2).
        simpl in Hx1.
        assert (Hx : exists y, In y accounts /\ account_user_id y = account_user_id x).
        { clear -Hrest Hx2. induction Hrest as [|y z ys zs [_ Hyz] _ IHr]; [destruct Hx2|].
          destruct Hx2 as [->|Hx2]; [exists y; split; [now left | now symmetry]|].
          destruct (IHr Hx2) as (y' & Hy' & Hu). exists y'. split; [now right | exact Hu]. }
        destruct Hx as (y & Hy & Hu).
        rewrite <- Hx1, <- Hu, <- Hkey; [now apply in_map | apply in_or_app; right; now right]. }
    rewrite Hstep.
    replace (before ++ a :: cur) with ((before ++ [a]) ++ cur) by (now rewrite <- app_assoc).
    replace (before ++ a :: accounts) with ((before ++ [a]) ++ accounts)
      by (now rewrite <- app_assoc).
    apply IH.
    + exact Hrest.
    + intros x Hx. apply Hkey. rewrite <- app_assoc in Hx. exact Hx.
    + now rewrite <- app_assoc.
Qed.

Lemma populated_open_ended (now now' : datetime) (accounts : list MigrationAccount)
    (rows : list MigrationSubscription) :
  Forall2 (fun a r => exists id, r = populated_row now id a) accounts rows ->
  filter (fun s => match row_active_until s with
                   | None => true
                   | Some until => until >=? now'
                   end) rows = rows.
Proof.
  induction 1 as [|a r accounts rows (id & ->) _ IH]; simpl; [reflexivity|].
  now rewrite IH.
Qed.

(** X18. The reverse data step undoes the forward one.  The accounts are
    stored under the key of their user and keys are distinct.  The forward
    step runs on [accounts]; later the reverse step finds the same
    accounts, with plans that may have been changed or dropped in the
    meantime ([current]).  It gives every account the plan it had when the
    forward step ran, whatever the instants the two steps read. *)
Theorem populate_account_plan_field_restores (now now' : datetime)
    (accounts current : list MigrationAccount) :
  (forall a, In a accounts -> account_pk a = account_user_id a) ->
  NoDup (map account_pk accounts) ->
  Forall2 (fun a c => account_pk c = account_pk a /\ account_user_id c = account_user_id a)
    accounts current ->
  populate_account_plan_field now'
    (populate_subscriptions_model now accounts []) current
  = accounts.
Proof.
  intros Hkey Hnd Hcur.
  destruct (populate_app now accounts []) as (rows & Heq & Hall).
  simpl in Heq. rewrite Heq. unfold populate_account_plan_field.
  rewrite (populated_open_ended now now' accounts rows Hall).
  exact (restore_plans now accounts current [] rows Hall Hcur Hkey Hnd).
Qed.

(** Account 5 has lost its plan and account 6 has been moved to plan 9
    when the reverse step runs. *)
Lemma populate_account_plan_field_restores_witness :
  populate_account_plan_field 300 (populate_subscriptions_model 100 example_accounts [])
    [{| account_pk := 5; account_user_id := 5; account_plan_id := None |};
     {| account_pk := 6; account_user_id := 6; account_plan_id := Some 9 |}]
  = example_accounts.
Proof.
  apply (populate_account_plan_field_restores 100 300 example_accounts).
  - intros a [<-|[<-|[]]]; reflexivity.
  - simpl. repeat constructor; simpl; intuition discriminate.
  - repeat constructor.
Defined.

(** ** Active periods are intervals *)

Lemma ExtraPackageQuerySet_active_iff (now : datetime) (p : ExtraPackage.t) :
  ExtraPackageQuerySet_active now p = true <->
  ExtraPackage.active_since p <= now /\
  (forall u, ExtraPackage.active_until p = Some u -> now <= u).
Proof.
  unfold ExtraPackageQuerySet_active. rewrite andb_true_iff, Z.leb_le. split.
  - intros [H1 H2]. split; [exact H1|]. intros u Hu. rewrite Hu in H2.
    now apply Z.geb_le in H2.
  - intros [H1 H2]. split; [exact H1|].
    destruct (ExtraPackage.active_until p) as [u|]; [|reflexivity].
    apply Z.geb_le. now apply H2.
Qed.

(** X19. What [active()] selects is an interval of instants: a
    subscription or a package selected at two instants is selected at every
    instant between them, and one without [active_until] that is selected at
    an instant is selected at every later one. *)
Theorem active_interval (s : Subscription.t) (p : ExtraPackage.t) (t1 t2 t3 : datetime) :
  t1 <= t2 -> t2 <= t3 ->
  (SubscriptionQuerySet_active t1 s = true -> SubscriptionQuerySet_active t3 s = true ->
   SubscriptionQuerySet_active t2 s = true) /\
  (ExtraPackageQuerySet_active t1 p = true -> ExtraPackageQuerySet_active t3 p = true ->
   ExtraPackageQuerySet_active t2 p = true) /\
  (Subscription.active_until s = None -> SubscriptionQuerySet_active t1 s = true ->
   SubscriptionQuerySet_active t2 s = true) /\
  (ExtraPackage.active_until p = None -> ExtraPackageQuerySet_active t1 p = true ->
   ExtraPackageQuerySet_active t2 p = true).
Proof.
  intros H12 H23. repeat split.
  - rewrite !SubscriptionQuerySet_active_iff.
    intros (a & Ha & H1 & _) (a' & Ha' & _ & H3).
    exists a. split; [exact Ha|]. split; [lia|].
    intros u Hu. specialize (H3 u Hu). lia.
  - rewrite !ExtraPackageQuerySet_active_iff.
    intros [H1 _] [_ H3]. split; [lia|].
    intros u Hu. specialize (H3 u Hu). lia.
  - rewrite !SubscriptionQuerySet_active_iff.
    intros Hnone (a & Ha & H1 & _).
    exists a. split; [exact Ha|]. split; [lia|]. intros u Hu. congruence.
  - rewrite !ExtraPackageQuerySet_active_iff.
    intros Hnone [H1 _]. split; [lia|]. intros u Hu. congruence.
Qed.

Lemma active_interval_witness :
  SubscriptionQuerySet_active 150
    (example_subscription 1 5 Subscription.ACTIVE_PAID (Some 100) (Some 200)) = true.
Proof.
  apply (proj1 (active_interval
                  (example_subscription 1 5 Subscription.ACTIVE_PAID (Some 100) (Some 200))
                  (example_package 1 1 1 3 100 None) 100 150 200
                  ltac:(lia) ltac:(lia))); reflexivity.
Defined.

(** ** Lookups after writes *)

(** X20. The subscription [get_or_create_active_subscription] returns is a
    row of the table the call leaves, belongs to the account, and is
    selected by [active()] at the instant of the lookup when it was found,
    and at the instant [timezone.now()] gave for its [active_since] when it
    was created. *)
Theorem get_or_create_active_subscription_returns_active (w w' : World)
    (account : UserAccount.t) (now_get now_active now_since : datetime) (s : Subscription.t) :
  get_or_create_active_subscription now_get now_active now_since account w = Returned s w' ->
  In s (subscriptions w') /\
  Subscription.account s = UserAccount.pk account /\
  (SubscriptionQuerySet_active now_get s = true /\ w' = w \/
   SubscriptionQuerySet_active now_since s = true /\
   subscriptions w' = subscriptions w ++ [s]).
Proof.
  unfold get_or_create_active_subscription, try_except.
  destruct (active_subscriptions now_get (UserAccount.pk account) (subscriptions w))
    as [|a [|b rest]] eqn:Hget; cbn [get raise ret is_DoesNotExist Model_eqb];
    [| |discriminate].
  - unfold create_default_plan_subscription.
    destruct (active_subscriptions now_active _ _); [|discriminate].
    unfold bind.
    destruct (filter _ (plans w)) as [|p [|q rest]]; cbn [get raise ret]; try discriminate.
    unfold Subscription_objects_create, bind.
    destruct (write_subscriptions _ w) as [u w1|e w1] eqn:Hw; [|discriminate].
    apply write_subscriptions_returned in Hw. destruct Hw as (_ & _ & ->).
    unfold ret. intros [= <- <-]. simpl.
    split; [apply in_or_app; right; now left|]. split; [reflexivity|].
    right. split; [|reflexivity].
    unfold SubscriptionQuerySet_active. simpl. now rewrite Z.leb_refl.
  - intros [= <- <-].
    assert (Hin : In a (active_subscriptions now_get (UserAccount.pk account) (subscriptions w)))
      by (rewrite Hget; now left).
    apply filter_In in Hin. destruct Hin as [Hin Hsel].
    apply andb_true_iff in Hsel. destruct Hsel as [Ha Hacct]. apply Z.eqb_eq in Hacct.
    auto.
Qed.

Lemma get_or_create_active_subscription_returns_active_witness :
  exists s w',
    get_or_create_active_subscription 200 200 200 (example_account 5 0) world_ended
    = Returned s w' /\
    In s (subscriptions w') /\
    Subscription.account s = 5 /\
    (SubscriptionQuerySet_active 200 s = true /\ w' = world_ended \/
     SubscriptionQuerySet_active 200 s = true /\
     subscriptions w' = subscriptions world_ended ++ [s]).
Proof.
  eexists. eexists. split; [cbv; reflexivity|].
  eapply (get_or_create_active_subscription_returns_active world_ended _
            (example_account 5 0) 200 200 200 _ eq_refl).
Defined.

Lemma update_subscription_object_stored (w w' : World) (now : datetime)
    (subscription b' : Subscription.t) (status : Subscription.Status)
    (active_since : datetime) (active_until : option datetime) (kwargs : list Attr) :
  update_subscription now subscription status active_since active_until kwargs w
  = Returned b' w' ->
  In b' (subscriptions w').
Proof.
  intros Hcall. apply update_subscription_returned in Hcall.
  destruct Hcall as (row & Hrow & -> & -> & _ & _).
  assert (Hin : In row (filter (fun s => pk_eqb (Subscription.pk s) (Subscription.pk subscription))
                          (subscriptions w))) by (rewrite Hrow; now left).
  apply filter_In in Hin. destruct Hin as [Hin Hpk].
  assert (Hrr : pk_eqb (Subscription.pk row) (Subscription.pk row) = true)
    by (rewrite (pk_eqb_eq _ _ Hpk) at 2; exact Hpk).
  simpl. unfold updated_table. apply in_map_iff. exists row. split.
  - rewrite Hrr. apply stored_row_is_object.
  - apply in_map_iff. exists row. split; [|exact Hin].
    unfold others_active. rewrite Hrr, andb_false_r. reflexivity.
Qed.

Lemma active_subscriptions_in_range (t : datetime) (account_pk : Z)
    (tbl : list Subscription.t) :
  (forall s, In s tbl -> Subscription.account s = account_pk ->
     Subscription.active_until s <> Some t) ->
  active_subscriptions t account_pk tbl = in_range t account_pk tbl.
Proof.
  intros Hoff. unfold active_subscriptions, in_range. apply filter_ext_in. intros s Hs.
  destruct (Z.eqb_spec (Subscription.account s) account_pk) as [Hacct|];
    [|now rewrite !andb_false_r].
  rewrite !andb_true_r.
  destruct (SubscriptionQuerySet_active t s) eqn:Ea.
  - symmetry. apply active_in_tstzrange; [exact Ea | now apply Hoff].
  - destruct (in_tstzrange t s) eqn:Er; [|reflexivity].
    apply in_tstzrange_active in Er. congruence.
Qed.

(** X21. A lookup after an activation finds the activated subscription.
    After [update_subscription] has returned [b'], a call of
    [get_or_create_active_subscription] for the account of [b'], at an
    instant inside the period of [b'] that is not the [active_until] of a
    subscription of the account, returns [b'] and writes nothing. *)
Theorem update_subscription_then_lookup (w w' : World) (now : datetime)
    (subscription b' : Subscription.t) (status : Subscription.Status)
    (active_since : datetime) (active_until : option datetime) (kwargs : list Attr)
    (account : UserAccount.t) (later later_active later_since : datetime) :
  update_subscription now subscription status active_since active_until kwargs w
  = Returned b' w' ->
  Subscription.account b' = UserAccount.pk account ->
  active_since <= later ->
  (forall s, In s (subscriptions w') -> Subscription.account s = UserAccount.pk account ->
     Subscription.active_until s <> Some later) ->
  before later active_until = true ->
  get_or_create_active_subscription later later_active later_since account w'
  = Returned b' w'.
Proof.
  intros Hcall Hacct Hsince Hoff Huntil.
  pose proof (update_subscription_object_stored _ _ _ _ _ _ _ _ _ Hcall) as Hstored.
  pose proof (update_subscription_returned _ _ _ _ _ _ _ _ _ Hcall)
    as (row & _ & Hb' & _ & _ & Hexcl).
  assert (Hfields : Subscription.active_since b' = Some active_since /\
                    Subscription.active_until b' = active_until).
  { rewrite Hb'. unfold updated.
    destruct (setattr_kwargs_keeps kwargs
                (Subscription.set_active_until
                   (Subscription.set_active_since (Subscription.set_status row status)
                      (Some active_since)) active_until)) as (_ & _ & K3 & K4).
    rewrite K3, K4. split; reflexivity. }
  destruct Hfields as [Fs Fu].
  assert (Hrange : in_tstzrange later b' = true).
  { unfold in_tstzrange. rewrite Fs, Fu, Huntil, andb_true_r. now apply Z.leb_le. }
  assert (Hin : In b' (active_subscriptions later (UserAccount.pk account) (subscriptions w'))).
  { rewrite (active_subscriptions_in_range _ _ _ Hoff). apply filter_In.
    split; [exact Hstored|]. rewrite Hrange, Hacct, Z.eqb_refl. reflexivity. }
  pose proof (prevent_overlaps_unique (subscriptions w') later (UserAccount.pk account) Hexcl)
    as Hlen.
  rewrite <- (active_subscriptions_in_range _ _ _ Hoff) in Hlen.
  unfold get_or_create_active_subscription, try_except.
  destruct (active_subscriptions later (UserAccount.pk account) (subscriptions w'))
    as [|a [|b rest]]; simpl in Hlen, Hin; try lia; try contradiction.
  destruct Hin as [->|[]]. reflexivity.
Qed.

(** [B] is activated from 2023-06-01; a lookup for account 5 one second
    later returns [B]. *)
Lemma update_subscription_then_lookup_witness :
  exists b' w',
    update_subscription t_2023_05_20 sub_B Subscription.ACTIVE_PAID t_2023_06_01 None []
      world_A_B = Returned b' w' /\
    Subscription.pk b' = Some 2 /\
    get_or_create_active_subscription (t_2023_06_01 + 1000000) (t_2023_06_01 + 1000000)
      (t_2023_06_01 + 1000000) (example_account 5 0) w' = Returned b' w'.
Proof.
  eexists. eexists. split; [reflexivity|]. split; [reflexivity|].
  eapply (update_subscription_then_lookup world_A_B _ t_2023_05_20 sub_B _
            Subscription.ACTIVE_PAID t_2023_06_01 None [] (example_account 5 0)).
  - reflexivity.
  - reflexivity.
  - unfold t_2023_06_01. lia.
  - intros s [<-|[<-|[]]] _; discriminate.
  - reflexivity.
Defined.

(** ** The exclusion constraint *)

(** Two rows exclude each other exactly when they belong to one account and
    an instant lies in the ranges of both. *)
Lemma excluded_iff (a b : Subscription.t) :
  excluded a b = true <->
  Subscription.account a = Subscription.account b /\
  exists t, in_tstzrange t a = true /\ in_tstzrange t b = true.
Proof.
  split.
  - unfold excluded, in_tstzrange, tstzrange_overlap.
    destruct (Subscription.active_since a) as [la|]; [|discriminate].
    destruct (Subscription.active_since b) as [lb|]; [|discriminate].
    intros H. repeat (apply andb_true_iff in H; destruct H as [H ?]).
    apply Z.eqb_eq in H. split; [exact H|].
    exists (Z.max la lb).
    unfold before in *.
    destruct (Subscription.active_until a) as [ha|], (Subscription.active_until b) as [hb|];
      repeat match goal with
             | H : (_ <? _) = true |- _ => apply Z.ltb_lt in H
             end;
      split; apply andb_true_iff; split;
      try reflexivity; try (apply Z.leb_le; lia); apply Z.ltb_lt; lia.
  - intros [Hacct (t & Ha & Hb)]. now apply (in_tstzrange_excluded t).
Qed.

Lemma in_range_cons_le (t : datetime) (account : Z) (r : Subscription.t)
    (rest : list Subscription.t) :
  (List.length (in_range t account rest) <= List.length (in_range t account (r :: rest)))%nat.
Proof.
  unfold in_range. simpl.
  destruct (in_tstzrange t r && (Subscription.account r =? account)); simpl; lia.
Qed.

Lemma prevent_overlaps_in_range (tbl : list Subscription.t) :
  prevent_overlaps tbl = true <->
  forall (t : datetime) (account : Z), (List.length (in_range t account tbl) <= 1)%nat.
Proof.
  split.
  - intros H t account. now apply prevent_overlaps_unique.
  - induction tbl as [|r rest IH]; intros H; simpl; [reflexivity|].
    apply andb_true_iff. split.
    + apply forallb_forall. intros r' Hr'.
      destruct (excluded r r') eqn:E; [|reflexivity]. exfalso.
      apply excluded_iff in E. destruct E as [Hacct (t & Ha & Hb)].
      specialize (H t (Subscription.account r)).
      unfold in_range in H. simpl in H.
      rewrite Ha, Z.eqb_refl in H. simpl in H.
      assert (Hin : In r' (filter (fun s => in_tstzrange t s
                                            && (Subscription.account s =? Subscription.account r))
                             rest)).
      { apply filter_In. split; [exact Hr'|].
        rewrite Hb, <- Hacct, Z.eqb_refl. reflexivity. }
      destruct (filter _ rest); [destruct Hin | simpl in H; lia].
    + apply IH. intros t account. specialize (H t account).
      pose proof (in_range_cons_le t account r rest). lia.
Qed.

Lemma range_defined_iff (tbl : list Subscription.t) :
  forallb range_defined tbl = true <->
  forall s lo hi, In s tbl ->
    Subscription.active_since s = Some lo -> Subscription.active_until s = Some hi -> lo <= hi.
Proof.
  rewrite forallb_forall. split.
  - intros H s lo hi Hs Hlo Hhi. specialize (H s Hs).
    unfold range_defined, tstzrange_defined in H. rewrite Hlo, Hhi in H.
    now apply Z.leb_le.
  - intros H s Hs. unfold range_defined, tstzrange_defined.
    destruct (Subscription.active_since s) as [lo|] eqn:Hlo; [|reflexivity].
    destruct (Subscription.active_until s) as [hi|] eqn:Hhi; [|reflexivity].
    apply Z.leb_le. now apply (H s).
Qed.

